(** * daily_spanish_verb: word selection, feedback and history

  A shallow embedding of the core of the daily Spanish vocabulary bot:
  [utils/data_manager.py], [utils/word_selector.py],
  [utils/feedback_processor.py], and the two entry points [main.py] and
  [check_feedback.py].

  Conventions of the embedding.
  - Python [float] values (difficulty levels, the draw of
    [random.random()]) are exact rationals [Q]; comparisons are the
    boolean comparisons of [Q], sums are exact.  The one sum of the code,
    [old_level + adjustment], is also embedded on binary64 floats
    ([Binary64]); statements that depend on the value of that sum are
    made for levels on which the two agree.
  - Python [int] identifiers are [Z].
  - [str] values that the code inspects (feedback text, subjects) are
    lists of ASCII characters; keys and opaque fields are [string].
    [parse_feedback_from_text] is also embedded on texts of Unicode code
    points ([Unicode]), with the class [\w] and [str.lower()] of the
    interpreter as parameters; on ASCII texts the two embeddings agree.
  - The only mutable resource is the history file.  A computation is a
    function from the content of that file to an outcome (an exception
    or a value) and the new content: an exception does not undo a write
    that happened before it.
  - [datetime.now()], [random.random()], [random.choice] and the two mail
    collaborators are inputs of the functions that use them. *)

From Stdlib Require Import ZArith NArith QArith List String Ascii Bool Lia Lqa.
From Stdlib Require PrimFloat FloatOps SpecFloat.
Import ListNotations.

Local Open Scope Q_scope.

(** ** Python built-ins used by the code *)

Module Py.

(** Exceptions that the modelled code raises or catches. *)
Inductive exn : Type :=
| FileNotFoundError
| JSONDecodeError
| KeyError
| ValueError
| IndexError
| IMAP4Error
| OSError.

Definition result (A : Type) : Type := (exn + A)%type.

Definition Qltb (x y : Q) : bool := negb (Qle_bool y x).

(** [min(a, b)]: the first argument unless the second is smaller. *)
Definition min (a b : Q) : Q := if Qltb b a then b else a.

(** [max(a, b)]: the first argument unless the second is larger. *)
Definition max (a b : Q) : Q := if Qltb a b then b else a.

(** [x in l] for a list of integers. *)
Definition contains (x : Z) (l : list Z) : bool := existsb (Z.eqb x) l.

(** [not l] for a list: true on the empty list. *)
Definition is_empty {A : Type} (l : list A) : bool :=
  match l with [] => true | _ :: _ => false end.

(** [random.choice(seq)]: [seq[i]] for a drawn index [i] below
    [len(seq)]; [IndexError] on an empty sequence.  The draw is the
    natural number [k], reduced below the length. *)
Definition choice {A : Type} (k : nat) (seq : list A) : result A :=
  match nth_error seq (Nat.modulo k (List.length seq)) with
  | Some x => inr x
  | None => inl IndexError
  end.

End Py.

Import Py.

(** ** utils/data_manager.py *)

Module DataManager.

(** An element of ["sent_emails"]. *)
Record SentEmail : Type := {
  se_date : string;
  se_verb_id : Z;
  se_adjective_id : Z;
  se_success : bool;
  se_difficulty_level : Q
}.

(** An element of ["difficulty_adjustments"]. *)
Record Adjustment : Type := {
  adj_date : string;
  adj_feedback : string;
  adj_old_level : Q;
  adj_new_level : Q
}.

(** The history document, a JSON object.  Each key may be missing:
    the code reads some keys with [.get(key, default)] and others with
    [history[key]], which raises [KeyError] on a missing key. *)
Record History : Type := {
  sent_emails : option (list SentEmail);
  used_verbs : option (list Z);
  used_adjectives : option (list Z);
  total_emails_sent : option Z;
  current_difficulty_level : option Q;
  difficulty_adjustments : option (list Adjustment);
  (* [None]: key missing; [Some None]: JSON null *)
  last_feedback_check : option (option string)
}.

(** What [open] and [json.load] find at a path. *)
Inductive file (A : Type) : Type :=
| Absent                (* no such file *)
| Corrupt               (* content that is not JSON *)
| Doc (content : A).
Arguments Absent {A}.
Arguments Corrupt {A}.
Arguments Doc {A} content.

(** The state threaded through the program: the history file. *)
Definition Disk : Type := file History.

(** Computations over the history file that may raise. *)
Definition IO (A : Type) : Type := Disk -> result A * Disk.

Definition ret {A : Type} (x : A) : IO A := fun d => (inr x, d).
Definition raise {A : Type} (e : exn) : IO A := fun d => (inl e, d).
Definition bind {A B : Type} (c : IO A) (k : A -> IO B) : IO B :=
  fun d =>
    match c d with
    | (inl e, d') => (inl e, d')
    | (inr x, d') => k x d'
    end.
Definition lift {A : Type} (r : result A) : IO A := fun d => (r, d).

(** [read_json]: [FileNotFoundError] or [json.JSONDecodeError] as its
    docstring says. *)
Definition read_file {A : Type} (f : file A) : result A :=
  match f with
  | Absent => inl FileNotFoundError
  | Corrupt => inl JSONDecodeError
  | Doc x => inr x
  end.

Definition read_json : IO History := fun d => (read_file d, d).

(** [write_json]: the document replaces the file (temporary file, then
    [os.replace]). *)
Definition write_json (h : History) : IO unit := fun _ => (inr tt, Doc h).

(** [history[key]] on a key that may be missing. *)
Definition getitem {A : Type} (o : option A) : IO A :=
  match o with Some x => ret x | None => raise KeyError end.

(** The formatted results of [datetime.now()]. *)
Record Clock : Type := {
  today : string;        (* strftime("%Y-%m-%d") *)
  isoformat : string
}.

Declare Scope io_scope.
Delimit Scope io_scope with io.
Notation "x <- c ;; k" := (bind c (fun x => k))
  (at level 61, c at next level, right associativity) : io_scope.
Notation "c ;;; k" := (bind c (fun _ => k))
  (at level 61, right associativity) : io_scope.
Local Open Scope io_scope.

(** [try: c  except E: h] for the exceptions [E] selected by [handles]. *)
Definition try_except {A : Type}
  (c : IO A) (handles : exn -> bool) (h : IO A) : IO A :=
  fun d =>
    match c d with
    | (inl e, d') => if handles e then h d' else (inl e, d')
    | (inr x, d') => (inr x, d')
    end.

Definition is_FileNotFoundError (e : exn) : bool :=
  match e with FileNotFoundError => true | _ => false end.

(** [d.get(key, default)]. *)
Definition get {A : Type} (o : option A) (default : A) : A :=
  match o with Some x => x | None => default end.

(** Assignments [history[key] = v]. *)
Definition set_sent_emails (v : list SentEmail) (h : History) : History :=
  {| sent_emails := Some v;
     used_verbs := used_verbs h;
     used_adjectives := used_adjectives h;
     total_emails_sent := total_emails_sent h;
     current_difficulty_level := current_difficulty_level h;
     difficulty_adjustments := difficulty_adjustments h;
     last_feedback_check := last_feedback_check h |}.

Definition set_used_verbs (v : list Z) (h : History) : History :=
  {| sent_emails := sent_emails h;
     used_verbs := Some v;
     used_adjectives := used_adjectives h;
     total_emails_sent := total_emails_sent h;
     current_difficulty_level := current_difficulty_level h;
     difficulty_adjustments := difficulty_adjustments h;
     last_feedback_check := last_feedback_check h |}.

Definition set_used_adjectives (v : list Z) (h : History) : History :=
  {| sent_emails := sent_emails h;
     used_verbs := used_verbs h;
     used_adjectives := Some v;
     total_emails_sent := total_emails_sent h;
     current_difficulty_level := current_difficulty_level h;
     difficulty_adjustments := difficulty_adjustments h;
     last_feedback_check := last_feedback_check h |}.

Definition set_total_emails_sent (v : Z) (h : History) : History :=
  {| sent_emails := sent_emails h;
     used_verbs := used_verbs h;
     used_adjectives := used_adjectives h;
     total_emails_sent := Some v;
     current_difficulty_level := current_difficulty_level h;
     difficulty_adjustments := difficulty_adjustments h;
     last_feedback_check := last_feedback_check h |}.

Definition set_current_difficulty_level (v : Q) (h : History) : History :=
  {| sent_emails := sent_emails h;
     used_verbs := used_verbs h;
     used_adjectives := used_adjectives h;
     total_emails_sent := total_emails_sent h;
     current_difficulty_level := Some v;
     difficulty_adjustments := difficulty_adjustments h;
     last_feedback_check := last_feedback_check h |}.

Definition set_difficulty_adjustments
  (v : list Adjustment) (h : History) : History :=
  {| sent_emails := sent_emails h;
     used_verbs := used_verbs h;
     used_adjectives := used_adjectives h;
     total_emails_sent := total_emails_sent h;
     current_difficulty_level := current_difficulty_level h;
     difficulty_adjustments := Some v;
     last_feedback_check := last_feedback_check h |}.

Definition set_last_feedback_check
  (v : option string) (h : History) : History :=
  {| sent_emails := sent_emails h;
     used_verbs := used_verbs h;
     used_adjectives := used_adjectives h;
     total_emails_sent := total_emails_sent h;
     current_difficulty_level := current_difficulty_level h;
     difficulty_adjustments := difficulty_adjustments h;
     last_feedback_check := Some v |}.

(** The history that [update_history] starts from when there is no file. *)
Definition empty_history : History :=
  {| sent_emails := Some [];
     used_verbs := Some [];
     used_adjectives := Some [];
     total_emails_sent := Some 0%Z;
     current_difficulty_level := Some 2.0;
     difficulty_adjustments := Some [];
     last_feedback_check := Some None |}.

(** [lst.append(x)] when [x not in lst]. *)
Definition append_if_new (x : Z) (l : list Z) : list Z :=
  if contains x l then l else l ++ [x].

Definition update_history (clock : Clock) (verb_id adjective_id : Z)
  (success : bool) (difficulty_level : Q) : IO unit :=
  history <- try_except read_json is_FileNotFoundError (ret empty_history) ;;
  sent <- getitem (sent_emails history) ;;
  let history :=
    set_sent_emails
      (sent ++ [ {| se_date := today clock;
                    se_verb_id := verb_id;
                    se_adjective_id := adjective_id;
                    se_success := success;
                    se_difficulty_level := difficulty_level |} ])
      history in
  history <-
    (if success then
       verbs <- getitem (used_verbs history) ;;
       let history := set_used_verbs (append_if_new verb_id verbs) history in
       adjectives <- getitem (used_adjectives history) ;;
       let history :=
         set_used_adjectives (append_if_new adjective_id adjectives) history in
       total <- getitem (total_emails_sent history) ;;
       ret (set_total_emails_sent (total + 1)%Z history)
     else ret history) ;;
  write_json history.

Definition reset_used_words (word_type : string) : IO unit :=
  history <- read_json ;;
  history <-
    (if String.eqb word_type "verbs" then ret (set_used_verbs [] history)
     else if String.eqb word_type "adjectives"
          then ret (set_used_adjectives [] history)
     else raise ValueError) ;;
  write_json history.

Definition update_difficulty_preference (clock : Clock)
  (feedback : string) (adjustment : Q) : IO Q :=
  history <- read_json ;;
  let old_level := get (current_difficulty_level history) 2.0 in
  let new_level := max 1.0 (min 5.0 (old_level + adjustment)) in
  adjustments <- getitem (difficulty_adjustments history) ;;
  let history :=
    set_difficulty_adjustments
      (adjustments ++ [ {| adj_date := today clock;
                           adj_feedback := feedback;
                           adj_old_level := old_level;
                           adj_new_level := new_level |} ])
      history in
  let history := set_current_difficulty_level new_level history in
  let history := set_last_feedback_check (Some (isoformat clock)) history in
  write_json history ;;;
  ret new_level.

Definition get_difficulty_level : IO Q :=
  try_except
    (history <- read_json ;;
     ret (get (current_difficulty_level history) 2.0))
    is_FileNotFoundError
    (ret 2.0).

End DataManager.

(** ** The adjusted level in binary64

    Python's [float] is IEEE 754 binary64, and [old_level + adjustment]
    rounds to nearest.  This is line 158 of [utils/data_manager.py] on
    the floats of the kernel, which are binary64 as well. *)

Module Binary64.
Import PrimFloat.
Local Open Scope float_scope.

(** [min(a, b)] and [max(a, b)] on floats, as in [Py]. *)
Definition fmin (a b : float) : float := if ltb b a then b else a.

Definition fmax (a b : float) : float := if ltb a b then b else a.

(** [new_level = max(1.0, min(5.0, old_level + adjustment))]. *)
Definition new_level (old_level adjustment : float) : float :=
  fmax 1 (fmin 5 (old_level + adjustment)).

(** The adjustments of the keywords "easy" and "hard". *)
Definition easy : float := 0.5.

Definition hard : float := -0.5.

(** The level after an "easy" and then a "hard" adjustment. *)
Definition easy_then_hard (d : float) : float :=
  new_level (new_level d easy) hard.

(** The float of a positive integer (exact below [2^53]). *)
Fixpoint of_pos (p : positive) : float :=
  match p with
  | xH => 1
  | xO p' => 2 * of_pos p'
  | xI p' => 2 * of_pos p' + 1
  end.

(** The float [k / 2]. *)
Definition half (k : Z) : float :=
  match k with
  | Z0 => 0
  | Zpos p => of_pos p / 2
  | Zneg p => - (of_pos p / 2)
  end.

(** The floats that the literals 1.7, 1.7000000000000002, 4.8 and 5.3
    denote. *)
Definition f1_7 : float := 0x1.b333333333333p+0.

Definition f1_7_next : float := 0x1.b333333333334p+0.

Definition f4_8 : float := 0x1.3333333333333p+2.

Definition f5_3 : float := 0x1.5333333333333p+2.

(** The rational that a finite float denotes. *)
Definition to_Q (f : float) : Q :=
  match FloatOps.Prim2SF f with
  | SpecFloat.S754_finite s m e =>
      ((if s then -1 else 1) * inject_Z (Zpos m) * 2 ^ e)%Q
  | _ => 0%Q
  end.

End Binary64.

(** ** utils/word_selector.py *)

Module WordSelector.
Import DataManager.
Local Open Scope io_scope.

(** A catalog entry.  The core reads ["id"] and, when present,
    ["difficulty"]; the display fields are opaque ([spanish] stands for
    them). *)
Record Word : Type := {
  id : Z;
  difficulty : option Q;
  spanish : string
}.

(** A catalog file: a JSON object with a ["verbs"] or an ["adjectives"]
    key. *)
Record WordFile : Type := {
  verbs : option (list Word);
  adjectives : option (list Word)
}.

Definition load_words (filepath : file WordFile) : result (list Word) :=
  match read_file filepath with
  | inl e => inl e
  | inr data =>
      match verbs data with
      | Some l => inr l
      | None =>
          match adjectives data with
          | Some l => inr l
          | None => inl ValueError
          end
      end
  end.

(** [min_diff <= word.get('difficulty', 2.0) <= max_diff]. *)
Definition in_range (min_diff max_diff : Q) (word : Word) : bool :=
  Qle_bool min_diff (get (difficulty word) 2.0)
  && Qle_bool (get (difficulty word) 2.0) max_diff.

Definition filter_words_by_difficulty
  (words : list Word) (target_difficulty tolerance : Q) : list Word :=
  let min_diff := max 1.0 (target_difficulty - tolerance) in
  let max_diff := min 5.0 (target_difficulty + tolerance) in
  filter (in_range min_diff max_diff) words.

Definition get_unused_words
  (all_words : list Word) (used_ids : list Z) : list Word :=
  filter (fun word => negb (contains (id word) used_ids)) all_words.

(** The three pools of [select_word_by_difficulty_distribution]. *)
Definition current_range (words : list Word) (current_difficulty : Q) :=
  filter_words_by_difficulty words current_difficulty 0.5.
Definition higher_range (words : list Word) (current_difficulty : Q) :=
  filter_words_by_difficulty words (min 5.0 (current_difficulty + 1.0)) 0.5.
Definition lower_range (words : list Word) (current_difficulty : Q) :=
  filter_words_by_difficulty words (max 1.0 (current_difficulty - 1.0)) 0.5.

(** [rand] is the value of [random.random()], [k] the draw of
    [random.choice]. *)
Definition select_word_by_difficulty_distribution
  (words : list Word) (current_difficulty : Q) (rand : Q) (k : nat)
  : result Word :=
  if is_empty words then inl ValueError
  else
    let current := current_range words current_difficulty in
    let higher := higher_range words current_difficulty in
    let lower := lower_range words current_difficulty in
    if Qltb rand 0.70 && negb (is_empty current) then choice k current
    else if Qltb rand 0.90 && negb (is_empty higher) then choice k higher
    else if Qltb rand 1.00 && negb (is_empty lower) then choice k lower
    else choice k words.

(** The random draws consumed by one selection. *)
Record Draw : Type := {
  rand : Q;      (* random.random() *)
  pick : nat     (* index drawn by random.choice *)
}.

(** [(selected_verb, selected_adjective, verb_reset, adjective_reset)]. *)
Definition Selection : Type := (Word * Word * bool * bool)%type.

Definition select_daily_words
  (verbs_file adjectives_file : file WordFile) (dv da : Draw)
  : IO Selection :=
  all_verbs <- lift (load_words verbs_file) ;;
  all_adjectives <- lift (load_words adjectives_file) ;;
  hist <-
    try_except
      (history <- read_json ;;
       ret (get (used_verbs history) [],
            get (used_adjectives history) [],
            get (current_difficulty_level history) 2.0))
      is_FileNotFoundError
      (ret ([], [], 2.0)) ;;
  let '(used_verbs, used_adjectives, current_difficulty) := hist in
  let unused_verbs := get_unused_words all_verbs used_verbs in
  let unused_adjectives := get_unused_words all_adjectives used_adjectives in
  v <-
    (if is_empty unused_verbs
     then reset_used_words "verbs" ;;; ret (all_verbs, true)
     else ret (unused_verbs, false)) ;;
  let '(unused_verbs, verb_reset) := v in
  a <-
    (if is_empty unused_adjectives
     then reset_used_words "adjectives" ;;; ret (all_adjectives, true)
     else ret (unused_adjectives, false)) ;;
  let '(unused_adjectives, adjective_reset) := a in
  selected_verb <-
    lift (select_word_by_difficulty_distribution
            unused_verbs current_difficulty (rand dv) (pick dv)) ;;
  selected_adjective <-
    lift (select_word_by_difficulty_distribution
            unused_adjectives current_difficulty (rand da) (pick da)) ;;
  ret (selected_verb, selected_adjective, verb_reset, adjective_reset).

Definition get_difficulty_name (level : Q) : string :=
  if Qltb level 1.5 then "Beginner"
  else if Qltb level 2.5 then "Elementary"
  else if Qltb level 3.5 then "Intermediate"
  else if Qltb level 4.5 then "Advanced"
  else "Expert".

End WordSelector.

(** ** utils/feedback_processor.py *)

Module FeedbackProcessor.
Import DataManager.
Local Open Scope io_scope.
Local Open Scope string_scope.

(** A text that the code inspects character by character. *)
Definition text : Type := list ascii.

Definition str (s : string) : text := list_ascii_of_string s.

(** The dictionary, in the order of its literal (the order in which
    [FEEDBACK_KEYWORDS.keys()] iterates). *)
Definition FEEDBACK_KEYWORDS : list (string * Q) :=
  [ ("easy", 0.5);
    ("too easy", 0.5);
    ("easier", 0.5);
    ("simple", 0.5);
    ("hard", -0.5);
    ("too hard", -0.5);
    ("harder", -0.5);
    ("difficult", -0.5);
    ("perfect", 0.0);
    ("good", 0.0);
    ("just right", 0.0) ].

Definition keys {V : Type} (d : list (string * V)) : list string :=
  map fst d.

(** [d[key]]. *)
Fixpoint lookup {V : Type} (key : string) (d : list (string * V))
  : result V :=
  match d with
  | [] => inl KeyError
  | (k, v) :: d' => if String.eqb k key then inr v else lookup key d'
  end.

(** [str.lower()] on ASCII. *)
Definition lower_char (c : ascii) : ascii :=
  let n := nat_of_ascii c in
  if (65 <=? n)%nat && (n <=? 90)%nat then ascii_of_nat (n + 32) else c.

Definition lower (t : text) : text := map lower_char t.

(** The class [\w] on ASCII: letters, digits and the underscore. *)
Definition is_word_char (c : ascii) : bool :=
  let n := nat_of_ascii c in
  ((48 <=? n)%nat && (n <=? 57)%nat)
  || ((65 <=? n)%nat && (n <=? 90)%nat)
  || ((97 <=? n)%nat && (n <=? 122)%nat)
  || (n =? 95)%nat.

Definition is_word (c : option ascii) : bool :=
  match c with Some c => is_word_char c | None => false end.

(** [\b] between the character before a position and the one after it
    (none at either end of the text): exactly one is a word character. *)
Definition word_boundary (prev next : option ascii) : bool :=
  xorb (is_word prev) (is_word next).

(** The escaped keyword matched literally at the front of [txt]: the last
    character consumed (or [prev]) and the remaining text. *)
Fixpoint match_literal (lit txt : text) (prev : option ascii)
  : option (option ascii * text) :=
  match lit with
  | [] => Some (prev, txt)
  | c :: lit' =>
      match txt with
      | [] => None
      | t :: txt' =>
          if Ascii.eqb c t then match_literal lit' txt' (Some t) else None
      end
  end.

(** The pattern [\b keyword \b] matched at the front of [txt], which is
    preceded by [prev]. *)
Definition match_here (kw txt : text) (prev : option ascii) : bool :=
  word_boundary prev (hd_error txt)
  && match match_literal kw txt prev with
     | Some (last, rest) => word_boundary last (hd_error rest)
     | None => false
     end.

(** [re.search]: the pattern is tried at every position, left to right. *)
Fixpoint search (kw txt : text) (prev : option ascii) : bool :=
  match_here kw txt prev
  || match txt with
     | [] => false
     | c :: txt' => search kw txt' (Some c)
     end.

(** [re.search(r'\b' + re.escape(keyword) + r'\b', text_lower)]. *)
Definition re_search_word (keyword : string) (text_lower : text) : bool :=
  search (str keyword) text_lower None.

Definition parse_feedback_from_text (t : text) : option string :=
  let text_lower := lower t in
  find (fun keyword => re_search_word keyword text_lower)
       (keys FEEDBACK_KEYWORDS).

(** [needle in haystack] for strings. *)
Fixpoint startswith (needle haystack : text) : bool :=
  match needle with
  | [] => true
  | c :: needle' =>
      match haystack with
      | [] => false
      | h :: haystack' => Ascii.eqb c h && startswith needle' haystack'
      end
  end.

Fixpoint str_in (needle haystack : text) : bool :=
  startswith needle haystack
  || match haystack with
     | [] => false
     | _ :: haystack' => str_in needle haystack'
     end.

(** What the IMAP collaborator yields to [check_for_feedback]. *)
Inductive Inbox : Type :=
| ImapError                          (* imaplib.IMAP4.error *)
| ConnectionError                    (* any other exception *)
| NoMessages                         (* the search finds nothing *)
| Latest (subject body : text).      (* the most recent message *)

(** [(feedback_found, feedback_keyword, new_difficulty_level)]. *)
Definition Feedback : Type := (bool * option string * option Q)%type.

Definition not_found : Feedback := (false, None, None).

Definition check_for_feedback (clock : Clock) (inbox : Inbox)
  : IO Feedback :=
  try_except
    (match inbox with
     | ImapError => raise IMAP4Error
     | ConnectionError => raise OSError
     | NoMessages => ret not_found
     | Latest subject body =>
         if negb (str_in (str "daily spanish") (lower subject))
            && negb (str_in (str "re:") (lower subject))
         then ret not_found
         else
           match parse_feedback_from_text body with
           | Some feedback =>
               adjustment <- lift (lookup feedback FEEDBACK_KEYWORDS) ;;
               new_level <-
                 update_difficulty_preference clock feedback adjustment ;;
               ret (true, Some feedback, Some new_level)
           | None => ret not_found
           end
     end)
    (fun _ => true)        (* except IMAP4.error / except Exception *)
    (ret not_found).

End FeedbackProcessor.

(** ** [parse_feedback_from_text] on Unicode text

    A Python [str] is a sequence of Unicode code points, and
    [str.lower()], [\w] and [\b] follow the Unicode database of the
    interpreter: a letter such as U+00E9 is a word character, and
    [lower()] may change the length of a text.  Here a text is a list of
    code points and the two tables of the database that
    [parse_feedback_from_text] consults are parameters: the class [\w]
    and the function [str.lower()].  The keywords are the ASCII literals
    of [FEEDBACK_KEYWORDS]. *)

Module Unicode.
Import FeedbackProcessor.

Definition utext : Type := list N.

(** An ASCII text as a sequence of code points. *)
Definition of_ascii (t : text) : utext := map N_of_ascii t.

Definition ustr (s : string) : utext := of_ascii (str s).

(** The characters below U+0080. *)
Definition is_ascii (c : ascii) : bool := (N_of_ascii c <? 128)%N.

Definition is_ascii_opt (c : option ascii) : bool :=
  match c with Some c => is_ascii c | None => true end.

Section Tables.

(** The class [\w] of [re] on [str] patterns. *)
Variable is_word_char : N -> bool.

(** [str.lower()]. *)
Variable lower : utext -> utext.

Definition is_word (c : option N) : bool :=
  match c with Some c => is_word_char c | None => false end.

(** [\b] between the character before a position and the one after it
    (none at either end of the text): exactly one is a word character. *)
Definition word_boundary (prev next : option N) : bool :=
  xorb (is_word prev) (is_word next).

(** The escaped keyword matched literally at the front of [txt]: the last
    character consumed (or [prev]) and the remaining text. *)
Fixpoint match_literal (lit txt : utext) (prev : option N)
  : option (option N * utext) :=
  match lit with
  | [] => Some (prev, txt)
  | c :: lit' =>
      match txt with
      | [] => None
      | t :: txt' =>
          if N.eqb c t then match_literal lit' txt' (Some t) else None
      end
  end.

(** The pattern [\b keyword \b] matched at the front of [txt], which is
    preceded by [prev]. *)
Definition match_here (kw txt : utext) (prev : option N) : bool :=
  word_boundary prev (hd_error txt)
  && match match_literal kw txt prev with
     | Some (last, rest) => word_boundary last (hd_error rest)
     | None => false
     end.

(** [re.search]: the pattern is tried at every position, left to right. *)
Fixpoint search (kw txt : utext) (prev : option N) : bool :=
  match_here kw txt prev
  || match txt with
     | [] => false
     | c :: txt' => search kw txt' (Some c)
     end.

(** [re.search(r'\b' + re.escape(keyword) + r'\b', text_lower)]. *)
Definition re_search_word (keyword : string) (text_lower : utext) : bool :=
  search (ustr keyword) text_lower None.

Definition parse_feedback_from_text (t : utext) : option string :=
  let text_lower := lower t in
  find (fun keyword => re_search_word keyword text_lower)
       (keys FEEDBACK_KEYWORDS).

(** The last code point of a text, if any. *)
Fixpoint last_error (t : utext) : option N :=
  match t with
  | [] => None
  | [c] => Some c
  | _ :: t' => last_error t'
  end.

(** The code point before the position that follows [pre], when [prev]
    precedes [pre]. *)
Definition last_with (prev : option N) (pre : utext) : option N :=
  match last_error pre with Some c => Some c | None => prev end.

(** Following the specification (4.3): the keyword occurs in the text at
    whole-word boundaries: the occurrence is neither preceded nor followed
    by a word character. *)
Definition whole_word_occurrence (kw txt : utext) : Prop :=
  exists pre post,
    txt = (pre ++ kw ++ post)%list
    /\ is_word (last_error pre) = false
    /\ is_word (hd_error post) = false.

(** Keywords begin and end with a word character. *)
Definition word_delimited (kw : utext) : bool :=
  is_word (hd_error kw) && is_word (last_error kw).

(** What every version of the Unicode database fixes below U+0080: [\w]
    is [[a-zA-Z0-9_]] there, and [lower()] of an ASCII text is its ASCII
    lower-casing. *)
Definition word_chars_of_ascii : bool :=
  forallb (fun n => Bool.eqb (is_word_char (N.of_nat n))
                             (FeedbackProcessor.is_word_char
                                (ascii_of_nat n)))
          (seq 0 128).

Definition lower_of_ascii : Prop :=
  forall t : text,
    forallb is_ascii t = true ->
    lower (of_ascii t) = of_ascii (FeedbackProcessor.lower t).

End Tables.

End Unicode.

(** ** config/settings.py *)

Module Settings.
Import DataManager.

(** [Settings.validate()]: [ValueError] when a required setting is
    missing; [config_ok] tells whether the three required settings are
    present in the environment. *)
Definition validate (config_ok : bool) : IO unit :=
  if config_ok then ret tt else raise ValueError.

End Settings.

(** ** check_feedback.py *)

Module CheckFeedback.
Import DataManager FeedbackProcessor.
Local Open Scope io_scope.

(** The exit status and the history file after the run. *)
Definition main (config_ok : bool) (clock : Clock) (inbox : Inbox)
  : Disk -> Z * Disk :=
  fun d =>
    match (Settings.validate config_ok ;;;
           check_for_feedback clock inbox) d with
    | (inr (found, _, _), d') =>
        (* status 0 whether or not feedback was found *)
        (if found then 0%Z else 0%Z, d')
    | (inl _, d') => (1%Z, d')
    end.

End CheckFeedback.

(** ** main.py *)

Module Main.
Import DataManager WordSelector.
Local Open Scope io_scope.
Local Open Scope string_scope.

(** The delivery collaborator [send_daily_email]: true on success, false on
    any failure.  Its arguments are the two words, the difficulty and its
    name, the completed catalogs of the reset message (if any) and the
    test flag. *)
Definition Delivery : Type :=
  Word -> Word -> Q -> string -> option (list string) -> bool -> bool.

Definition reset_message (verb_reset adj_reset : bool)
  : option (list string) :=
  if verb_reset || adj_reset
  then Some ((if verb_reset then ["all verbs"] else [])
             ++ (if adj_reset then ["all adjectives"] else []))%list
  else None.

(** The body of [main] inside its [try]: the flags [--test] and
    [--dry-run], the validation, the selection, the delivery and the update
    of the history.  Logging is left out. *)
Definition run (config_ok test dry_run : bool)
  (verbs_file adjectives_file : file WordFile) (dv da : Draw)
  (send_daily_email : Delivery) (clock : Clock) : IO Z :=
  Settings.validate config_ok ;;;
  sel <- select_daily_words verbs_file adjectives_file dv da ;;
  let '(verb, adjective, verb_reset, adj_reset) := sel in
  current_difficulty <- get_difficulty_level ;;
  let difficulty_name := get_difficulty_name current_difficulty in
  let message := reset_message verb_reset adj_reset in
  if dry_run then ret 0%Z
  else
    let success :=
      send_daily_email verb adjective current_difficulty difficulty_name
                       message test in
    if success
    then update_history clock (id verb) (id adjective) true
                        current_difficulty ;;;
         ret 0%Z
    else ret 1%Z.

(** The exit status and the history file after the run: every exception
    is logged and turned into status 1. *)
Definition main (config_ok test dry_run : bool)
  (verbs_file adjectives_file : file WordFile) (dv da : Draw)
  (send_daily_email : Delivery) (clock : Clock) : Disk -> Z * Disk :=
  fun d =>
    match run config_ok test dry_run verbs_file adjectives_file dv da
              send_daily_email clock d with
    | (inr status, d') => (status, d')
    | (inl _, d') => (1%Z, d')
    end.

End Main.

(** ** Scenarios and reference definitions

    Concrete catalogs and histories used in the examples below, and the
    definitions that follow the wording of the specification, to be
    compared with the functions above. *)

Module Scenario.
Import DataManager WordSelector FeedbackProcessor.
Local Open Scope io_scope.
Local Open Scope string_scope.

(** A catalog item without a ["difficulty"] field. *)
Definition sin_nivel : Word :=
  {| id := 7; difficulty := None; spanish := "ser" |}.

(** Following the specification (4.2, step 4): the band that the draw [r]
    chooses, and the pool it prescribes: that band, or all of the unused
    items when the band is empty. *)
Definition chosen_band (words : list Word) (d r : Q) : list Word :=
  if Qltb r 0.70 then current_range words d
  else if Qltb r 0.90 then higher_range words d
  else lower_range words d.

Definition spec_pool (words : list Word) (d r : Q) : list Word :=
  if is_empty (chosen_band words d r) then words else chosen_band words d r.

(** Two unused items, of difficulty 3.0 and 5.0. *)
Definition nivel3 : Word :=
  {| id := 1; difficulty := Some 3.0; spanish := "caber" |}.
Definition nivel5 : Word :=
  {| id := 2; difficulty := Some 5.0; spanish := "yacer" |}.

(** Following the specification (4.3): [clamp(x, lo, hi)]. *)
Definition clamp (x lo hi : Q) : Q :=
  if Qltb x lo then lo else if Qltb hi x then hi else x.

(** A history as [update_history] creates it, at difficulty [d]. *)
Definition history_at (d : Q) : History :=
  set_current_difficulty_level d empty_history.

(** An "easy" feedback followed by a "hard" feedback, each with the
    adjustment that [FEEDBACK_KEYWORDS] gives it. *)
Definition easy_then_hard (clock : Clock) : IO Q :=
  easy <- lift (lookup "easy" FEEDBACK_KEYWORDS) ;;
  hard <- lift (lookup "hard" FEEDBACK_KEYWORDS) ;;
  update_difficulty_preference clock "easy" easy ;;;
  update_difficulty_preference clock "hard" hard.

Definition reloj : Clock :=
  {| today := "2024-03-01"; isoformat := "2024-03-01T08:00:00" |}.

(** A history in which verb 4 and adjective 9 have already been sent. *)
Definition ya_enviados : History :=
  set_used_adjectives [9%Z] (set_used_verbs [4%Z; 6%Z] empty_history).

(** What a send cycle reads from the history file: the used IDs of each
    catalog and the difficulty, with the defaults of [select_daily_words]
    when the file or a key is missing. *)
Definition used_verb_ids (disk : Disk) : list Z :=
  match disk with Doc h => get (used_verbs h) [] | _ => [] end.

Definition used_adjective_ids (disk : Disk) : list Z :=
  match disk with Doc h => get (used_adjectives h) [] | _ => [] end.

Definition difficulty_of (disk : Disk) : Q :=
  match disk with Doc h => get (current_difficulty_level h) 2.0 | _ => 2.0 end.

(** The history document after the resets of one selection. *)
Definition after_resets (verb_reset adjective_reset : bool) (h : History)
  : History :=
  let h := if verb_reset then set_used_verbs [] h else h in
  if adjective_reset then set_used_adjectives [] h else h.

(** The end-to-end scenario of the specification: three verbs of
    difficulty 2.0, of which 1 and 2 have been used; one adjective. *)
Definition verbo (n : Z) (s : string) : Word :=
  {| id := n; difficulty := Some 2.0; spanish := s |}.

Definition tres_verbos : file WordFile :=
  Doc {| verbs := Some [verbo 1 "hablar"; verbo 2 "comer"; verbo 3 "vivir"];
         adjectives := None |}.

Definition alto : Word :=
  {| id := 1; difficulty := Some 2.0; spanish := "alto" |}.

Definition un_adjetivo : file WordFile :=
  Doc {| verbs := None; adjectives := Some [alto] |}.

Definition dos_usados : History := set_used_verbs [1%Z; 2%Z] empty_history.

(** A catalog of two verbs, both used. *)
Definition dos_verbos : file WordFile :=
  Doc {| verbs := Some [verbo 1 "hablar"; verbo 2 "comer"];
         adjectives := None |}.

(** A catalog file whose list is empty. *)
Definition sin_verbos : file WordFile :=
  Doc {| verbs := Some []; adjectives := None |}.

Definition sorteo : Draw := {| rand := 0.5; pick := 0 |}.

(** A delivery collaborator that always fails. *)
Definition sin_entrega : Main.Delivery := fun _ _ _ _ _ _ => false.

(** A reply to a daily email that says "too hard". *)
Definition respuesta : Inbox :=
  Latest (str "Re: Daily Spanish Words") (str "This was too hard for me").

(** The last character of a text, if any. *)
Fixpoint last_error (t : text) : option ascii :=
  match t with
  | [] => None
  | [c] => Some c
  | _ :: t' => last_error t'
  end.

(** The character before the position that follows [pre], when [prev]
    precedes [pre]. *)
Definition last_with (prev : option ascii) (pre : text) : option ascii :=
  match last_error pre with Some c => Some c | None => prev end.

(** Following the specification (4.3): the keyword occurs in the text at
    whole-word boundaries: the occurrence is neither preceded nor followed
    by a word character. *)
Definition whole_word_occurrence (kw txt : text) : Prop :=
  exists pre post,
    txt = (pre ++ kw ++ post)%list
    /\ is_word (last_error pre) = false
    /\ is_word (hd_error post) = false.

(** Keywords begin and end with a word character. *)
Definition word_delimited (kw : text) : bool :=
  is_word (hd_error kw) && is_word (last_error kw).

End Scenario.

(** ** utils/email_sender.py *)

Module EmailSender.

(** What an attempt to connect and log in, or a later call on the
    connection, can raise: [smtplib.SMTPException], [OSError], or any
    other exception. *)
Inductive smtp_exn : Type :=
| SMTPException
| SocketError              (* OSError *)
| Unexpected.

(** [except (smtplib.SMTPException, OSError)]. *)
Definition retried (e : smtp_exn) : bool :=
  match e with
  | SMTPException | SocketError => true
  | Unexpected => false
  end.

(** The outcome of [smtplib.SMTP_SSL(...)] followed by [server.login]. *)
Inductive attempt (server : Type) : Type :=
| Connected (s : server)
| Failed (e : smtp_exn).
Arguments Connected {server} s.
Arguments Failed {server} e.

(** The loop [for attempt in range(retries)] of [create_smtp_connection]:
    [remaining] iterations are left, the next one has index [attempt] and
    would sleep [delay] seconds.  [connect i] is the outcome of the
    attempt of index [i].  The result is the connection, [None] when the
    loop ends without an iteration, or the exception raised; the second
    component lists the arguments of the calls of [time.sleep]. *)
Fixpoint connection_loop {server : Type} (connect : nat -> attempt server)
  (retries : Z) (remaining : nat) (attempt : nat) (delay : Z)
  : (smtp_exn + option server) * list Z :=
  match remaining with
  | O => (inr None, [])
  | S remaining' =>
      match connect attempt with
      | Connected s => (inr (Some s), [])
      | Failed e =>
          if retried e then
            if (Z.of_nat attempt <? retries - 1)%Z then
              let '(r, sleeps) :=
                connection_loop connect retries remaining' (S attempt)
                                (delay * 2)%Z in
              (r, delay :: sleeps)
            else (inl e, [])
          else (inl e, [])
      end
  end.

(** [create_smtp_connection(retries, delay)]; the defaults are 3 and 5. *)
Definition create_smtp_connection {server : Type}
  (connect : nat -> attempt server) (retries delay : Z)
  : (smtp_exn + option server) * list Z :=
  connection_loop connect retries (Z.to_nat retries) 0 delay.

(** [send_daily_email]: [rendered] tells whether [render_email_template]
    returned, [send_message] and [quit] give the exception that the call
    raises on the connection, if any.  Every exception is caught and
    turned into [False]. *)
Definition send_daily_email {server : Type} (rendered : bool)
  (connect : nat -> attempt server)
  (send_message quit : server -> option smtp_exn) : bool * list Z :=
  if rendered then
    match create_smtp_connection connect 3 5 with
    | (inr (Some smtp), sleeps) =>
        match send_message smtp with
        | None =>
            match quit smtp with
            | None => (true, sleeps)
            | Some _ => (false, sleeps)
            end
        | Some _ => (false, sleeps)
        end
    | (inr None, sleeps) => (false, sleeps)   (* no connection to call *)
    | (inl _, sleeps) => (false, sleeps)
    end
  else (false, []).

End EmailSender.

(** ** utils/feedback_processor.py: the body of a message *)

Module EmailBody.
Import FeedbackProcessor.
Local Open Scope string_scope.

(** A parsed message: a single part with its content type and its decoded
    payload ([None] when [get_payload(decode=True)] gives nothing to
    decode), or a multipart container. *)
#[warnings="-register-all"] Inductive Message : Type :=
| Part (content_type : string) (payload : option text)
| Multipart (content_type : string) (parts : list Message).

Definition is_multipart (msg : Message) : bool :=
  match msg with Part _ _ => false | Multipart _ _ => true end.

Definition get_content_type (msg : Message) : string :=
  match msg with Part c _ => c | Multipart c _ => c end.

(** [get_payload(decode=True)]: nothing for a container. *)
Definition get_payload (msg : Message) : option text :=
  match msg with Part _ p => p | Multipart _ _ => None end.

(** [msg.walk()]: the message, then the parts of its subparts, depth
    first. *)
Fixpoint walk (msg : Message) : list Message :=
  msg ::
  match msg with
  | Part _ _ => []
  | Multipart _ parts =>
      (fix walk_all (l : list Message) : list Message :=
         match l with
         | [] => []
         | m :: l' => (walk m ++ walk_all l')%list
         end) parts
  end.

(** The loop over [msg.walk()]: the first [text/plain] part whose payload
    decodes ends the loop. *)
Fixpoint first_plain_text (parts : list Message) (body : text) : text :=
  match parts with
  | [] => body
  | part :: parts' =>
      if String.eqb (get_content_type part) "text/plain"
      then match get_payload part with
           | Some b => b                        (* break *)
           | None => first_plain_text parts' body   (* except: pass *)
           end
      else first_plain_text parts' body
  end.

Definition get_email_body (msg : Message) : text :=
  let body := [] in
  if is_multipart msg
  then first_plain_text (walk msg) body
  else match get_payload msg with
       | Some b => b
       | None => body
       end.

End EmailBody.

(** ** Further inputs

    Concrete inputs of the examples in the second part of the
    properties. *)

Module Cases.
Import DataManager WordSelector FeedbackProcessor Scenario.
Import EmailSender EmailBody.
Local Open Scope string_scope.

(** A history whose stored level lies outside [1.0, 5.0]. *)
Definition nivel_nueve : History := history_at 9.0.

(** A history document without the ["difficulty_adjustments"] key. *)
Definition sin_ajustes : History :=
  {| sent_emails := Some [];
     used_verbs := Some [];
     used_adjectives := Some [];
     total_emails_sent := Some 0%Z;
     current_difficulty_level := Some 2.0;
     difficulty_adjustments := None;
     last_feedback_check := Some None |}.

(** An item whose difficulty lies above the scale. *)
Definition nivel7 : Word :=
  {| id := 3; difficulty := Some 7.0; spanish := "asir" |}.

(** A catalog file with neither list. *)
Definition sin_listas : file WordFile :=
  Doc {| verbs := None; adjectives := None |}.

(** A catalog file whose adjective list is empty. *)
Definition sin_adjetivos : file WordFile :=
  Doc {| verbs := None; adjectives := Some [] |}.

(** A delivery collaborator that always succeeds. *)
Definition entrega : Main.Delivery := fun _ _ _ _ _ _ => true.

(** A history document without the ["sent_emails"] key. *)
Definition sin_registro : History :=
  {| sent_emails := None;
     used_verbs := Some [1%Z; 2%Z];
     used_adjectives := Some [];
     total_emails_sent := Some 0%Z;
     current_difficulty_level := Some 2.0;
     difficulty_adjustments := Some [];
     last_feedback_check := Some None |}.

(** A reply whose body names the phrase "too easy". *)
Definition demasiado_facil : text := str "That was TOO EASY, thanks".

(** A message that is not a reply to a daily email. *)
Definition otro_asunto : Inbox :=
  Latest (str "Lunch on Friday?") (str "This was too hard for me").

(** A server that refuses the first two attempts and accepts the third. *)
Definition a_la_tercera (i : nat) : attempt nat :=
  match i with
  | 0%nat => Failed SocketError
  | 1%nat => Failed SMTPException
  | _ => Connected i
  end.

(** A server that never accepts. *)
Definition sin_conexion (i : nat) : attempt nat := Failed SocketError.

(** A connection on which every call succeeds. *)
Definition sin_error (s : nat) : option smtp_exn := None.

(** A reply in HTML only, inside a multipart container. *)
Definition solo_html : Message :=
  Multipart "multipart/alternative"
    [Part "text/html" (Some (str "<p>too easy</p>"))].

(** A reply with an HTML part before the plain text part. *)
Definition html_y_texto : Message :=
  Multipart "multipart/alternative"
    [Part "text/html" (Some (str "<p>too easy</p>"));
     Part "text/plain" (Some (str "too hard"));
     Part "text/plain" (Some (str "perfect"))].

(** Consecutive runs of [main.py] on the same files, one per day, each with
    its own draws: for every day the outcome of the selection on the
    history of that morning and the exit status, and the history file
    after the last day. *)
Fixpoint daily_runs (test : bool) (vf af : file WordFile)
  (send : Main.Delivery) (clock : Clock) (days : list (Draw * Draw))
  (disk : Disk) : list (result Selection * Z) * Disk :=
  match days with
  | [] => ([], disk)
  | (dv, da) :: days' =>
      let selection := fst (select_daily_words vf af dv da disk) in
      let '(status, disk') :=
        Main.main true test false vf af dv da send clock disk in
      let '(log, final) := daily_runs test vf af send clock days' disk' in
      ((selection, status) :: log, final)
  end.

Definition sel_verb (s : Selection) : Word :=
  let '(v, _, _, _) := s in v.
Definition sel_adjective (s : Selection) : Word :=
  let '(_, a, _, _) := s in a.
Definition sel_verb_reset (s : Selection) : bool :=
  let '(_, _, vr, _) := s in vr.
Definition sel_adjective_reset (s : Selection) : bool :=
  let '(_, _, _, ar) := s in ar.

(** Three adjectives of difficulty 2.0. *)
Definition tres_adjetivos : file WordFile :=
  Doc {| verbs := None;
         adjectives := Some [alto;
                             {| id := 2; difficulty := Some 2.0;
                                spanish := "bajo" |};
                             {| id := 3; difficulty := Some 2.0;
                                spanish := "rojo" |}] |}.

(** Three days with the same draws. *)
Definition tres_dias : list (Draw * Draw) :=
  [(sorteo, sorteo); (sorteo, sorteo); (sorteo, sorteo)].

(** The selections of these days on the catalogs [tres_verbos] and
    [un_adjetivo], starting from an empty history. *)
Definition tres_selecciones : list Selection :=
  [(verbo 1 "hablar", alto, false, false);
   (verbo 2 "comer", alto, false, true);
   (verbo 3 "vivir", alto, false, true)].

(** The stored level, when there is one, lies in [1.0, 5.0]. *)
Definition level_in_range (disk : Disk) : Prop :=
  match disk with
  | Doc h =>
      match current_difficulty_level h with
      | Some d => 1.0 <= d /\ d <= 5.0
      | None => True
      end
  | _ => True
  end.

(** The used lists, when present, hold each ID at most once. *)
Definition used_ids_unique (disk : Disk) : Prop :=
  match disk with
  | Doc h =>
      match used_verbs h with Some l => NoDup l | None => True end
      /\ match used_adjectives h with Some l => NoDup l | None => True end
  | _ => True
  end.

(** A delivery collaborator that succeeds for adjective 1 only. *)
Definition solo_alto : Main.Delivery :=
  fun _ a _ _ _ _ => Z.eqb (id a) 1.

(** The history document with the three keys that [select_daily_words]
    reads through [.get] filled in by their defaults. *)
Definition with_defaults (h : History) : History :=
  set_current_difficulty_level (get (current_difficulty_level h) 2.0)
    (set_used_adjectives (get (used_adjectives h) [])
       (set_used_verbs (get (used_verbs h) []) h)).

(** The two tables on Latin-1 (code points above U+00FF are left as they
    are and are not word characters): letters, digits and the underscore
    of ASCII, and the letters and numbers of the Latin-1 supplement. *)
Definition latin1_is_word_char (c : N) : bool :=
  if (c <? 128)%N then FeedbackProcessor.is_word_char (ascii_of_N c)
  else (c =? 170)%N || (c =? 178)%N || (c =? 179)%N || (c =? 181)%N
       || (c =? 185)%N || (c =? 186)%N
       || ((188 <=? c)%N && (c <=? 190)%N)
       || ((192 <=? c)%N && (c <=? 255)%N
           && negb (c =? 215)%N && negb (c =? 247)%N).

Definition latin1_lower_char (c : N) : N :=
  if ((65 <=? c)%N && (c <=? 90)%N)
     || ((192 <=? c)%N && (c <=? 222)%N && negb (c =? 215)%N)
  then (c + 32)%N else c.

Definition latin1_lower (t : Unicode.utext) : Unicode.utext :=
  map latin1_lower_char t.

(** U+00E9 (e with acute accent) followed by "easy", and "CAFE" with the
    capital U+00C9, then " Easy". *)
Definition e_acute_easy : Unicode.utext := 233%N :: Unicode.ustr "easy".

Definition cafe_easy : Unicode.utext :=
  (Unicode.ustr "CAF" ++ 201%N :: Unicode.ustr " Easy")%list.

End Cases.

(** * Properties *)

Import DataManager WordSelector FeedbackProcessor Scenario.
Local Open Scope io_scope.

(** ** Python built-ins *)

Lemma Qltb_lt (x y : Q) : Qltb x y = true <-> x < y.
Proof.
  unfold Qltb. rewrite negb_true_iff. split.
  - intros H. apply Qnot_le_lt. intros Hle.
    apply Qle_bool_iff in Hle. congruence.
  - intros H. destruct (Qle_bool y x) eqn:E; [|reflexivity].
    apply Qle_bool_iff in E. exfalso. apply (Qlt_not_le _ _ H E).
Qed.

Lemma Qltb_ge (x y : Q) : Qltb x y = false <-> y <= x.
Proof.
  unfold Qltb. rewrite negb_false_iff. apply Qle_bool_iff.
Qed.

Lemma contains_In (x : Z) (l : list Z) : contains x l = true <-> In x l.
Proof.
  unfold contains. rewrite existsb_exists. split.
  - intros [y [Hy E]]. apply Z.eqb_eq in E. now subst.
  - intros H. exists x. split; [assumption | apply Z.eqb_refl].
Qed.

Lemma contains_not_In (x : Z) (l : list Z) :
  contains x l = false <-> ~ In x l.
Proof.
  rewrite <- contains_In. destruct (contains x l); intuition congruence.
Qed.

Lemma is_empty_nil {A : Type} (l : list A) : is_empty l = true <-> l = [].
Proof. destruct l; simpl; split; congruence. Qed.

Lemma choice_In {A : Type} (k : nat) (seq : list A) (x : A) :
  choice k seq = inr x -> In x seq.
Proof.
  unfold choice. destruct (nth_error _ _) eqn:E; [|discriminate].
  intros H. injection H as <-. eapply nth_error_In; eassumption.
Qed.

Lemma choice_nonempty {A : Type} (k : nat) (seq : list A) :
  seq <> [] -> exists x, choice k seq = inr x /\ In x seq.
Proof.
  intros Hne. unfold choice.
  destruct (nth_error seq (Nat.modulo k (List.length seq))) eqn:E.
  - exists a. split; [reflexivity | eapply nth_error_In; eassumption].
  - apply nth_error_None in E.
    assert (0 < List.length seq)%nat
      by (destruct seq; simpl; [congruence | lia]).
    pose proof (Nat.mod_upper_bound k (List.length seq)). lia.
Qed.

Lemma is_empty_false {A : Type} (l : list A) : is_empty l = false <-> l <> [].
Proof. destruct l; simpl; split; congruence. Qed.

(** ** Difficulty bands *)

Lemma in_range_iff (lo hi : Q) (w : Word) :
  in_range lo hi w = true <->
  lo <= get (difficulty w) 2.0 /\ get (difficulty w) 2.0 <= hi.
Proof.
  unfold in_range. rewrite andb_true_iff, !Qle_bool_iff. reflexivity.
Qed.

Lemma filter_words_by_difficulty_In
  (words : list Word) (target tolerance : Q) (w : Word) :
  In w (filter_words_by_difficulty words target tolerance) <->
  In w words
  /\ max 1.0 (target - tolerance) <= get (difficulty w) 2.0
  /\ get (difficulty w) 2.0 <= min 5.0 (target + tolerance).
Proof.
  unfold filter_words_by_difficulty. cbv zeta.
  rewrite filter_In, in_range_iff. reflexivity.
Qed.

(** C10. A catalog item without a ["difficulty"] field belongs to the
    result of [filter_words_by_difficulty], for every target and every
    tolerance, exactly when it is one of the given words and 2.0 lies
    between the lower and the upper end of the range; in particular this
    holds for the current, the higher and the lower band of every
    difficulty. *)
Theorem missing_difficulty_counts_as_2
  (words : list Word) (w : Word) (Hmissing : difficulty w = None) :
  (forall target tolerance : Q,
      In w (filter_words_by_difficulty words target tolerance) <->
      In w words
      /\ max 1.0 (target - tolerance) <= 2.0
      /\ 2.0 <= min 5.0 (target + tolerance))
  /\ (forall d : Q,
         (In w (current_range words d) <->
          In w words /\ max 1.0 (d - 0.5) <= 2.0 <= min 5.0 (d + 0.5))
         /\ (In w (higher_range words d) <->
             In w words
             /\ max 1.0 (min 5.0 (d + 1.0) - 0.5) <= 2.0
                <= min 5.0 (min 5.0 (d + 1.0) + 0.5))
         /\ (In w (lower_range words d) <->
             In w words
             /\ max 1.0 (max 1.0 (d - 1.0) - 0.5) <= 2.0
                <= min 5.0 (max 1.0 (d - 1.0) + 0.5))).
Proof.
  assert (G : forall target tolerance : Q,
             In w (filter_words_by_difficulty words target tolerance) <->
             In w words
             /\ max 1.0 (target - tolerance) <= 2.0
             /\ 2.0 <= min 5.0 (target + tolerance)).
  { intros target tolerance.
    rewrite filter_words_by_difficulty_In, Hmissing. reflexivity. }
  split; [exact G|].
  intros d. unfold current_range, higher_range, lower_range.
  split; [|split]; (split; [intros Hin; apply G in Hin | intros Hin; apply G]);
    tauto.
Qed.

Lemma missing_difficulty_counts_as_2_witness :
  difficulty sin_nivel = None
  /\ In sin_nivel (current_range [sin_nivel] 2.5)
  /\ ~ In sin_nivel (current_range [sin_nivel] 2.6).
Proof.
  split; [reflexivity|].
  pose proof (missing_difficulty_counts_as_2 [sin_nivel] sin_nivel eq_refl)
    as [_ H].
  split.
  - apply (proj1 (H 2.5)). split; [left; reflexivity|].
    split; vm_compute; discriminate.
  - intros Hin. apply (proj1 (H 2.6)) in Hin.
    destruct Hin as [_ [Hlo _]]. vm_compute in Hlo. apply Hlo. reflexivity.
Defined.

(** ** Selection by difficulty distribution *)

Lemma select_word_unfold
  (words : list Word) (d r : Q) (k : nat) (Hne : words <> []) :
  select_word_by_difficulty_distribution words d r k =
  if Qltb r 0.70 && negb (is_empty (current_range words d))
  then choice k (current_range words d)
  else if Qltb r 0.90 && negb (is_empty (higher_range words d))
       then choice k (higher_range words d)
  else if Qltb r 1.00 && negb (is_empty (lower_range words d))
       then choice k (lower_range words d)
  else choice k words.
Proof.
  unfold select_word_by_difficulty_distribution.
  apply is_empty_false in Hne. rewrite Hne. reflexivity.
Qed.

Lemma filter_words_by_difficulty_incl
  (words : list Word) (target tolerance : Q) :
  incl (filter_words_by_difficulty words target tolerance) words.
Proof. intros w Hw. apply filter_words_by_difficulty_In in Hw. tauto. Qed.

(** Whatever the draws, a selection from a non-empty list returns one of
    its items. *)
Lemma select_word_total
  (words : list Word) (d r : Q) (k : nat) (Hne : words <> []) :
  exists w, select_word_by_difficulty_distribution words d r k = inr w
            /\ In w words.
Proof.
  rewrite select_word_unfold by assumption.
  assert (Hband : forall target,
             filter_words_by_difficulty words target 0.5 <> [] ->
             exists w,
               choice k (filter_words_by_difficulty words target 0.5) = inr w
               /\ In w words).
  { intros target Hb. destruct (choice_nonempty k _ Hb) as [w [Hw Hin]].
    exists w. split; [exact Hw|].
    eapply filter_words_by_difficulty_incl; exact Hin. }
  destruct (Qltb r 0.70 && negb (is_empty (current_range words d))) eqn:E1.
  { apply andb_true_iff in E1 as [_ E1]. apply negb_true_iff in E1.
    apply Hband. apply is_empty_false. exact E1. }
  destruct (Qltb r 0.90 && negb (is_empty (higher_range words d))) eqn:E2.
  { apply andb_true_iff in E2 as [_ E2]. apply negb_true_iff in E2.
    apply Hband. apply is_empty_false. exact E2. }
  destruct (Qltb r 1.00 && negb (is_empty (lower_range words d))) eqn:E3.
  { apply andb_true_iff in E3 as [_ E3]. apply negb_true_iff in E3.
    apply Hband. apply is_empty_false. exact E3. }
  apply choice_nonempty. exact Hne.
Qed.

Lemma select_word_In
  (words : list Word) (d r : Q) (k : nat) (w : Word) :
  select_word_by_difficulty_distribution words d r k = inr w -> In w words.
Proof.
  intros H. destruct words as [|w0 words'].
  - discriminate H.
  - destruct (select_word_total (w0 :: words') d r k) as [w' [E Hin]];
      [discriminate|].
    rewrite E in H. injection H as <-. exact Hin.
Qed.

(** C1, as stated, fails.  A uniform choice over a pool can return each of
    its items.  With unused items of difficulty 3.0 and 5.0, difficulty 2.0
    and the draw 0.5, the current band is empty, so the pool of the claim
    is all of the unused items; the code draws from the higher band, which
    holds the item of difficulty 3.0 only, and never returns the other
    one. *)
Lemma empty_band_falls_to_next_band :
  ~ (forall (words : list Word) (d r : Q),
        words <> [] -> 0 <= r -> r < 1 ->
        forall w : Word,
          In w (spec_pool words d r) ->
          exists k : nat,
            select_word_by_difficulty_distribution words d r k = inr w).
Proof.
  intros H.
  destruct (H [nivel3; nivel5] 2.0 0.5) with (w := nivel5) as [k Hk].
  - discriminate.
  - discriminate.
  - reflexivity.
  - right. left. reflexivity.
  - change (select_word_by_difficulty_distribution
              [nivel3; nivel5] 2.0 0.5 k)
      with (choice k [nivel3]) in Hk.
    apply choice_In in Hk. destruct Hk as [E | []]. discriminate E.
Qed.

(** C1, amended.  For a non-empty list of unused items and a draw [r] in
    [0,1): [r < 0.70] selects the current band, [0.70 <= r < 0.90] the
    higher band and [0.90 <= r] the lower band, each when it is not empty.
    When the band chosen by [r] is empty the selection moves on to the
    next band in the order current, higher, lower that is not empty, and
    is a choice over all of the unused items only when every band from
    the chosen one on is empty.  In every case an item of the list is
    returned. *)
Theorem select_word_cascade
  (words : list Word) (d r : Q) (k : nat)
  (Hne : words <> []) (Hr0 : 0 <= r) (Hr1 : r < 1) :
  let select := select_word_by_difficulty_distribution words d r k in
  let current := current_range words d in
  let higher := higher_range words d in
  let lower := lower_range words d in
  (r < 0.70 -> current <> [] -> select = choice k current)
  /\ (0.70 <= r -> r < 0.90 -> higher <> [] -> select = choice k higher)
  /\ (0.90 <= r -> lower <> [] -> select = choice k lower)
  /\ (r < 0.70 -> current = [] -> higher <> [] -> select = choice k higher)
  /\ (r < 0.90 -> (r < 0.70 -> current = []) -> higher = [] ->
      lower <> [] -> select = choice k lower)
  /\ ((r < 0.70 -> current = []) -> (r < 0.90 -> higher = []) ->
      lower = [] -> select = choice k words)
  /\ (exists w, select = inr w /\ In w words).
Proof.
  cbv zeta. rewrite select_word_unfold by assumption.
  assert (H100 : Qltb r 1.00 = true) by (apply Qltb_lt; lra).
  rewrite H100.
  pose proof (select_word_total words d r k Hne) as Htot.
  rewrite select_word_unfold in Htot by assumption. rewrite H100 in Htot.
  destruct (Qltb r 0.70) eqn:E70;
    [apply Qltb_lt in E70 | apply Qltb_ge in E70];
    (destruct (Qltb r 0.90) eqn:E90;
     [apply Qltb_lt in E90 | apply Qltb_ge in E90]);
    destruct (is_empty (current_range words d)) eqn:Ec;
    [apply is_empty_nil in Ec | apply is_empty_false in Ec
    |apply is_empty_nil in Ec | apply is_empty_false in Ec
    |apply is_empty_nil in Ec | apply is_empty_false in Ec
    |apply is_empty_nil in Ec | apply is_empty_false in Ec];
    (destruct (is_empty (higher_range words d)) eqn:Eh;
     [apply is_empty_nil in Eh | apply is_empty_false in Eh]);
    (destruct (is_empty (lower_range words d)) eqn:El;
     [apply is_empty_nil in El | apply is_empty_false in El]);
    cbn [andb negb] in *;
    repeat split; try exact Htot; intros;
    try reflexivity; try congruence; try (exfalso; lra);
    try (exfalso; tauto).
Qed.

Lemma select_word_cascade_witness :
  [nivel3; nivel5] <> [] /\ 0 <= 0.5 /\ 0.5 < 1
  /\ select_word_by_difficulty_distribution [nivel3; nivel5] 2.0 0.5 1
     = choice 1 (higher_range [nivel3; nivel5] 2.0).
Proof.
  assert (Hne : [nivel3; nivel5] <> []) by discriminate.
  assert (H0 : 0 <= 0.5) by discriminate.
  assert (H1 : 0.5 < 1) by reflexivity.
  split; [exact Hne|]. split; [exact H0|]. split; [exact H1|].
  destruct (select_word_cascade [nivel3; nivel5] 2.0 0.5 1 Hne H0 H1)
    as (_ & _ & _ & H & _).
  apply H; [reflexivity | reflexivity | discriminate].
Defined.

(** ** Difficulty adjustment *)

Lemma min_cases (a b : Q) :
  (b < a /\ min a b = b) \/ (a <= b /\ min a b = a).
Proof.
  unfold min. destruct (Qltb b a) eqn:E;
    [apply Qltb_lt in E | apply Qltb_ge in E]; tauto.
Qed.

Lemma max_cases (a b : Q) :
  (a < b /\ max a b = b) \/ (b <= a /\ max a b = a).
Proof.
  unfold max. destruct (Qltb a b) eqn:E;
    [apply Qltb_lt in E | apply Qltb_ge in E]; tauto.
Qed.

(** Case analysis on every [min], [max] and comparison, then linear
    arithmetic. *)
Ltac minmax :=
  unfold clamp;
  repeat match goal with
  | |- context [max ?a ?b] =>
      let H := fresh "H" in
      let E := fresh "E" in
      destruct (max_cases a b) as [[H E] | [H E]]; rewrite E in *; clear E
  | |- context [min ?a ?b] =>
      let H := fresh "H" in
      let E := fresh "E" in
      destruct (min_cases a b) as [[H E] | [H E]]; rewrite E in *; clear E
  | H0 : context [max ?a ?b] |- _ =>
      let H := fresh "H" in
      let E := fresh "E" in
      destruct (max_cases a b) as [[H E] | [H E]]; rewrite E in *; clear E
  | H0 : context [min ?a ?b] |- _ =>
      let H := fresh "H" in
      let E := fresh "E" in
      destruct (min_cases a b) as [[H E] | [H E]]; rewrite E in *; clear E
  | |- context [Qltb ?a ?b] =>
      let E := fresh "E" in
      destruct (Qltb a b) eqn:E;
      [apply Qltb_lt in E | apply Qltb_ge in E]
  end;
  try lra.

Lemma max_min_is_clamp (x : Q) : max 1.0 (min 5.0 x) == clamp x 1.0 5.0.
Proof. minmax. Qed.

Lemma update_difficulty_preference_run
  (clock : Clock) (feedback : string) (a : Q)
  (h : History) (log : list Adjustment) :
  difficulty_adjustments h = Some log ->
  let old_level := get (current_difficulty_level h) 2.0 in
  let new_level := max 1.0 (min 5.0 (old_level + a)) in
  update_difficulty_preference clock feedback a (Doc h) =
  (inr new_level,
   Doc (set_last_feedback_check (Some (isoformat clock))
          (set_current_difficulty_level new_level
             (set_difficulty_adjustments
                (log ++ [ {| adj_date := today clock;
                             adj_feedback := feedback;
                             adj_old_level := old_level;
                             adj_new_level := new_level |} ])
                h)))).
Proof.
  intros Hlog. unfold update_difficulty_preference, bind, read_json.
  cbn [read_file]. rewrite Hlog. reflexivity.
Qed.

(** C7. On a history document with an adjustment log, for every prior
    difficulty and every adjustment, [update_difficulty_preference]
    returns and persists the level [clamp(d + a, 1.0, 5.0)] and appends
    exactly one entry to the log, which records the date, the keyword,
    the old level and the new level; the used-ID lists, the send log and
    the send count are untouched. *)
Theorem update_difficulty_preference_clamps
  (clock : Clock) (feedback : string) (a d : Q)
  (h : History) (log : list Adjustment)
  (Hd : get (current_difficulty_level h) 2.0 = d)
  (Hlog : difficulty_adjustments h = Some log) :
  exists (new_level : Q) (h' : History),
    update_difficulty_preference clock feedback a (Doc h)
    = (inr new_level, Doc h')
    /\ new_level == clamp (d + a) 1.0 5.0
    /\ current_difficulty_level h' = Some new_level
    /\ difficulty_adjustments h'
       = Some (log ++ [ {| adj_date := today clock;
                           adj_feedback := feedback;
                           adj_old_level := d;
                           adj_new_level := new_level |} ])
    /\ used_verbs h' = used_verbs h
    /\ used_adjectives h' = used_adjectives h
    /\ sent_emails h' = sent_emails h
    /\ total_emails_sent h' = total_emails_sent h.
Proof.
  pose proof (update_difficulty_preference_run clock feedback a h log Hlog)
    as Hrun.
  cbv zeta in Hrun. rewrite Hd in Hrun.
  eexists. eexists. split; [exact Hrun|].
  split; [apply max_min_is_clamp|].
  cbn. repeat split; reflexivity.
Qed.

Lemma update_difficulty_preference_clamps_witness :
  get (current_difficulty_level (history_at 3.0)) 2.0 = 3.0
  /\ difficulty_adjustments (history_at 3.0) = Some []
  /\ exists new_level h',
       update_difficulty_preference reloj "hard" (-0.5) (Doc (history_at 3.0))
       = (inr new_level, Doc h')
       /\ new_level == 2.5.
Proof.
  split; [reflexivity|]. split; [reflexivity|].
  destruct (update_difficulty_preference_clamps
              reloj "hard" (-0.5) 3.0 (history_at 3.0) [] eq_refl eq_refl)
    as (new_level & h' & Hrun & Hclamp & _).
  exists new_level, h'. split; [exact Hrun|].
  rewrite Hclamp. reflexivity.
Defined.

Lemma easy_then_hard_unfold (clock : Clock) (disk : Disk) :
  easy_then_hard clock disk =
  match update_difficulty_preference clock "easy" 0.5 disk with
  | (inl e, disk') => (inl e, disk')
  | (inr _, disk') => update_difficulty_preference clock "hard" (-0.5) disk'
  end.
Proof. reflexivity. Qed.

(** So the levels that the program writes stay multiples of 0.5 in
    [1.0, 5.0]. *)
Lemma half_levels_closed (k : Z) (a : Q) :
  (2 <= k <= 10)%Z ->
  a == 0.5 \/ a == -0.5 \/ a == 0.0 ->
  exists k' : Z,
    (2 <= k' <= 10)%Z /\ max 1.0 (min 5.0 ((k # 2) + a)) == k' # 2.
Proof.
  intros Hk Ha.
  assert (Hcases : (k = 2 \/ k = 3 \/ k = 4 \/ k = 5 \/ k = 6 \/ k = 7
                    \/ k = 8 \/ k = 9 \/ k = 10)%Z) by lia.
  clear Hk.
  destruct Ha as [Ha | [Ha | Ha]].
  - exists (Z.min 10 (k + 1)).
    repeat (destruct Hcases as [-> | Hcases];
            [split; [lia | vm_compute (Z.min _ _); minmax]|]).
    subst k. split; [lia | vm_compute (Z.min _ _); minmax].
  - exists (Z.max 2 (k - 1)).
    repeat (destruct Hcases as [-> | Hcases];
            [split; [lia | vm_compute (Z.max _ _); minmax]|]).
    subst k. split; [lia | vm_compute (Z.max _ _); minmax].
  - exists k.
    repeat (destruct Hcases as [-> | Hcases]; [split; [lia | minmax]|]).
    subst k. split; [lia | minmax].
Qed.

(** Evaluates the rational value of every closed float of the goal. *)
Ltac binary64_values :=
  repeat match goal with
  | |- context [Binary64.to_Q ?x] =>
      let v := eval vm_compute in (Binary64.to_Q x) in
      change (Binary64.to_Q x) with v
  end.

(** C3, as stated, fails: from difficulty 4.8 the "easy" step clamps to
    5.0 and the "hard" step then gives 4.5, not 4.8; in binary64 as in
    exact arithmetic. *)
Lemma easy_then_hard_loses_clamped_part :
  ~ (forall (clock : Clock) (h : History) (d : Q),
        current_difficulty_level h = Some d ->
        difficulty_adjustments h <> None ->
        1.0 <= d -> d <= 5.0 ->
        exists d', fst (easy_then_hard clock (Doc h)) = inr d' /\ d' == d)
  /\ Binary64.to_Q Binary64.f4_8 <= 5.0
  /\ Binary64.to_Q (Binary64.easy_then_hard Binary64.f4_8) == 4.5
  /\ PrimFloat.ltb (Binary64.easy_then_hard Binary64.f4_8) Binary64.f4_8
     = true.
Proof.
  split.
  { intros H.
    destruct (H reloj (history_at 4.8) 4.8) as (d' & Hrun & Heq);
      try reflexivity; try discriminate.
    vm_compute in Hrun. injection Hrun as <-.
    vm_compute in Heq. discriminate Heq. }
  split; [binary64_values; lra|].
  split; [binary64_values; lra|].
  vm_compute. reflexivity.
Qed.

(** Every adjustment of [FEEDBACK_KEYWORDS] is +0.5, -0.5 or 0.0: from
    the default level 2.0 the program only writes multiples of 0.5. *)
Lemma keyword_adjustments_are_halves :
  Forall (fun kv => snd kv == 0.5 \/ snd kv == -0.5 \/ snd kv == 0.0)
         FEEDBACK_KEYWORDS.
Proof.
  unfold FEEDBACK_KEYWORDS.
  repeat (constructor;
          [cbn [snd]; first [left; reflexivity
                            | right; left; reflexivity
                            | right; right; reflexivity]|]).
  constructor.
Qed.

(** C3, amended.  The code adds binary64 floats, so the statement is made
    for the levels on which the sum is exact and which the program itself
    produces: the multiples [k / 2] of 0.5 in [1.0, 5.0].  On a history
    document with an adjustment log and such a level [d], an "easy"
    adjustment (+0.5) followed by a "hard" adjustment (-0.5) returns and
    persists [d] when [d <= 4.5]; from 5.0 the "easy" step stays at 5.0
    and the "hard" step yields 4.5.  On these levels the binary64
    computation of line 158 gives exactly the same values: the float of
    [d] goes to the float of [d + 0.5] (or 5.0) and back to itself (or to
    4.5).  Off these levels: from 4.8 the "easy" step clamps 5.3 to 5.0
    and the "hard" step gives 4.5; from 1.7 the binary64 round trip gives
    the next float above 1.7 (1.7000000000000002), not 1.7. *)
Theorem easy_then_hard_roundtrip
  (clock : Clock) (h : History) (d : Q) (k : Z) (log : list Adjustment)
  (Hd : current_difficulty_level h = Some d)
  (Hlog : difficulty_adjustments h = Some log)
  (Hhalf : d == k # 2)
  (Hlo : (2 <= k)%Z) (Hhi : (k <= 10)%Z) :
  exists (mid final : Q) (hm h' : History),
    update_difficulty_preference clock "easy" 0.5 (Doc h) = (inr mid, Doc hm)
    /\ update_difficulty_preference clock "hard" (-0.5) (Doc hm)
       = (inr final, Doc h')
    /\ easy_then_hard clock (Doc h) = (inr final, Doc h')
    /\ current_difficulty_level h' = Some final
    /\ ((k <= 9)%Z -> mid == d + 0.5 /\ final == d)
    /\ (k = 10%Z -> mid == 5.0 /\ final == 4.5)
    /\ Binary64.to_Q (Binary64.half k) == d
    /\ Binary64.to_Q (Binary64.new_level (Binary64.half k) Binary64.easy)
       == mid
    /\ Binary64.to_Q (Binary64.easy_then_hard (Binary64.half k)) == final
    /\ ((k <= 9)%Z ->
        Binary64.new_level (Binary64.half k) Binary64.easy
        = Binary64.half (k + 1)
        /\ Binary64.easy_then_hard (Binary64.half k) = Binary64.half k)
    /\ (Binary64.new_level (Binary64.half 10) Binary64.easy
        = Binary64.half 10
        /\ Binary64.easy_then_hard (Binary64.half 10) = Binary64.half 9)
    /\ (PrimFloat.add Binary64.f4_8 Binary64.easy = Binary64.f5_3
        /\ Binary64.new_level Binary64.f4_8 Binary64.easy = Binary64.half 10
        /\ Binary64.easy_then_hard Binary64.f4_8 = Binary64.half 9)
    /\ (Binary64.easy_then_hard Binary64.f1_7 = Binary64.f1_7_next
        /\ PrimFloat.ltb Binary64.f1_7 Binary64.f1_7_next = true).
Proof.
  pose proof (update_difficulty_preference_run clock "easy" 0.5 h log Hlog)
    as H1.
  cbv zeta in H1. rewrite Hd in H1. cbn [get] in H1.
  match type of H1 with
  | _ = (_, Doc ?hm0) =>
      pose proof (update_difficulty_preference_run clock "hard" (-0.5) hm0
                    _ eq_refl) as H2
  end.
  cbv zeta in H2. cbn [current_difficulty_level set_last_feedback_check
                       set_current_difficulty_level get] in H2.
  eexists. eexists. eexists. eexists.
  split; [exact H1|]. split; [exact H2|].
  split; [rewrite easy_then_hard_unfold, H1; exact H2|].
  split; [reflexivity|].
  assert (Hk : (k = 2 \/ k = 3 \/ k = 4 \/ k = 5 \/ k = 6 \/ k = 7
                \/ k = 8 \/ k = 9 \/ k = 10)%Z) by lia.
  clear H1 H2.
  split.
  { intros Hcase.
    repeat (destruct Hk as [-> | Hk]; [split; minmax|]).
    exfalso; lia. }
  split.
  { intros ->. split; minmax. }
  split.
  { repeat (destruct Hk as [-> | Hk]; [binary64_values; lra|]).
    subst k. binary64_values. lra. }
  split.
  { repeat (destruct Hk as [-> | Hk]; [binary64_values; minmax|]).
    subst k. binary64_values. minmax. }
  split.
  { repeat (destruct Hk as [-> | Hk]; [binary64_values; minmax|]).
    subst k. binary64_values. minmax. }
  split.
  { intros Hcase.
    repeat (destruct Hk as [-> | Hk];
            [split; vm_compute; reflexivity|]).
    exfalso; lia. }
  split; [split; vm_compute; reflexivity|].
  split; [split; [|split]; vm_compute; reflexivity|].
  split; vm_compute; reflexivity.
Qed.

Lemma easy_then_hard_roundtrip_witness :
  current_difficulty_level (history_at 3.0) = Some 3.0
  /\ difficulty_adjustments (history_at 3.0) = Some []
  /\ 3.0 == 6 # 2 /\ (2 <= 6)%Z /\ (6 <= 10)%Z
  /\ exists final h',
       easy_then_hard reloj (Doc (history_at 3.0)) = (inr final, Doc h')
       /\ final == 3.0
       /\ Binary64.to_Q (Binary64.easy_then_hard (Binary64.half 6)) == final.
Proof.
  assert (Hhalf : 3.0 == 6 # 2) by reflexivity.
  assert (Hlo : (2 <= 6)%Z) by lia.
  assert (Hhi : (6 <= 10)%Z) by lia.
  assert (Hc : (6 <= 9)%Z) by lia.
  split; [reflexivity|]. split; [reflexivity|].
  split; [exact Hhalf|]. split; [exact Hlo|]. split; [exact Hhi|].
  destruct (easy_then_hard_roundtrip reloj (history_at 3.0) 3.0 6 []
              eq_refl eq_refl Hhalf Hlo Hhi)
    as (mid & final & hm & h' & _ & _ & Hrun & _ & Hle & _ & _ & _ & Hfloat
        & _).
  exists final, h'. split; [exact Hrun|].
  split; [exact (proj2 (Hle Hc)) | exact Hfloat].
Defined.

(** ** Recording a send *)

Lemma append_if_new_NoDup (x : Z) (l : list Z) :
  NoDup l -> NoDup (append_if_new x l).
Proof.
  intros Hnd. unfold append_if_new. destruct (contains x l) eqn:E.
  - exact Hnd.
  - apply contains_not_In in E.
    apply NoDup_app; [exact Hnd | repeat constructor; intros [] | ].
    intros y Hy [<- | []]. exact (E Hy).
Qed.

Lemma append_if_new_old (x : Z) (l : list Z) :
  In x l -> append_if_new x l = l.
Proof.
  intros H. unfold append_if_new. apply contains_In in H. now rewrite H.
Qed.

Lemma append_if_new_fresh (x : Z) (l : list Z) :
  ~ In x l -> append_if_new x l = l ++ [x].
Proof.
  intros H. unfold append_if_new. apply contains_not_In in H. now rewrite H.
Qed.

Lemma update_history_success_run
  (clock : Clock) (verb_id adjective_id : Z) (level : Q) (h : History)
  (sent : list SentEmail) (verbs adjectives : list Z) (total : Z) :
  sent_emails h = Some sent ->
  used_verbs h = Some verbs ->
  used_adjectives h = Some adjectives ->
  total_emails_sent h = Some total ->
  update_history clock verb_id adjective_id true level (Doc h) =
  (inr tt,
   Doc (set_total_emails_sent (total + 1)%Z
          (set_used_adjectives (append_if_new adjective_id adjectives)
             (set_used_verbs (append_if_new verb_id verbs)
                (set_sent_emails
                   (sent ++ [ {| se_date := today clock;
                                 se_verb_id := verb_id;
                                 se_adjective_id := adjective_id;
                                 se_success := true;
                                 se_difficulty_level := level |} ])
                   h))))).
Proof.
  intros Hs Hv Ha Ht.
  unfold update_history, bind, try_except, read_json. cbn [read_file].
  rewrite Hs. cbn. rewrite Hv. cbn. rewrite Ha. cbn. rewrite Ht.
  reflexivity.
Qed.

(** C9. On a history document whose used-ID lists have no duplicates,
    recording a successful send keeps both lists free of duplicates: a
    verb or adjective ID that is already in its list leaves the list
    unchanged, a new ID is appended; the send-log entry is appended and
    the count of sends is incremented in either case. *)
Theorem update_history_keeps_ids_unique
  (clock : Clock) (verb_id adjective_id : Z) (level : Q) (h : History)
  (sent : list SentEmail) (verbs adjectives : list Z) (total : Z)
  (Hsent : sent_emails h = Some sent)
  (Hverbs : used_verbs h = Some verbs)
  (Hadjectives : used_adjectives h = Some adjectives)
  (Htotal : total_emails_sent h = Some total)
  (Hnd_verbs : NoDup verbs) (Hnd_adjectives : NoDup adjectives) :
  exists (h' : History) (verbs' adjectives' : list Z),
    update_history clock verb_id adjective_id true level (Doc h)
    = (inr tt, Doc h')
    /\ used_verbs h' = Some verbs'
    /\ used_adjectives h' = Some adjectives'
    /\ NoDup verbs' /\ NoDup adjectives'
    /\ (In verb_id verbs -> verbs' = verbs)
    /\ (In adjective_id adjectives -> adjectives' = adjectives)
    /\ (~ In verb_id verbs -> verbs' = verbs ++ [verb_id])
    /\ (~ In adjective_id adjectives ->
        adjectives' = adjectives ++ [adjective_id])
    /\ sent_emails h'
       = Some (sent ++ [ {| se_date := today clock;
                            se_verb_id := verb_id;
                            se_adjective_id := adjective_id;
                            se_success := true;
                            se_difficulty_level := level |} ])
    /\ total_emails_sent h' = Some (total + 1)%Z.
Proof.
  eexists. exists (append_if_new verb_id verbs).
  exists (append_if_new adjective_id adjectives).
  split.
  { apply update_history_success_run; eassumption. }
  cbn.
  split; [reflexivity|]. split; [reflexivity|].
  split; [apply append_if_new_NoDup; assumption|].
  split; [apply append_if_new_NoDup; assumption|].
  split; [apply append_if_new_old|].
  split; [apply append_if_new_old|].
  split; [apply append_if_new_fresh|].
  split; [apply append_if_new_fresh|].
  split; reflexivity.
Qed.

Lemma update_history_keeps_ids_unique_witness :
  NoDup [4%Z; 6%Z] /\ NoDup [9%Z]
  /\ exists h',
       update_history reloj 4 9 true 2.0 (Doc ya_enviados) = (inr tt, Doc h')
       /\ used_verbs h' = Some [4%Z; 6%Z]
       /\ used_adjectives h' = Some [9%Z]
       /\ total_emails_sent h' = Some 1%Z.
Proof.
  assert (Hv : NoDup [4%Z; 6%Z]).
  { repeat constructor; simpl; intuition discriminate. }
  assert (Ha : NoDup [9%Z]).
  { repeat constructor; simpl; intuition discriminate. }
  split; [exact Hv|]. split; [exact Ha|].
  destruct (update_history_keeps_ids_unique reloj 4 9 2.0 ya_enviados
              [] [4%Z; 6%Z] [9%Z] 0%Z eq_refl eq_refl eq_refl eq_refl Hv Ha)
    as (h' & verbs' & adjectives' & Hrun & Hv' & Ha' & _ & _ & Hsame_v
        & Hsame_a & _ & _ & _ & Htot).
  exists h'. split; [exact Hrun|].
  rewrite Hv', Ha', Htot.
  rewrite (Hsame_v (or_introl eq_refl)), (Hsame_a (or_introl eq_refl)).
  repeat split.
Defined.

(** ** Daily selection *)

Lemma get_unused_words_In (all_words : list Word) (used : list Z) (w : Word) :
  In w (get_unused_words all_words used) <->
  In w all_words /\ ~ In (id w) used.
Proof.
  unfold get_unused_words. rewrite filter_In, negb_true_iff.
  rewrite contains_not_In. reflexivity.
Qed.

(** The selection on an existing history document, step by step. *)
Lemma select_daily_words_doc
  (vf af : file WordFile) (dv da : Draw) (h : History)
  (vs ajs : list Word) :
  load_words vf = inr vs ->
  load_words af = inr ajs ->
  let level := get (current_difficulty_level h) 2.0 in
  let unused_v := get_unused_words vs (get (used_verbs h) []) in
  let unused_a := get_unused_words ajs (get (used_adjectives h) []) in
  let vr := is_empty unused_v in
  let ar := is_empty unused_a in
  let disk' := Doc (after_resets vr ar h) in
  select_daily_words vf af dv da (Doc h) =
  match select_word_by_difficulty_distribution
          (if vr then vs else unused_v) level (rand dv) (pick dv) with
  | inl e => (inl e, disk')
  | inr v =>
      match select_word_by_difficulty_distribution
              (if ar then ajs else unused_a) level (rand da) (pick da) with
      | inl e => (inl e, disk')
      | inr a => (inr (v, a, vr, ar), disk')
      end
  end.
Proof.
  intros Hv Ha. cbv zeta.
  unfold select_daily_words, bind, lift, try_except, read_json, ret,
    reset_used_words, write_json, after_resets.
  rewrite Hv, Ha. cbn [read_file].
  destruct (is_empty (get_unused_words vs (get (used_verbs h) []))) eqn:Ev;
    destruct (is_empty (get_unused_words ajs (get (used_adjectives h) [])))
      eqn:Ea;
    cbn;
    repeat match goal with
    | |- context [select_word_by_difficulty_distribution ?w ?l ?r ?k] =>
        destruct (select_word_by_difficulty_distribution w l r k)
    end; reflexivity.
Qed.

(** The selection when there is no history file: a catalog without items
    makes the reset fail on the missing file. *)
Lemma select_daily_words_absent
  (vf af : file WordFile) (dv da : Draw) (vs ajs : list Word) :
  load_words vf = inr vs ->
  load_words af = inr ajs ->
  select_daily_words vf af dv da Absent =
  if is_empty (get_unused_words vs []) then (inl FileNotFoundError, Absent)
  else if is_empty (get_unused_words ajs [])
       then (inl FileNotFoundError, Absent)
  else
    match select_word_by_difficulty_distribution
            (get_unused_words vs []) 2.0 (rand dv) (pick dv) with
    | inl e => (inl e, Absent)
    | inr v =>
        match select_word_by_difficulty_distribution
                (get_unused_words ajs []) 2.0 (rand da) (pick da) with
        | inl e => (inl e, Absent)
        | inr a => (inr (v, a, false, false), Absent)
        end
    end.
Proof.
  intros Hv Ha.
  unfold select_daily_words, bind, lift, try_except, read_json, ret,
    reset_used_words, write_json.
  rewrite Hv, Ha. cbn [read_file is_FileNotFoundError].
  destruct (is_empty (get_unused_words vs [])) eqn:Ev;
    destruct (is_empty (get_unused_words ajs [])) eqn:Ea;
    cbn;
    repeat match goal with
    | |- context [select_word_by_difficulty_distribution ?w ?l ?r ?k] =>
        destruct (select_word_by_difficulty_distribution w l r k)
    end; reflexivity.
Qed.

Lemma select_daily_words_corrupt
  (vf af : file WordFile) (dv da : Draw) (vs ajs : list Word) :
  load_words vf = inr vs ->
  load_words af = inr ajs ->
  select_daily_words vf af dv da Corrupt = (inl JSONDecodeError, Corrupt).
Proof.
  intros Hv Ha.
  unfold select_daily_words, bind, lift, try_except, read_json.
  rewrite Hv, Ha. reflexivity.
Qed.

(** A failed load of a catalog ends the selection before the history is
    read. *)
Lemma select_daily_words_loaded
  (vf af : file WordFile) (dv da : Draw) (disk disk' : Disk) (s : Selection) :
  select_daily_words vf af dv da disk = (inr s, disk') ->
  exists vs ajs, load_words vf = inr vs /\ load_words af = inr ajs.
Proof.
  unfold select_daily_words, bind, lift.
  destruct (load_words vf) as [e|vs]; [discriminate|].
  destruct (load_words af) as [e|ajs]; [discriminate|].
  intros _. eauto.
Qed.

(** Everything that a successful selection determines. *)
Lemma select_daily_words_inr
  (vf af : file WordFile) (dv da : Draw) (disk disk' : Disk)
  (v a : Word) (vr ar : bool) :
  select_daily_words vf af dv da disk = (inr (v, a, vr, ar), disk') ->
  exists vs ajs,
    load_words vf = inr vs /\ load_words af = inr ajs
    /\ vr = is_empty (get_unused_words vs (used_verb_ids disk))
    /\ ar = is_empty (get_unused_words ajs (used_adjective_ids disk))
    /\ In v (if vr then vs else get_unused_words vs (used_verb_ids disk))
    /\ In a (if ar then ajs
             else get_unused_words ajs (used_adjective_ids disk))
    /\ disk' = match disk with
               | Doc h => Doc (after_resets vr ar h)
               | _ => disk
               end.
Proof.
  intros H.
  destruct (select_daily_words_loaded _ _ _ _ _ _ _ H) as (vs & ajs & Hv & Ha).
  exists vs, ajs. split; [exact Hv|]. split; [exact Ha|].
  destruct disk as [| |h].
  - rewrite (select_daily_words_absent vf af dv da vs ajs Hv Ha) in H.
    cbn [used_verb_ids used_adjective_ids].
    destruct (is_empty (get_unused_words vs [])); [discriminate|].
    destruct (is_empty (get_unused_words ajs [])); [discriminate|].
    destruct (select_word_by_difficulty_distribution
                (get_unused_words vs []) _ _ _) as [e|v'] eqn:Sv;
      [discriminate|].
    destruct (select_word_by_difficulty_distribution
                (get_unused_words ajs []) _ _ _) as [e|a'] eqn:Sa;
      [discriminate|].
    injection H as <- <- <- <- <-.
    apply select_word_In in Sv. apply select_word_In in Sa.
    repeat split; assumption.
  - rewrite (select_daily_words_corrupt vf af dv da vs ajs Hv Ha) in H.
    discriminate.
  - rewrite (select_daily_words_doc vf af dv da h vs ajs Hv Ha) in H.
    cbv zeta in H. cbn [used_verb_ids used_adjective_ids].
    destruct (select_word_by_difficulty_distribution
                (if is_empty (get_unused_words vs (get (used_verbs h) []))
                 then vs else _) _ _ _) as [e|v'] eqn:Sv;
      [discriminate|].
    destruct (select_word_by_difficulty_distribution
                (if is_empty (get_unused_words ajs
                                (get (used_adjectives h) []))
                 then ajs else _) _ _ _) as [e|a'] eqn:Sa;
      [discriminate|].
    injection H as <- <- <- <- <-.
    apply select_word_In in Sv. apply select_word_In in Sa.
    repeat split; assumption.
Qed.

Lemma select_word_singleton (w : Word) (d r : Q) (k : nat) :
  select_word_by_difficulty_distribution [w] d r k = inr w.
Proof.
  destruct (select_word_total [w] d r k) as (w' & E & [<- | []]).
  - discriminate.
  - exact E.
Qed.

(** C5. A selection that succeeds without a reset of a catalog returns an
    item of that catalog whose ID is not in the used list that the history
    held at entry.  In the scenario of three verbs of difficulty 2.0 with
    verbs 1 and 2 used and difficulty 2.0, every draw returns verb 3, with
    no reset and an unchanged history. *)
Theorem selection_avoids_used_ids :
  (forall (vf af : file WordFile) (dv da : Draw) (disk disk' : Disk)
          (v a : Word) (vr ar : bool),
      select_daily_words vf af dv da disk = (inr (v, a, vr, ar), disk') ->
      (vr = false -> ~ In (id v) (used_verb_ids disk))
      /\ (ar = false -> ~ In (id a) (used_adjective_ids disk)))
  /\ (forall dv da : Draw,
         used_verb_ids (Doc dos_usados) = [1%Z; 2%Z]
         /\ difficulty_of (Doc dos_usados) = 2.0
         /\ select_daily_words tres_verbos un_adjetivo dv da (Doc dos_usados)
            = (inr (verbo 3 "vivir", alto, false, false), Doc dos_usados)).
Proof.
  split.
  - intros vf af dv da disk disk' v a vr ar H.
    destruct (select_daily_words_inr _ _ _ _ _ _ _ _ _ _ H)
      as (vs & ajs & _ & _ & _ & _ & Hv & Ha & _).
    split; intros ->.
    + apply get_unused_words_In in Hv. tauto.
    + apply get_unused_words_In in Ha. tauto.
  - intros dv da. split; [reflexivity|]. split; [reflexivity|].
    rewrite (select_daily_words_doc tres_verbos un_adjetivo dv da dos_usados
               _ _ eq_refl eq_refl).
    cbv zeta. cbn [dos_usados set_used_verbs empty_history used_verbs
                   used_adjectives current_difficulty_level get].
    change (get_unused_words
              [verbo 1 "hablar"; verbo 2 "comer"; verbo 3 "vivir"]
              [1%Z; 2%Z]) with [verbo 3 "vivir"].
    change (get_unused_words [alto] []) with [alto].
    cbn [is_empty]. rewrite !select_word_singleton. reflexivity.
Qed.

Lemma selection_avoids_used_ids_witness :
  select_daily_words tres_verbos un_adjetivo sorteo sorteo (Doc dos_usados)
  = (inr (verbo 3 "vivir", alto, false, false), Doc dos_usados)
  /\ ~ In (id (verbo 3 "vivir")) (used_verb_ids (Doc dos_usados))
  /\ ~ In (id alto) (used_adjective_ids (Doc dos_usados)).
Proof.
  assert (H : select_daily_words tres_verbos un_adjetivo sorteo sorteo
                (Doc dos_usados)
              = (inr (verbo 3 "vivir", alto, false, false), Doc dos_usados))
    by reflexivity.
  split; [exact H|].
  destruct (proj1 selection_avoids_used_ids _ _ _ _ _ _ _ _ _ _ H)
    as [Hv Ha].
  split; [exact (Hv eq_refl) | exact (Ha eq_refl)].
Defined.

(** ** The send cycle *)

Lemma get_difficulty_level_run (disk : Disk) :
  disk <> Corrupt ->
  get_difficulty_level disk = (inr (difficulty_of disk), disk).
Proof. destruct disk; [reflexivity | congruence | reflexivity]. Qed.

Lemma main_unfold
  (config_ok test dry_run : bool) (vf af : file WordFile) (dv da : Draw)
  (send : Main.Delivery) (clock : Clock) (disk : Disk) :
  Main.main config_ok test dry_run vf af dv da send clock disk =
  if config_ok then
    match select_daily_words vf af dv da disk with
    | (inl _, d1) => (1%Z, d1)
    | (inr (v, a, vr, ar), d1) =>
        match get_difficulty_level d1 with
        | (inl _, d2) => (1%Z, d2)
        | (inr level, d2) =>
            if dry_run then (0%Z, d2)
            else if send v a level (get_difficulty_name level)
                         (Main.reset_message vr ar) test
            then match update_history clock (id v) (id a) true level d2 with
                 | (inl _, d3) => (1%Z, d3)
                 | (inr _, d3) => (0%Z, d3)
                 end
            else (1%Z, d2)
        end
    end
  else (1%Z, disk).
Proof.
  unfold Main.main, Main.run, Settings.validate, bind.
  destruct config_ok; [|reflexivity]. cbn [ret raise].
  destruct (select_daily_words vf af dv da disk) as [[e|[[[v a] vr] ar]] d1];
    [reflexivity|].
  destruct (get_difficulty_level d1) as [[e|level] d2]; [reflexivity|].
  destruct dry_run; [reflexivity|].
  destruct (send v a level (get_difficulty_name level)
              (Main.reset_message vr ar) test); [|reflexivity].
  destruct (update_history clock (id v) (id a) true level d2) as [[e|[]] d3];
    reflexivity.
Qed.

Lemma select_daily_words_not_corrupt
  (vf af : file WordFile) (dv da : Draw) (disk disk' : Disk) (s : Selection) :
  select_daily_words vf af dv da disk = (inr s, disk') -> disk' <> Corrupt.
Proof.
  destruct s as [[[v a] vr] ar]. intros H.
  destruct (select_daily_words_inr _ _ _ _ _ _ _ _ _ _ H)
    as (vs & ajs & Hv & Ha & _ & _ & _ & _ & ->).
  destruct disk; try discriminate.
  rewrite (select_daily_words_corrupt vf af dv da vs ajs Hv Ha) in H.
  discriminate.
Qed.

(** C2, as stated, fails: with both verbs of the catalog used, the
    selection resets the used verbs in the history file before the
    delivery is attempted, and a failed delivery leaves the file reset. *)
Lemma reset_survives_delivery_failure :
  ~ (forall (vf af : file WordFile) (dv da : Draw) (send : Main.Delivery)
            (clock : Clock) (test : bool) (disk : Disk),
        (forall v a level name message t,
            send v a level name message t = false) ->
        snd (Main.main true test false vf af dv da send clock disk) = disk).
Proof.
  intros H.
  specialize (H dos_verbos un_adjetivo sorteo sorteo sin_entrega reloj false
                (Doc dos_usados) (fun _ _ _ _ _ _ => eq_refl)).
  vm_compute in H. discriminate H.
Qed.

(** C2, amended.  When the delivery collaborator reports failure for the
    selected items, the run exits with status 1 and [update_history] is
    not run: the history file is the one that the selection left.  It
    equals the file before the run when no reset occurred; when a catalog
    was exhausted, the used list of that catalog has been cleared by the
    reset and nothing else has changed.  In either case the selected items
    are not in the used lists of the file after the run. *)
Theorem delivery_failure_keeps_history
  (test : bool) (vf af : file WordFile) (dv da : Draw)
  (send : Main.Delivery) (clock : Clock) (disk disk' : Disk)
  (v a : Word) (vr ar : bool)
  (Hsel : select_daily_words vf af dv da disk = (inr (v, a, vr, ar), disk'))
  (Hfail : send v a (difficulty_of disk')
                (get_difficulty_name (difficulty_of disk'))
                (Main.reset_message vr ar) test = false) :
  Main.main true test false vf af dv da send clock disk = (1%Z, disk')
  /\ (vr = false -> ar = false -> disk' = disk)
  /\ (disk = Absent -> disk' = Absent)
  /\ (forall h, disk = Doc h ->
        exists h', disk' = Doc h'
          /\ used_verbs h' = (if vr then Some [] else used_verbs h)
          /\ used_adjectives h'
             = (if ar then Some [] else used_adjectives h)
          /\ sent_emails h' = sent_emails h
          /\ total_emails_sent h' = total_emails_sent h
          /\ current_difficulty_level h' = current_difficulty_level h
          /\ difficulty_adjustments h' = difficulty_adjustments h
          /\ last_feedback_check h' = last_feedback_check h)
  /\ ~ In (id v) (used_verb_ids disk')
  /\ ~ In (id a) (used_adjective_ids disk').
Proof.
  pose proof (select_daily_words_not_corrupt _ _ _ _ _ _ _ Hsel) as Hnc.
  destruct (select_daily_words_inr _ _ _ _ _ _ _ _ _ _ Hsel)
    as (vs & ajs & Hv & Ha & Hvr & Har & Hinv & Hina & Hd').
  split.
  { rewrite main_unfold, Hsel, (get_difficulty_level_run disk' Hnc), Hfail.
    reflexivity. }
  split.
  { intros -> ->. rewrite Hd'. destruct disk; reflexivity. }
  split.
  { intros ->. exact Hd'. }
  split.
  { intros h ->. exists (after_resets vr ar h). split; [exact Hd'|].
    unfold after_resets. destruct vr, ar; cbn; repeat split; reflexivity. }
  rewrite Hd'. clear Hd' Hsel Hfail Hnc.
  destruct disk as [| |h]; cbn [used_verb_ids used_adjective_ids] in *.
  - split; intros [].
  - split; intros [].
  - unfold after_resets.
    destruct vr, ar; cbn; split; try (intros []);
      try (apply get_unused_words_In in Hinv; tauto);
      try (apply get_unused_words_In in Hina; tauto).
Qed.

Lemma delivery_failure_keeps_history_witness :
  select_daily_words tres_verbos un_adjetivo sorteo sorteo (Doc dos_usados)
  = (inr (verbo 3 "vivir", alto, false, false), Doc dos_usados)
  /\ Main.main true false false tres_verbos un_adjetivo sorteo sorteo
       sin_entrega reloj (Doc dos_usados)
     = (1%Z, Doc dos_usados).
Proof.
  assert (H : select_daily_words tres_verbos un_adjetivo sorteo sorteo
                (Doc dos_usados)
              = (inr (verbo 3 "vivir", alto, false, false), Doc dos_usados))
    by reflexivity.
  split; [exact H|].
  exact (proj1 (delivery_failure_keeps_history false tres_verbos un_adjetivo
                  sorteo sorteo sin_entrega reloj _ _ _ _ _ _ H eq_refl)).
Defined.

(** C8. Selecting from an empty list of words raises the [ValueError] "No
    words available to select from", for every difficulty and every draw.
    When a catalog loads as an empty list, [select_daily_words] raises that
    error on every history document.  When there is no history file it
    raises [FileNotFoundError] instead: the empty catalog makes it call
    [reset_used_words], which reads the missing file without the
    [except FileNotFoundError] that the other readers of the history have,
    before the empty list is looked at.  On a file that is not JSON it
    raises [JSONDecodeError].  In every case [main] ends the run with
    status 1, whatever the delivery collaborator would answer. *)
Theorem empty_catalog_raises
  (vf af : file WordFile) (dv da : Draw) (vs ajs : list Word)
  (Hv : load_words vf = inr vs) (Ha : load_words af = inr ajs)
  (Hempty : vs = [] \/ ajs = []) :
  (forall (d r : Q) (k : nat),
      select_word_by_difficulty_distribution [] d r k = inl ValueError)
  /\ (forall h : History,
         fst (select_daily_words vf af dv da (Doc h)) = inl ValueError)
  /\ select_daily_words vf af dv da Absent = (inl FileNotFoundError, Absent)
  /\ select_daily_words vf af dv da Corrupt = (inl JSONDecodeError, Corrupt)
  /\ (forall (config_ok test dry_run : bool) (send : Main.Delivery)
             (clock : Clock) (disk : Disk),
         fst (Main.main config_ok test dry_run vf af dv da send clock disk)
         = 1%Z).
Proof.
  assert (Hdoc : forall h : History,
             fst (select_daily_words vf af dv da (Doc h)) = inl ValueError).
  { intros h.
    rewrite (select_daily_words_doc vf af dv da h vs ajs Hv Ha). cbv zeta.
    destruct Hempty as [-> | ->].
    - reflexivity.
    - destruct vs as [|w0 vs']; [reflexivity|].
      set (unused := get_unused_words (w0 :: vs') (get (used_verbs h) [])).
      assert (Hpool : (if is_empty unused then w0 :: vs' else unused) <> []).
      { destruct (is_empty unused) eqn:E;
          [discriminate | apply is_empty_false; exact E]. }
      destruct (select_word_total _
                  (get (current_difficulty_level h) 2.0)
                  (rand dv) (pick dv) Hpool) as (w & -> & _).
      reflexivity. }
  assert (Habsent : select_daily_words vf af dv da Absent
                    = (inl FileNotFoundError, Absent)).
  { rewrite (select_daily_words_absent vf af dv da vs ajs Hv Ha).
    destruct Hempty as [-> | ->].
    - reflexivity.
    - destruct (is_empty (get_unused_words vs [])); reflexivity. }
  pose proof (select_daily_words_corrupt vf af dv da vs ajs Hv Ha)
    as Hcorrupt.
  split; [reflexivity|]. split; [exact Hdoc|]. split; [exact Habsent|].
  split; [exact Hcorrupt|].
  intros config_ok test dry_run send clock disk.
  rewrite main_unfold. destruct config_ok; [|reflexivity].
  destruct disk as [| |h].
  - rewrite Habsent. reflexivity.
  - rewrite Hcorrupt. reflexivity.
  - specialize (Hdoc h).
    destruct (select_daily_words vf af dv da (Doc h)) as [[e'|s] d1];
      [reflexivity | discriminate Hdoc].
Qed.

Lemma empty_catalog_raises_witness :
  load_words sin_verbos = inr [] /\ load_words un_adjetivo = inr [alto]
  /\ fst (select_daily_words sin_verbos un_adjetivo sorteo sorteo
            (Doc dos_usados)) = inl ValueError
  /\ select_daily_words sin_verbos un_adjetivo sorteo sorteo Absent
     = (inl FileNotFoundError, Absent)
  /\ fst (Main.main true false false sin_verbos un_adjetivo sorteo sorteo
            sin_entrega reloj Absent) = 1%Z.
Proof.
  split; [reflexivity|]. split; [reflexivity|].
  destruct (empty_catalog_raises sin_verbos un_adjetivo sorteo sorteo
              [] [alto] eq_refl eq_refl (or_introl eq_refl))
    as (_ & Hdoc & Habsent & _ & Hmain).
  split; [apply Hdoc|]. split; [exact Habsent | apply Hmain].
Defined.

(** ** Errors *)

Lemma update_difficulty_preference_error
  (clock : Clock) (feedback : string) (a : Q) (disk : Disk) (e : exn) :
  fst (update_difficulty_preference clock feedback a disk) = inl e ->
  update_difficulty_preference clock feedback a disk = (inl e, disk).
Proof.
  unfold update_difficulty_preference, bind, read_json.
  destruct disk as [| |h]; cbn [read_file fst].
  - intros [= <-]. reflexivity.
  - intros [= <-]. reflexivity.
  - destruct (difficulty_adjustments h); cbn.
    + discriminate.
    + intros [= <-]. reflexivity.
Qed.

Lemma check_for_feedback_total (clock : Clock) (inbox : Inbox) (disk : Disk) :
  exists fb disk', check_for_feedback clock inbox disk = (inr fb, disk').
Proof.
  unfold check_for_feedback, try_except.
  match goal with
  | |- context [match ?c disk with _ => _ end] =>
      destruct (c disk) as [[e|fb] d']
  end; unfold ret; cbn beta iota; eauto.
Qed.

Lemma get_unused_words_nil (words : list Word) :
  get_unused_words words [] = words.
Proof.
  unfold get_unused_words. induction words as [|w ws IH];
    [reflexivity | simpl; f_equal; exact IH].
Qed.

(** C4, as stated, fails: with a corrupt history file, a reply that says
    "too hard" makes [update_difficulty_preference] raise
    [JSONDecodeError]; [check_for_feedback] turns it into the not-found
    result and [check_feedback.py] exits with status 0. *)
Lemma corrupt_history_reported_as_not_found :
  ~ (forall (clock : Clock) (subject body : text) (disk : Disk)
            (feedback : string) (adjustment : Q) (e : exn),
        str_in (str "re:") (lower subject) = true ->
        parse_feedback_from_text body = Some feedback ->
        lookup feedback FEEDBACK_KEYWORDS = inr adjustment ->
        fst (update_difficulty_preference clock feedback adjustment disk)
        = inl e ->
        fst (check_for_feedback clock (Latest subject body) disk)
        <> inr not_found
        /\ fst (CheckFeedback.main true clock (Latest subject body) disk)
           <> 0%Z).
Proof.
  intros H.
  destruct (H reloj (str "Re: Daily Spanish Words")
              (str "This was too hard for me") Corrupt "hard"%string (-0.5)
              JSONDecodeError eq_refl eq_refl eq_refl eq_refl) as [Hfb _].
  apply Hfb. reflexivity.
Qed.

(** With two catalogs that are not empty, a selection on a history
    document returns items. *)
Lemma select_daily_words_doc_total
  (vf af : file WordFile) (dv da : Draw) (h : History)
  (vs ajs : list Word) :
  load_words vf = inr vs -> load_words af = inr ajs ->
  vs <> [] -> ajs <> [] ->
  exists s, fst (select_daily_words vf af dv da (Doc h)) = inr s.
Proof.
  intros Hv Ha Hvs Hajs.
  rewrite (select_daily_words_doc vf af dv da h vs ajs Hv Ha). cbv zeta.
  assert (Hpool : forall (all_words : list Word) (used : list Z),
             all_words <> [] ->
             (if is_empty (get_unused_words all_words used)
              then all_words else get_unused_words all_words used) <> []).
  { intros all_words used Hne.
    destruct (is_empty (get_unused_words all_words used)) eqn:E;
      [exact Hne | apply is_empty_false; exact E]. }
  destruct (select_word_total _ (get (current_difficulty_level h) 2.0)
              (rand dv) (pick dv) (Hpool vs (get (used_verbs h) []) Hvs))
    as (v & -> & _).
  destruct (select_word_total _ (get (current_difficulty_level h) 2.0)
              (rand da) (pick da)
              (Hpool ajs (get (used_adjectives h) []) Hajs))
    as (a & -> & _).
  eexists. reflexivity.
Qed.

(** With an empty catalog, a selection on a history document raises
    [ValueError]. *)
Lemma select_daily_words_doc_empty
  (vf af : file WordFile) (dv da : Draw) (h : History)
  (vs ajs : list Word) :
  load_words vf = inr vs -> load_words af = inr ajs ->
  vs = [] \/ ajs = [] ->
  fst (select_daily_words vf af dv da (Doc h)) = inl ValueError.
Proof.
  intros Hv Ha Hempty.
  rewrite (select_daily_words_doc vf af dv da h vs ajs Hv Ha). cbv zeta.
  destruct Hempty as [-> | ->]; [reflexivity|].
  destruct vs as [|w0 vs']; [reflexivity|].
  set (unused := get_unused_words (w0 :: vs') (get (used_verbs h) [])).
  assert (Hpool : (if is_empty unused then w0 :: vs' else unused) <> []).
  { destruct (is_empty unused) eqn:E;
      [discriminate | apply is_empty_false; exact E]. }
  destruct (select_word_total _ (get (current_difficulty_level h) 2.0)
              (rand dv) (pick dv) Hpool) as (w & -> & _).
  reflexivity.
Qed.

(** The errors that [select_daily_words] raises are exactly the errors of
    its steps: a catalog that does not load, a history file that is not
    JSON, the reset that does not find the history file, a catalog without
    items. *)
Lemma select_daily_words_raises
  (vf af : file WordFile) (dv da : Draw) (disk : Disk) (e : exn) :
  fst (select_daily_words vf af dv da disk) = inl e <->
  load_words vf = inl e
  \/ ((exists vs, load_words vf = inr vs) /\ load_words af = inl e)
  \/ (exists vs ajs,
        load_words vf = inr vs /\ load_words af = inr ajs
        /\ ((disk = Corrupt /\ e = JSONDecodeError)
            \/ (disk = Absent /\ (vs = [] \/ ajs = [])
                /\ e = FileNotFoundError)
            \/ ((exists h, disk = Doc h) /\ (vs = [] \/ ajs = [])
                /\ e = ValueError))).
Proof.
  destruct (load_words vf) as [ev|vs] eqn:Hv.
  { assert (E : select_daily_words vf af dv da disk = (inl ev, disk)).
    { unfold select_daily_words, bind, lift. rewrite Hv. reflexivity. }
    rewrite E. cbn [fst]. split.
    - intros [= <-]. left. reflexivity.
    - intros [H | [[[vs H] _] | (vs & ajs & H & _)]];
        [injection H as <-; reflexivity | discriminate H | discriminate H]. }
  destruct (load_words af) as [ea|ajs] eqn:Ha.
  { assert (E : select_daily_words vf af dv da disk = (inl ea, disk)).
    { unfold select_daily_words, bind, lift. rewrite Hv, Ha. reflexivity. }
    rewrite E. cbn [fst]. split.
    - intros [= <-]. right. left. split; [eauto | reflexivity].
    - intros [H | [[_ H] | (vs' & ajs' & _ & H & _)]];
        [discriminate H | injection H as <-; reflexivity | discriminate H]. }
  split.
  - intros H. right. right. exists vs, ajs.
    split; [reflexivity|]. split; [reflexivity|].
    destruct disk as [| |h].
    + right. left. split; [reflexivity|].
      rewrite (select_daily_words_absent vf af dv da vs ajs Hv Ha) in H.
      rewrite !get_unused_words_nil in H.
      destruct vs as [|v0 vs']; [cbn in H; injection H as <-; auto|].
      destruct ajs as [|a0 ajs']; [cbn in H; injection H as <-; auto|].
      cbn [is_empty] in H.
      destruct (select_word_total (v0 :: vs') 2.0 (rand dv) (pick dv))
        as (v & Ev & _); [discriminate|].
      destruct (select_word_total (a0 :: ajs') 2.0 (rand da) (pick da))
        as (a & Ea & _); [discriminate|].
      rewrite Ev, Ea in H. discriminate H.
    + left. split; [reflexivity|].
      rewrite (select_daily_words_corrupt vf af dv da vs ajs Hv Ha) in H.
      now injection H.
    + right. right. split; [eauto|].
      destruct vs as [|v0 vs'].
      { split; [auto|].
        rewrite (select_daily_words_doc_empty vf af dv da h [] ajs Hv Ha)
          in H by auto.
        now injection H. }
      destruct ajs as [|a0 ajs'].
      { split; [auto|].
        rewrite (select_daily_words_doc_empty vf af dv da h _ [] Hv Ha)
          in H by auto.
        now injection H. }
      destruct (select_daily_words_doc_total vf af dv da h _ _ Hv Ha)
        as [s Hs]; try discriminate.
      rewrite Hs in H. discriminate H.
  - intros [H | [[_ H] | (vs' & ajs' & Hv' & Ha' & H)]];
      [discriminate H | discriminate H |].
    injection Hv' as <-. injection Ha' as <-.
    destruct H as [[-> ->] | [(-> & Hempty & ->) | ([h ->] & Hempty & ->)]].
    + rewrite (select_daily_words_corrupt vf af dv da vs ajs Hv Ha).
      reflexivity.
    + rewrite (select_daily_words_absent vf af dv da vs ajs Hv Ha).
      destruct Hempty as [-> | ->]; [reflexivity|].
      destruct (is_empty (get_unused_words vs [])); reflexivity.
    + apply (select_daily_words_doc_empty vf af dv da h vs ajs Hv Ha Hempty).
Qed.

(** C4, amended.  In the send cycle every error raised inside the core is
    surfaced: [select_daily_words] raises exactly the errors of its steps
    (a catalog that does not load, a history file that is not JSON, the
    reset that does not find the history file, a catalog without items),
    and [main] turns each of them, an invalid configuration, a failed
    delivery and any error of [update_history] into the exit status 1;
    its status is 0 or 1, and it is 0 only when the configuration is
    valid, the selection succeeded and either the run is a dry run or
    the delivery and [update_history] both succeeded.
    What is substituted silently there are the defaults: for a missing
    history file (no used IDs and level 2.0 in the selection, level 2.0 in
    [get_difficulty_level], the empty history in [update_history]) and
    for a key that the document lacks where it is read with [.get].  In
    the feedback-check cycle [check_for_feedback] never raises: an IMAP
    error, any other exception of the mail collaborator and any exception
    of [update_difficulty_preference] (a corrupt or missing history file,
    a missing key) are reported as the not-found result, with the history
    file untouched, and [check_feedback.py] exits with status 0. *)
Theorem errors_of_each_cycle :
  (forall (vf af : file WordFile) (dv da : Draw) (disk : Disk) (e : exn),
      fst (select_daily_words vf af dv da disk) = inl e <->
      load_words vf = inl e
      \/ ((exists vs, load_words vf = inr vs) /\ load_words af = inl e)
      \/ (exists vs ajs,
            load_words vf = inr vs /\ load_words af = inr ajs
            /\ ((disk = Corrupt /\ e = JSONDecodeError)
                \/ (disk = Absent /\ (vs = [] \/ ajs = [])
                    /\ e = FileNotFoundError)
                \/ ((exists h, disk = Doc h) /\ (vs = [] \/ ajs = [])
                    /\ e = ValueError))))
  /\ (forall (config_ok test dry_run : bool) (vf af : file WordFile)
             (dv da : Draw) (send : Main.Delivery) (clock : Clock)
             (disk : Disk),
         let out :=
           Main.main config_ok test dry_run vf af dv da send clock disk in
         (fst out = 0%Z \/ fst out = 1%Z)
         /\ (config_ok = false -> out = (1%Z, disk))
         /\ (forall e,
                config_ok = true ->
                fst (select_daily_words vf af dv da disk) = inl e ->
                out = (1%Z, snd (select_daily_words vf af dv da disk)))
         /\ (forall v a vr ar d1 e,
                config_ok = true -> dry_run = false ->
                select_daily_words vf af dv da disk
                = (inr (v, a, vr, ar), d1) ->
                fst (update_history clock (id v) (id a) true
                       (difficulty_of d1) d1) = inl e ->
                fst out = 1%Z)
         /\ (forall v a vr ar d1,
                config_ok = true -> dry_run = false ->
                select_daily_words vf af dv da disk
                = (inr (v, a, vr, ar), d1) ->
                send v a (difficulty_of d1)
                     (get_difficulty_name (difficulty_of d1))
                     (Main.reset_message vr ar) test = false ->
                out = (1%Z, d1))
         /\ (fst out = 0%Z ->
             config_ok = true
             /\ exists v a vr ar d1,
                  select_daily_words vf af dv da disk
                  = (inr (v, a, vr, ar), d1)
                  /\ (dry_run = true
                      \/ (send v a (difficulty_of d1)
                               (get_difficulty_name (difficulty_of d1))
                               (Main.reset_message vr ar) test = true
                          /\ fst (update_history clock (id v) (id a) true
                                    (difficulty_of d1) d1) = inr tt))))
  /\ (forall (vf af : file WordFile) (dv da : Draw) (h : History),
         fst (select_daily_words vf af dv da (Doc h))
         = fst (select_daily_words vf af dv da (Doc (Cases.with_defaults h))))
  /\ (forall (vf af : file WordFile) (dv da : Draw) (vs ajs : list Word),
         load_words vf = inr vs -> load_words af = inr ajs ->
         vs <> [] -> ajs <> [] ->
         exists s,
           select_daily_words vf af dv da Absent = (inr s, Absent)
           /\ select_daily_words vf af dv da (Doc empty_history)
              = (inr s, Doc empty_history))
  /\ (get_difficulty_level Absent = (inr 2.0, Absent)
      /\ forall h : History,
           get_difficulty_level (Doc h)
           = (inr (get (current_difficulty_level h) 2.0), Doc h))
  /\ (forall (clock : Clock) (v a : Z) (success : bool) (level : Q),
         update_history clock v a success level Absent
         = update_history clock v a success level (Doc empty_history))
  /\ (forall (clock : Clock) (inbox : Inbox) (disk : Disk),
         exists fb disk',
           check_for_feedback clock inbox disk = (inr fb, disk')
           /\ CheckFeedback.main true clock inbox disk = (0%Z, disk'))
  /\ (forall (clock : Clock) (disk : Disk),
         check_for_feedback clock ImapError disk = (inr not_found, disk)
         /\ check_for_feedback clock ConnectionError disk
            = (inr not_found, disk))
  /\ (forall (clock : Clock) (subject body : text) (disk : Disk)
             (feedback : string) (adjustment : Q) (e : exn),
         parse_feedback_from_text body = Some feedback ->
         lookup feedback FEEDBACK_KEYWORDS = inr adjustment ->
         fst (update_difficulty_preference clock feedback adjustment disk)
         = inl e ->
         check_for_feedback clock (Latest subject body) disk
         = (inr not_found, disk)).
Proof.
  split; [exact select_daily_words_raises|].
  split.
  { intros config_ok test dry_run vf af dv da send clock disk. cbv zeta.
    rewrite main_unfold.
    destruct config_ok.
    2:{ cbn [fst snd]. split; [auto|]. split; [auto|].
        repeat (split; [discriminate|]). discriminate. }
    destruct (select_daily_words vf af dv da disk)
      as [[e0|[[[v a] vr] ar]] d1] eqn:Hsel.
    { cbn [fst snd]. split; [auto|]. split; [discriminate|].
      split; [auto|]. repeat (split; [discriminate|]). discriminate. }
    pose proof (select_daily_words_not_corrupt _ _ _ _ _ _ _ Hsel) as Hnc.
    rewrite (get_difficulty_level_run d1 Hnc).
    destruct dry_run.
    { cbn [fst snd]. split; [auto|].
      repeat (split; [discriminate|]).
      intros _. split; [reflexivity|].
      exists v, a, vr, ar, d1. split; [reflexivity | left; reflexivity]. }
    destruct (send v a (difficulty_of d1) _ _ test) eqn:Hsend.
    2:{ cbn [fst snd]. split; [auto|].
        repeat (split; [discriminate|]).
        split; [|split; [|discriminate]].
        - intros v' a' vr' ar' d1' e _ _ _ _. reflexivity.
        - intros v' a' vr' ar' d1' _ _ [= <- <- <- <- <-] _. reflexivity. }
    destruct (update_history clock (id v) (id a) true (difficulty_of d1) d1)
      as [[eu|u] d3] eqn:Hupd; cbn [fst snd].
    - split; [auto|]. repeat (split; [discriminate|]).
      split; [auto|]. split; [|discriminate].
      intros v' a' vr' ar' d1' _ _ [= <- <- <- <- <-] Hs.
      rewrite Hsend in Hs. discriminate Hs.
    - split; [auto|]. split; [discriminate|]. split; [discriminate|].
      split.
      { intros v' a' vr' ar' d1' e _ _ [= <- <- <- <- <-] He.
        rewrite Hupd in He. discriminate He. }
      split.
      { intros v' a' vr' ar' d1' _ _ [= <- <- <- <- <-] Hs.
        rewrite Hsend in Hs. discriminate Hs. }
      intros _. split; [reflexivity|].
      exists v, a, vr, ar, d1. split; [reflexivity|]. right.
      split; [exact Hsend|]. rewrite Hupd. destruct u. reflexivity. }
  split.
  { intros vf af dv da h.
    destruct (load_words vf) as [ev|vs] eqn:Hv.
    { unfold select_daily_words, bind, lift. rewrite Hv. reflexivity. }
    destruct (load_words af) as [ea|ajs] eqn:Ha.
    { unfold select_daily_words, bind, lift. rewrite Hv, Ha. reflexivity. }
    rewrite (select_daily_words_doc vf af dv da h vs ajs Hv Ha).
    rewrite (select_daily_words_doc vf af dv da (Cases.with_defaults h)
               vs ajs Hv Ha).
    cbv zeta. unfold Cases.with_defaults.
    cbn [current_difficulty_level used_verbs used_adjectives
         set_current_difficulty_level set_used_adjectives set_used_verbs get].
    repeat match goal with
    | |- context [match ?x with inl _ => _ | inr _ => _ end] => destruct x
    end; reflexivity. }
  split.
  { intros vf af dv da vs ajs Hv Ha Hvs Hajs.
    rewrite (select_daily_words_absent vf af dv da vs ajs Hv Ha).
    rewrite (select_daily_words_doc vf af dv da empty_history vs ajs Hv Ha).
    cbv zeta. cbn [empty_history used_verbs used_adjectives
                   current_difficulty_level get].
    rewrite !get_unused_words_nil.
    apply is_empty_false in Hvs as Ev. apply is_empty_false in Hajs as Ea.
    rewrite Ev, Ea. unfold after_resets.
    destruct (select_word_total vs 2.0 (rand dv) (pick dv) Hvs)
      as (v & -> & _).
    destruct (select_word_total ajs 2.0 (rand da) (pick da) Hajs)
      as (a & -> & _).
    eexists. split; reflexivity. }
  split; [split; [reflexivity | intros h; reflexivity]|].
  split.
  { intros clock v a success level. destruct success; reflexivity. }
  split.
  { intros clock inbox disk.
    destruct (check_for_feedback_total clock inbox disk)
      as (fb & disk' & Hfb).
    exists fb, disk'. split; [exact Hfb|].
    unfold CheckFeedback.main, Settings.validate, bind. cbn [ret].
    rewrite Hfb. destruct fb as [[[] kw] lvl]; reflexivity. }
  split.
  { intros clock disk. split; reflexivity. }
  intros clock subject body disk feedback adjustment e Hparse Hlook Herr.
  apply update_difficulty_preference_error in Herr.
  unfold check_for_feedback, try_except.
  destruct (negb (str_in (str "daily spanish") (lower subject))
            && negb (str_in (str "re:") (lower subject)));
    [reflexivity|].
  rewrite Hparse. unfold bind, lift. rewrite Hlook, Herr. reflexivity.
Qed.

Lemma errors_of_each_cycle_witness :
  load_words Cases.sin_listas = inl ValueError
  /\ fst (select_daily_words Cases.sin_listas un_adjetivo sorteo sorteo
            (Doc dos_usados)) = inl ValueError
  /\ parse_feedback_from_text (str "This was too hard for me")
     = Some "hard"%string
  /\ lookup "hard" FEEDBACK_KEYWORDS = inr (-0.5)
  /\ fst (update_difficulty_preference reloj "hard" (-0.5) Corrupt)
     = inl JSONDecodeError
  /\ check_for_feedback reloj respuesta Corrupt = (inr not_found, Corrupt).
Proof.
  destruct errors_of_each_cycle
    as (Hraises & _ & _ & _ & _ & _ & _ & _ & Hcatch).
  assert (Hload : load_words Cases.sin_listas = inl ValueError)
    by reflexivity.
  split; [exact Hload|].
  split.
  { apply Hraises. left. exact Hload. }
  split; [reflexivity|]. split; [reflexivity|]. split; [reflexivity|].
  exact (Hcatch reloj (str "Re: Daily Spanish Words")
           (str "This was too hard for me") Corrupt "hard"%string (-0.5)
           JSONDecodeError eq_refl eq_refl eq_refl).
Defined.

(** ** Feedback keywords *)

Lemma find_first {A : Type} (p : A -> bool) (l : list A) (x : A) :
  find p l = Some x <->
  exists before after,
    l = before ++ x :: after
    /\ p x = true
    /\ Forall (fun y => p y = false) before.
Proof.
  induction l as [|y l IH]; cbn [find].
  - split; [discriminate|].
    intros (before & after & E & _). destruct before; discriminate E.
  - destruct (p y) eqn:Ey.
    + split.
      * intros [= <-]. exists [], l. repeat split; [exact Ey | constructor].
      * intros (before & after & E & Hx & Hb).
        destruct before as [|b before'].
        -- injection E as ->. reflexivity.
        -- injection E as <- _. inversion Hb; congruence.
    + rewrite IH. split.
      * intros (before & after & -> & Hx & Hb).
        exists (y :: before), after.
        repeat split; [exact Hx | constructor; assumption].
      * intros (before & after & E & Hx & Hb).
        destruct before as [|b before'].
        -- injection E as <- _. congruence.
        -- injection E as <- ->. inversion Hb; subst.
           exists before', after. auto.
Qed.

Lemma find_nothing {A : Type} (p : A -> bool) (l : list A) :
  find p l = None <-> Forall (fun y => p y = false) l.
Proof.
  induction l as [|y l IH]; cbn [find].
  - split; [constructor | reflexivity].
  - destruct (p y) eqn:Ey.
    + split; [discriminate | intros H; inversion H; congruence].
    + rewrite IH. split; [now constructor | intros H; now inversion H].
Qed.

Lemma last_with_cons (prev : option ascii) (c : ascii) (pre : text) :
  last_with prev (c :: pre) = last_with (Some c) pre.
Proof.
  unfold last_with. destruct pre as [|c' pre']; [reflexivity|].
  change (last_error (c :: c' :: pre')) with (last_error (c' :: pre')).
  destruct (last_error (c' :: pre')) eqn:E; [reflexivity|].
  exfalso. clear -E. revert c' E.
  induction pre' as [|c'' pre'' IH]; intros c' E; [discriminate|].
  apply (IH c''). exact E.
Qed.

Lemma match_literal_sound (lit txt rest : text) (prev last : option ascii) :
  match_literal lit txt prev = Some (last, rest) ->
  txt = lit ++ rest /\ last = last_with prev lit.
Proof.
  revert txt prev. induction lit as [|c lit IH]; intros txt prev; cbn.
  - intros [= <- <-]. split; reflexivity.
  - destruct txt as [|t txt]; [discriminate|].
    destruct (Ascii.eqb_spec c t) as [<-|]; [|discriminate].
    intros H. apply IH in H as [-> ->].
    split; [reflexivity | symmetry; apply last_with_cons].
Qed.

Lemma match_literal_complete (lit rest : text) (prev : option ascii) :
  match_literal lit (lit ++ rest) prev = Some (last_with prev lit, rest).
Proof.
  revert prev. induction lit as [|c lit IH]; intros prev; cbn.
  - reflexivity.
  - rewrite Ascii.eqb_refl, IH.
    change (c :: lit) with ([c] ++ lit)%list.
    f_equal. f_equal. symmetry. apply (last_with_cons prev c lit).
Qed.

Lemma word_delimited_ends (kw : text) :
  word_delimited kw = true ->
  (forall post, is_word (hd_error (kw ++ post)) = true)
  /\ (forall prev, is_word (last_with prev kw) = true).
Proof.
  unfold word_delimited. rewrite andb_true_iff. intros [Hh Hl]. split.
  - intros post. destruct kw; [discriminate Hh | exact Hh].
  - intros prev. unfold last_with.
    destruct (last_error kw); [exact Hl | discriminate Hl].
Qed.

(** The pattern matches at a position exactly when the keyword stands
    there between two characters that are not word characters. *)
Lemma match_here_spec (kw txt : text) (prev : option ascii) :
  word_delimited kw = true ->
  match_here kw txt prev = true <->
  exists post,
    txt = kw ++ post
    /\ is_word prev = false
    /\ is_word (hd_error post) = false.
Proof.
  intros Hkw. destruct (word_delimited_ends kw Hkw) as [Hhd Hlast].
  unfold match_here, word_boundary. split.
  - rewrite andb_true_iff. intros [Hb Hm].
    destruct (match_literal kw txt prev) as [[last rest]|] eqn:E;
      [|discriminate].
    apply match_literal_sound in E as [-> ->].
    rewrite Hhd in Hb. rewrite Hlast in Hm.
    exists rest. split; [reflexivity|].
    destruct (is_word prev), (is_word (hd_error rest));
      cbn in *; auto; discriminate.
  - intros (post & -> & Hp & Hn).
    rewrite match_literal_complete, Hhd, Hlast, Hp, Hn. reflexivity.
Qed.

Lemma search_spec (kw txt : text) (prev : option ascii) :
  word_delimited kw = true ->
  search kw txt prev = true <->
  exists pre post,
    txt = pre ++ kw ++ post
    /\ is_word (last_with prev pre) = false
    /\ is_word (hd_error post) = false.
Proof.
  intros Hkw. revert prev.
  induction txt as [|c txt IH]; intros prev; cbn [search];
    rewrite orb_true_iff, (match_here_spec kw _ prev Hkw).
  - split.
    + intros [(post & E & Hp & Hn) | H]; [|discriminate].
      exists [], post. auto.
    + intros (pre & post & E & Hp & Hn).
      destruct pre; [|discriminate E].
      left. exists post. auto.
  - rewrite IH. split.
    + intros [(post & E & Hp & Hn) | (pre & post & -> & Hp & Hn)].
      * exists [], post. auto.
      * exists (c :: pre), post.
        split; [reflexivity|]. rewrite last_with_cons. auto.
    + intros (pre & post & E & Hp & Hn).
      destruct pre as [|c' pre'].
      * left. exists post. auto.
      * injection E as <- ->. right. exists pre', post.
        rewrite last_with_cons in Hp. auto.
Qed.

Lemma keywords_word_delimited (k : string) :
  In k (keys FEEDBACK_KEYWORDS) -> word_delimited (str k) = true.
Proof.
  cbn. intros H.
  repeat (destruct H as [<- | H]; [reflexivity|]). destruct H.
Qed.

Lemma re_search_word_spec (k : string) (txt : text) :
  In k (keys FEEDBACK_KEYWORDS) ->
  re_search_word k txt = true <-> whole_word_occurrence (str k) txt.
Proof.
  intros Hk. unfold re_search_word, whole_word_occurrence.
  rewrite (search_spec _ _ _ (keywords_word_delimited k Hk)).
  assert (Hlast : forall pre, last_with None pre = last_error pre).
  { intros pre. unfold last_with. now destruct (last_error pre). }
  split; intros (pre & post & E & Hp & Hn); exists pre, post;
    [rewrite <- Hlast | rewrite Hlast]; auto.
Qed.

Lemma re_search_word_false (k : string) (txt : text) :
  In k (keys FEEDBACK_KEYWORDS) ->
  re_search_word k txt = false <-> ~ whole_word_occurrence (str k) txt.
Proof.
  intros Hk. rewrite <- (re_search_word_spec k txt Hk).
  destruct (re_search_word k txt); intuition congruence.
Qed.

Lemma Forall_no_match (txt : text) (l : list string) :
  incl l (keys FEEDBACK_KEYWORDS) ->
  Forall (fun k => re_search_word k txt = false) l <->
  Forall (fun k => ~ whole_word_occurrence (str k) txt) l.
Proof.
  intros Hincl. rewrite !Forall_forall.
  split; intros H k Hk; apply (re_search_word_false k txt (Hincl k Hk));
    apply H; exact Hk.
Qed.

(** ** Whole-word matching on Unicode text *)

Lemma find_ext {A : Type} (p q : A -> bool) (l : list A) :
  (forall x, p x = q x) -> find p l = find q l.
Proof.
  intros H. induction l as [|x l IH]; cbn [find]; [reflexivity|].
  rewrite H, IH. reflexivity.
Qed.

Lemma unicode_last_with_cons (prev : option N) (c : N)
  (pre : Unicode.utext) :
  Unicode.last_with prev (c :: pre) = Unicode.last_with (Some c) pre.
Proof.
  unfold Unicode.last_with. destruct pre as [|c' pre']; [reflexivity|].
  change (Unicode.last_error (c :: c' :: pre'))
    with (Unicode.last_error (c' :: pre')).
  destruct (Unicode.last_error (c' :: pre')) eqn:E; [reflexivity|].
  exfalso. clear -E. revert c' E.
  induction pre' as [|c'' pre'' IH]; intros c' E; [discriminate|].
  apply (IH c''). exact E.
Qed.

Lemma unicode_match_literal_sound (lit txt rest : Unicode.utext)
  (prev last : option N) :
  Unicode.match_literal lit txt prev = Some (last, rest) ->
  txt = lit ++ rest /\ last = Unicode.last_with prev lit.
Proof.
  revert txt prev. induction lit as [|c lit IH]; intros txt prev; cbn.
  - intros [= <- <-]. split; reflexivity.
  - destruct txt as [|t txt]; [discriminate|].
    destruct (N.eqb_spec c t) as [<-|]; [|discriminate].
    intros H. apply IH in H as [-> ->].
    split; [reflexivity | symmetry; apply unicode_last_with_cons].
Qed.

Lemma unicode_match_literal_complete (lit rest : Unicode.utext)
  (prev : option N) :
  Unicode.match_literal lit (lit ++ rest) prev
  = Some (Unicode.last_with prev lit, rest).
Proof.
  revert prev. induction lit as [|c lit IH]; intros prev; cbn.
  - reflexivity.
  - rewrite N.eqb_refl, IH.
    f_equal. f_equal. symmetry. apply (unicode_last_with_cons prev c lit).
Qed.

Lemma N_of_ascii_eqb (a b : ascii) :
  N.eqb (N_of_ascii a) (N_of_ascii b) = Ascii.eqb a b.
Proof.
  destruct (Ascii.eqb_spec a b) as [->|Hne].
  - apply N.eqb_refl.
  - apply N.eqb_neq. intros H. apply Hne.
    rewrite <- (ascii_N_embedding a), H. apply ascii_N_embedding.
Qed.

Lemma unicode_hd_error_of_ascii (t : text) :
  hd_error (Unicode.of_ascii t) = option_map N_of_ascii (hd_error t).
Proof. destruct t; reflexivity. Qed.

Lemma unicode_last_error_of_ascii (t : text) :
  Unicode.last_error (Unicode.of_ascii t)
  = option_map N_of_ascii (last_error t).
Proof.
  induction t as [|c t IH]; [reflexivity|].
  destruct t as [|c' t']; [reflexivity|].
  change (Unicode.last_error (Unicode.of_ascii (c :: c' :: t')))
    with (Unicode.last_error (Unicode.of_ascii (c' :: t'))).
  rewrite IH. reflexivity.
Qed.

(** The literal is matched on the code points of an ASCII text as on the
    text. *)
Lemma unicode_match_literal_of_ascii (lit txt : text)
  (prev : option ascii) :
  Unicode.match_literal (Unicode.of_ascii lit) (Unicode.of_ascii txt)
                        (option_map N_of_ascii prev)
  = option_map (fun r => (option_map N_of_ascii (fst r),
                          Unicode.of_ascii (snd r)))
               (match_literal lit txt prev).
Proof.
  revert txt prev. induction lit as [|c lit IH]; intros txt prev.
  - reflexivity.
  - destruct txt as [|t txt]; [reflexivity|].
    cbn [Unicode.of_ascii map Unicode.match_literal match_literal].
    rewrite N_of_ascii_eqb.
    destruct (Ascii.eqb c t); [|reflexivity].
    exact (IH txt (Some t)).
Qed.

Lemma is_ascii_opt_hd (t : text) :
  forallb Unicode.is_ascii t = true ->
  Unicode.is_ascii_opt (hd_error t) = true.
Proof.
  destruct t as [|c t]; cbn; [reflexivity|].
  rewrite andb_true_iff. intros [H _]. exact H.
Qed.

Lemma is_ascii_opt_last_with (prev : option ascii) (t : text) :
  Unicode.is_ascii_opt prev = true ->
  forallb Unicode.is_ascii t = true ->
  Unicode.is_ascii_opt (last_with prev t) = true.
Proof.
  revert prev. induction t as [|c t IH]; intros prev Hp Ht.
  - exact Hp.
  - rewrite last_with_cons. cbn [forallb] in Ht.
    apply andb_true_iff in Ht as [Hc Ht]. apply IH; assumption.
Qed.

Lemma lower_char_is_ascii (c : ascii) :
  Unicode.is_ascii c = true -> Unicode.is_ascii (lower_char c) = true.
Proof.
  destruct c as [b0 b1 b2 b3 b4 b5 b6 b7].
  destruct b0, b1, b2, b3, b4, b5, b6, b7; intros H;
    first [reflexivity | vm_compute in H; discriminate H].
Qed.

Lemma lower_is_ascii (t : text) :
  forallb Unicode.is_ascii t = true ->
  forallb Unicode.is_ascii (lower t) = true.
Proof.
  induction t as [|c t IH]; cbn [lower map forallb]; [reflexivity|].
  rewrite !andb_true_iff. intros [Hc Ht].
  split; [apply lower_char_is_ascii; exact Hc | apply IH; exact Ht].
Qed.

Lemma keywords_are_ascii (k : string) :
  In k (keys FEEDBACK_KEYWORDS) -> forallb Unicode.is_ascii (str k) = true.
Proof.
  cbn. intros H.
  repeat (destruct H as [<- | H]; [reflexivity|]). destruct H.
Qed.

(** The Latin-1 tables are ASCII lower-casing on ASCII texts. *)
Lemma latin1_lower_of_ascii : Unicode.lower_of_ascii Cases.latin1_lower.
Proof.
  intros t. induction t as [|c t IH]; [reflexivity|].
  cbn [forallb]. rewrite andb_true_iff. intros [Hc Ht].
  cbn [Unicode.of_ascii lower map Cases.latin1_lower].
  f_equal; [|apply IH; exact Ht].
  clear -Hc. revert Hc. destruct c as [b0 b1 b2 b3 b4 b5 b6 b7].
  destruct b0, b1, b2, b3, b4, b5, b6, b7; intros H;
    first [reflexivity | vm_compute in H; discriminate H].
Qed.

Section UnicodeTables.

Variable uword : N -> bool.
Variable ulower : Unicode.utext -> Unicode.utext.

Lemma unicode_word_delimited_ends (kw : Unicode.utext) :
  Unicode.word_delimited uword kw = true ->
  (forall post, Unicode.is_word uword (hd_error (kw ++ post)) = true)
  /\ (forall prev,
         Unicode.is_word uword (Unicode.last_with prev kw) = true).
Proof.
  unfold Unicode.word_delimited. rewrite andb_true_iff.
  intros [Hh Hl]. split.
  - intros post. destruct kw; [discriminate Hh | exact Hh].
  - intros prev. unfold Unicode.last_with.
    destruct (Unicode.last_error kw); [exact Hl | discriminate Hl].
Qed.

(** The pattern matches at a position exactly when the keyword stands
    there between two code points that are not word characters. *)
Lemma unicode_match_here_spec (kw txt : Unicode.utext) (prev : option N) :
  Unicode.word_delimited uword kw = true ->
  Unicode.match_here uword kw txt prev = true <->
  exists post,
    txt = kw ++ post
    /\ Unicode.is_word uword prev = false
    /\ Unicode.is_word uword (hd_error post) = false.
Proof.
  intros Hkw. destruct (unicode_word_delimited_ends kw Hkw) as [Hhd Hlast].
  unfold Unicode.match_here, Unicode.word_boundary. split.
  - rewrite andb_true_iff. intros [Hb Hm].
    destruct (Unicode.match_literal kw txt prev) as [[last rest]|] eqn:E;
      [|discriminate].
    apply unicode_match_literal_sound in E as [-> ->].
    rewrite Hhd in Hb. rewrite Hlast in Hm.
    exists rest. split; [reflexivity|].
    destruct (Unicode.is_word uword prev),
             (Unicode.is_word uword (hd_error rest));
      cbn in *; auto; discriminate.
  - intros (post & -> & Hp & Hn).
    rewrite unicode_match_literal_complete, Hhd, Hlast, Hp, Hn.
    reflexivity.
Qed.

Lemma unicode_search_spec (kw txt : Unicode.utext) (prev : option N) :
  Unicode.word_delimited uword kw = true ->
  Unicode.search uword kw txt prev = true <->
  exists pre post,
    txt = pre ++ kw ++ post
    /\ Unicode.is_word uword (Unicode.last_with prev pre) = false
    /\ Unicode.is_word uword (hd_error post) = false.
Proof.
  intros Hkw. revert prev.
  induction txt as [|c txt IH]; intros prev; cbn [Unicode.search];
    rewrite orb_true_iff, (unicode_match_here_spec kw _ prev Hkw).
  - split.
    + intros [(post & E & Hp & Hn) | H]; [|discriminate].
      exists [], post. auto.
    + intros (pre & post & E & Hp & Hn).
      destruct pre; [|discriminate E].
      left. exists post. auto.
  - rewrite IH. split.
    + intros [(post & E & Hp & Hn) | (pre & post & -> & Hp & Hn)].
      * exists [], post. auto.
      * exists (c :: pre), post.
        split; [reflexivity|]. rewrite unicode_last_with_cons. auto.
    + intros (pre & post & E & Hp & Hn).
      destruct pre as [|c' pre'].
      * left. exists post. auto.
      * injection E as <- ->. right. exists pre', post.
        rewrite unicode_last_with_cons in Hp. auto.
Qed.

Hypothesis Hword : Unicode.word_chars_of_ascii uword = true.

Lemma uword_of_ascii (a : ascii) :
  Unicode.is_ascii a = true -> uword (N_of_ascii a) = is_word_char a.
Proof.
  intros Ha. unfold Unicode.is_ascii in Ha. apply N.ltb_lt in Ha.
  pose proof Hword as H. unfold Unicode.word_chars_of_ascii in H.
  rewrite forallb_forall in H.
  assert (Hin : In (nat_of_ascii a) (seq 0 128)).
  { apply in_seq. unfold nat_of_ascii. lia. }
  apply H in Hin. apply eqb_prop in Hin.
  rewrite ascii_nat_embedding in Hin.
  unfold nat_of_ascii in Hin. rewrite N2Nat.id in Hin. exact Hin.
Qed.

Lemma unicode_is_word_of_ascii (o : option ascii) :
  Unicode.is_ascii_opt o = true ->
  Unicode.is_word uword (option_map N_of_ascii o) = is_word o.
Proof.
  destruct o as [a|]; [apply uword_of_ascii | reflexivity].
Qed.

Lemma unicode_word_delimited_of_ascii (kw : text) :
  forallb Unicode.is_ascii kw = true ->
  Unicode.word_delimited uword (Unicode.of_ascii kw) = word_delimited kw.
Proof.
  intros Hkw. unfold Unicode.word_delimited, word_delimited.
  rewrite unicode_hd_error_of_ascii, unicode_last_error_of_ascii.
  assert (Hlast : last_error kw = last_with None kw).
  { unfold last_with. now destruct (last_error kw). }
  rewrite (unicode_is_word_of_ascii _ (is_ascii_opt_hd kw Hkw)).
  rewrite unicode_is_word_of_ascii; [reflexivity|].
  rewrite Hlast. apply (is_ascii_opt_last_with None kw eq_refl Hkw).
Qed.

Lemma unicode_keywords_word_delimited (k : string) :
  In k (keys FEEDBACK_KEYWORDS) ->
  Unicode.word_delimited uword (Unicode.ustr k) = true.
Proof.
  intros Hk. unfold Unicode.ustr.
  rewrite (unicode_word_delimited_of_ascii _ (keywords_are_ascii k Hk)).
  apply keywords_word_delimited. exact Hk.
Qed.

Lemma unicode_re_search_word_spec (k : string) (txt : Unicode.utext) :
  In k (keys FEEDBACK_KEYWORDS) ->
  Unicode.re_search_word uword k txt = true <->
  Unicode.whole_word_occurrence uword (Unicode.ustr k) txt.
Proof.
  intros Hk. unfold Unicode.re_search_word, Unicode.whole_word_occurrence.
  rewrite (unicode_search_spec _ _ _ (unicode_keywords_word_delimited k Hk)).
  assert (Hlast : forall pre,
             Unicode.last_with None pre = Unicode.last_error pre).
  { intros pre. unfold Unicode.last_with.
    now destruct (Unicode.last_error pre). }
  split; intros (pre & post & E & Hp & Hn); exists pre, post;
    [rewrite <- Hlast | rewrite Hlast]; auto.
Qed.

Lemma unicode_re_search_word_false (k : string) (txt : Unicode.utext) :
  In k (keys FEEDBACK_KEYWORDS) ->
  Unicode.re_search_word uword k txt = false <->
  ~ Unicode.whole_word_occurrence uword (Unicode.ustr k) txt.
Proof.
  intros Hk. rewrite <- (unicode_re_search_word_spec k txt Hk).
  destruct (Unicode.re_search_word uword k txt); intuition congruence.
Qed.

Lemma unicode_Forall_no_match (txt : Unicode.utext) (l : list string) :
  incl l (keys FEEDBACK_KEYWORDS) ->
  Forall (fun k => Unicode.re_search_word uword k txt = false) l <->
  Forall (fun k => ~ Unicode.whole_word_occurrence uword (Unicode.ustr k)
                       txt) l.
Proof.
  intros Hincl. rewrite !Forall_forall.
  split; intros H k Hk;
    apply (unicode_re_search_word_false k txt (Hincl k Hk));
    apply H; exact Hk.
Qed.

(** On the code points of an ASCII text the pattern is matched, and the
    text searched, as on the text itself. *)
Lemma unicode_match_here_of_ascii (kw txt : text) (prev : option ascii) :
  Unicode.is_ascii_opt prev = true ->
  forallb Unicode.is_ascii txt = true ->
  Unicode.match_here uword (Unicode.of_ascii kw) (Unicode.of_ascii txt)
                     (option_map N_of_ascii prev)
  = match_here kw txt prev.
Proof.
  intros Hp Ht. unfold Unicode.match_here, match_here,
                  Unicode.word_boundary, word_boundary.
  rewrite unicode_hd_error_of_ascii, unicode_match_literal_of_ascii.
  rewrite (unicode_is_word_of_ascii prev Hp).
  rewrite (unicode_is_word_of_ascii _ (is_ascii_opt_hd txt Ht)).
  f_equal.
  destruct (match_literal kw txt prev) as [[last rest]|] eqn:E;
    [|reflexivity].
  cbn [option_map fst snd].
  apply match_literal_sound in E as [-> ->].
  rewrite forallb_app in Ht. apply andb_true_iff in Ht as [Hkw Hrest].
  rewrite unicode_hd_error_of_ascii.
  rewrite (unicode_is_word_of_ascii _
             (is_ascii_opt_last_with prev kw Hp Hkw)).
  rewrite (unicode_is_word_of_ascii _ (is_ascii_opt_hd rest Hrest)).
  reflexivity.
Qed.

Lemma unicode_search_of_ascii (kw txt : text) (prev : option ascii) :
  Unicode.is_ascii_opt prev = true ->
  forallb Unicode.is_ascii txt = true ->
  Unicode.search uword (Unicode.of_ascii kw) (Unicode.of_ascii txt)
                 (option_map N_of_ascii prev)
  = search kw txt prev.
Proof.
  revert prev. induction txt as [|c txt IH]; intros prev Hp Ht.
  - pose proof (unicode_match_here_of_ascii kw [] prev Hp Ht) as Hm.
    change (Unicode.of_ascii []) with (@nil N) in Hm |- *.
    cbn [Unicode.search search]. rewrite Hm. reflexivity.
  - pose proof (unicode_match_here_of_ascii kw _ prev Hp Ht) as Hm.
    cbn [forallb] in Ht. apply andb_true_iff in Ht as [Hc Ht'].
    pose proof (IH (Some c) Hc Ht') as Hs.
    change (Unicode.of_ascii (c :: txt))
      with (N_of_ascii c :: Unicode.of_ascii txt) in Hm |- *.
    cbn [Unicode.search search option_map] in Hs |- *.
    rewrite Hm, Hs. reflexivity.
Qed.

Hypothesis Hlower : Unicode.lower_of_ascii ulower.

Lemma unicode_parse_of_ascii (t : text) :
  forallb Unicode.is_ascii t = true ->
  Unicode.parse_feedback_from_text uword ulower (Unicode.of_ascii t)
  = parse_feedback_from_text t.
Proof.
  intros Ht. unfold Unicode.parse_feedback_from_text,
               parse_feedback_from_text. cbv zeta.
  rewrite (Hlower t Ht). apply find_ext. intros k.
  unfold Unicode.re_search_word, re_search_word, Unicode.ustr.
  apply (unicode_search_of_ascii (str k) (lower t) None eq_refl).
  apply lower_is_ascii. exact Ht.
Qed.


End UnicodeTables.


(** * Further properties *)

Import EmailSender EmailBody Cases.

(** ** The history file *)

(** X1. Whatever level the history document stores (even one outside
    [1.0, 5.0]) and whatever the adjustment, the level that
    [update_difficulty_preference] returns lies in [1.0, 5.0] and is the
    level it persists. *)
Theorem adjusted_level_in_bounds
  (clock : Clock) (feedback : string) (a : Q)
  (h : History) (log : list Adjustment)
  (Hlog : difficulty_adjustments h = Some log) :
  exists (level : Q) (h' : History),
    update_difficulty_preference clock feedback a (Doc h)
    = (inr level, Doc h')
    /\ 1.0 <= level /\ level <= 5.0
    /\ current_difficulty_level h' = Some level.
Proof.
  pose proof (update_difficulty_preference_run clock feedback a h log Hlog)
    as Hrun.
  cbv zeta in Hrun.
  eexists. eexists. split; [exact Hrun|].
  split; [minmax|]. split; [minmax|]. reflexivity.
Qed.

Lemma adjusted_level_in_bounds_witness :
  difficulty_adjustments nivel_nueve = Some []
  /\ exists level h',
       update_difficulty_preference reloj "easy" 0.5 (Doc nivel_nueve)
       = (inr level, Doc h')
       /\ level <= 5.0.
Proof.
  split; [reflexivity|].
  destruct (adjusted_level_in_bounds reloj "easy" 0.5 nivel_nueve []
              eq_refl)
    as (level & h' & Hrun & _ & Hhi & _).
  exists level, h'. split; [exact Hrun | exact Hhi].
Defined.

(** X2. [update_difficulty_preference] raises exactly when the history
    file is missing ([FileNotFoundError]: no default is substituted here),
    is not JSON ([JSONDecodeError]) or lacks the adjustment log
    ([KeyError]); whenever it raises, the file is left as it was. *)
Theorem update_difficulty_preference_failures
  (clock : Clock) (feedback : string) (a : Q) (disk : Disk) :
  (fst (update_difficulty_preference clock feedback a disk)
   = inl FileNotFoundError <-> disk = Absent)
  /\ (fst (update_difficulty_preference clock feedback a disk)
      = inl JSONDecodeError <-> disk = Corrupt)
  /\ (fst (update_difficulty_preference clock feedback a disk)
      = inl KeyError <->
      exists h, disk = Doc h /\ difficulty_adjustments h = None)
  /\ (forall e,
         fst (update_difficulty_preference clock feedback a disk) = inl e ->
         (e = FileNotFoundError \/ e = JSONDecodeError \/ e = KeyError)
         /\ snd (update_difficulty_preference clock feedback a disk) = disk).
Proof.
  destruct disk as [| |h].
  - repeat split; try discriminate; try reflexivity.
    + intros (h & E & _). discriminate E.
    + cbn in H. injection H as <-. auto.
  - repeat split; try discriminate; try reflexivity.
    + intros (h & E & _). discriminate E.
    + cbn in H. injection H as <-. auto.
  - destruct (difficulty_adjustments h) as [log|] eqn:Hlog.
    + rewrite (update_difficulty_preference_run clock feedback a h log Hlog).
      cbn [fst snd].
      repeat split; try discriminate.
      intros (h0 & [= <-] & E). congruence.
    + assert (Hrun : update_difficulty_preference clock feedback a (Doc h)
                     = (inl KeyError, Doc h)).
      { unfold update_difficulty_preference, bind, read_json.
        cbn [read_file]. rewrite Hlog. reflexivity. }
      rewrite Hrun. cbn [fst snd].
      repeat split; try discriminate.
      * intros _. exists h. auto.
      * injection H as <-. auto.
Qed.

(** X3. The level that a successful [update_difficulty_preference] returns
    is the level that [get_difficulty_level] reads back, and reading does
    not change the file. *)
Theorem get_difficulty_level_after_update
  (clock : Clock) (feedback : string) (a level : Q) (disk disk' : Disk)
  (Hupd : update_difficulty_preference clock feedback a disk
          = (inr level, disk')) :
  get_difficulty_level disk' = (inr level, disk').
Proof.
  destruct disk as [| |h]; try discriminate Hupd.
  destruct (difficulty_adjustments h) as [log|] eqn:Hlog.
  - rewrite (update_difficulty_preference_run clock feedback a h log Hlog)
      in Hupd.
    injection Hupd as <- <-. reflexivity.
  - unfold update_difficulty_preference, bind, read_json in Hupd.
    cbn [read_file] in Hupd. rewrite Hlog in Hupd. discriminate Hupd.
Qed.

Lemma get_difficulty_level_after_update_witness :
  exists level disk',
    update_difficulty_preference reloj "hard" (-0.5) (Doc (history_at 3.0))
    = (inr level, disk')
    /\ get_difficulty_level disk' = (inr level, disk').
Proof.
  pose proof (update_difficulty_preference_run reloj "hard" (-0.5)
                (history_at 3.0) [] eq_refl) as Hrun.
  cbv zeta in Hrun.
  eexists. eexists. split; [exact Hrun|].
  exact (get_difficulty_level_after_update reloj "hard" (-0.5) _
           (Doc (history_at 3.0)) _ Hrun).
Defined.

(** X4. [update_history] with [success = False] appends the entry to the
    send log and changes nothing else: no ID is marked as used and the
    count of sends stays; it needs no key other than ["sent_emails"]. *)
Theorem failed_send_is_logged_only
  (clock : Clock) (verb_id adjective_id : Z) (level : Q) (h : History)
  (sent : list SentEmail) (Hsent : sent_emails h = Some sent) :
  exists h',
    update_history clock verb_id adjective_id false level (Doc h)
    = (inr tt, Doc h')
    /\ sent_emails h'
       = Some (sent ++ [ {| se_date := today clock;
                            se_verb_id := verb_id;
                            se_adjective_id := adjective_id;
                            se_success := false;
                            se_difficulty_level := level |} ])
    /\ used_verbs h' = used_verbs h
    /\ used_adjectives h' = used_adjectives h
    /\ total_emails_sent h' = total_emails_sent h
    /\ current_difficulty_level h' = current_difficulty_level h
    /\ difficulty_adjustments h' = difficulty_adjustments h
    /\ last_feedback_check h' = last_feedback_check h.
Proof.
  eexists. split.
  { unfold update_history, bind, try_except, read_json. cbn [read_file].
    rewrite Hsent. reflexivity. }
  cbn. repeat split; reflexivity.
Qed.

Lemma failed_send_is_logged_only_witness :
  sent_emails ya_enviados = Some []
  /\ exists h',
       update_history reloj 5 8 false 2.0 (Doc ya_enviados)
       = (inr tt, Doc h')
       /\ used_verbs h' = Some [4%Z; 6%Z]
       /\ total_emails_sent h' = Some 0%Z.
Proof.
  split; [reflexivity|].
  destruct (failed_send_is_logged_only reloj 5 8 2.0 ya_enviados []
              eq_refl)
    as (h' & Hrun & _ & Hv & _ & Ht & _).
  exists h'. split; [exact Hrun|]. rewrite Hv, Ht. split; reflexivity.
Defined.

Lemma update_difficulty_preference_failures_witness :
  fst (update_difficulty_preference reloj "easy" 0.5 (Doc sin_ajustes))
  = inl KeyError
  /\ snd (update_difficulty_preference reloj "easy" 0.5 (Doc sin_ajustes))
     = Doc sin_ajustes.
Proof.
  destruct (update_difficulty_preference_failures reloj "easy" 0.5
              (Doc sin_ajustes)) as (_ & _ & Hkey & Hany).
  assert (E : fst (update_difficulty_preference reloj "easy" 0.5
                     (Doc sin_ajustes)) = inl KeyError).
  { apply Hkey. exists sin_ajustes. split; reflexivity. }
  split; [exact E | exact (proj2 (Hany KeyError E))].
Defined.

Lemma reset_used_words_run (word_type : string) (h : History) :
  reset_used_words word_type (Doc h) =
  if String.eqb word_type "verbs"
  then (inr tt, Doc (set_used_verbs [] h))
  else if String.eqb word_type "adjectives"
       then (inr tt, Doc (set_used_adjectives [] h))
  else (inl ValueError, Doc h).
Proof.
  unfold reset_used_words, bind, read_json. cbn [read_file].
  destruct (String.eqb word_type "verbs"); [reflexivity|].
  destruct (String.eqb word_type "adjectives"); reflexivity.
Qed.

(** X5. A call of [reset_used_words] that succeeds was made on an existing
    history document with the word type ["verbs"] or ["adjectives"]; it
    empties the used list of that type (creating the key if it was
    missing), keeps every other key, and a second reset changes nothing
    more.  A call that raises leaves the file as it was; the error is
    [ValueError] exactly when the document exists and the word type is
    neither of the two. *)
Theorem reset_used_words_frame (word_type : string) (disk : Disk) :
  (forall disk1,
      reset_used_words word_type disk = (inr tt, disk1) ->
      exists h h1,
        disk = Doc h /\ disk1 = Doc h1
        /\ ((word_type = "verbs"%string
             /\ used_verbs h1 = Some []
             /\ used_adjectives h1 = used_adjectives h)
            \/ (word_type = "adjectives"%string
                /\ used_adjectives h1 = Some []
                /\ used_verbs h1 = used_verbs h))
        /\ sent_emails h1 = sent_emails h
        /\ total_emails_sent h1 = total_emails_sent h
        /\ current_difficulty_level h1 = current_difficulty_level h
        /\ difficulty_adjustments h1 = difficulty_adjustments h
        /\ last_feedback_check h1 = last_feedback_check h
        /\ reset_used_words word_type disk1 = (inr tt, disk1))
  /\ (forall e,
         fst (reset_used_words word_type disk) = inl e ->
         snd (reset_used_words word_type disk) = disk
         /\ (e = ValueError <->
             (exists h, disk = Doc h)
             /\ word_type <> "verbs"%string
             /\ word_type <> "adjectives"%string)).
Proof.
  destruct disk as [| |h].
  - split; [intros disk1 H; discriminate H|].
    intros e H. cbn in H. injection H as <-.
    split; [reflexivity|]. split; [discriminate|].
    intros [[h E] _]. discriminate E.
  - split; [intros disk1 H; discriminate H|].
    intros e H. cbn in H. injection H as <-.
    split; [reflexivity|]. split; [discriminate|].
    intros [[h E] _]. discriminate E.
  - rewrite (reset_used_words_run word_type h).
    destruct (String.eqb_spec word_type "verbs") as [-> | Hv].
    { split; [|intros e H; discriminate H].
      intros disk1 [= <-]. exists h, (set_used_verbs [] h).
      cbn. repeat split; auto. }
    destruct (String.eqb_spec word_type "adjectives") as [-> | Ha].
    { split; [|intros e H; discriminate H].
      intros disk1 [= <-]. exists h, (set_used_adjectives [] h).
      cbn. repeat split; auto. }
    split; [intros disk1 H; discriminate H|].
    intros e [= <-]. split; [reflexivity|].
    split; [|reflexivity]. intros _. repeat split; eauto.
Qed.

Lemma reset_used_words_frame_witness :
  reset_used_words "verbs" (Doc ya_enviados)
  = (inr tt, Doc (set_used_verbs [] ya_enviados))
  /\ reset_used_words "verbs" (Doc (set_used_verbs [] ya_enviados))
     = (inr tt, Doc (set_used_verbs [] ya_enviados)).
Proof.
  assert (E : reset_used_words "verbs" (Doc ya_enviados)
              = (inr tt, Doc (set_used_verbs [] ya_enviados)))
    by reflexivity.
  split; [exact E|].
  destruct (proj1 (reset_used_words_frame "verbs" (Doc ya_enviados)) _ E)
    as (h & h1 & _ & E1 & _ & _ & _ & _ & _ & _ & Hidem).
  exact Hidem.
Defined.

(** ** Bands and selection *)

(** X6. An item whose difficulty lies below 1.0 or above 5.0 is in no band,
    for any target and tolerance: the ends of every range are clamped to
    [1.0, 5.0].  Such an item is returned only by the last branch of
    [select_word_by_difficulty_distribution], when the bands that the draw
    admits are all empty. *)
Theorem out_of_scale_item_only_by_fallback
  (words : list Word) (w : Word) (q : Q)
  (Hq : difficulty w = Some q) (Hout : q < 1.0 \/ 5.0 < q) :
  (forall target tolerance : Q,
      ~ In w (filter_words_by_difficulty words target tolerance))
  /\ (forall (d r : Q) (k : nat),
         select_word_by_difficulty_distribution words d r k = inr w ->
         select_word_by_difficulty_distribution words d r k = choice k words
         /\ (r < 0.70 -> current_range words d = [])
         /\ (r < 0.90 -> higher_range words d = [])
         /\ (r < 1.00 -> lower_range words d = [])).
Proof.
  assert (Hno : forall target tolerance : Q,
             ~ In w (filter_words_by_difficulty words target tolerance)).
  { intros target tolerance Hin.
    apply filter_words_by_difficulty_In in Hin as (_ & Hlo & Hhi).
    rewrite Hq in Hlo, Hhi. cbn [get] in Hlo, Hhi.
    revert Hlo Hhi. minmax. }
  split; [exact Hno|].
  intros d r k Hsel.
  assert (Hne : words <> []) by (intros ->; discriminate Hsel).
  rewrite select_word_unfold in Hsel |- * by assumption.
  assert (Hband : forall target,
             choice k (filter_words_by_difficulty words target 0.5)
             <> inr w).
  { intros target Hc. apply choice_In in Hc. exact (Hno _ _ Hc). }
  destruct (Qltb r 0.70) eqn:E70;
    [apply Qltb_lt in E70 | apply Qltb_ge in E70];
    (destruct (is_empty (current_range words d)) eqn:Ec;
     [apply is_empty_nil in Ec | apply is_empty_false in Ec]);
    cbn [andb negb] in Hsel |- *;
    try (exfalso; exact (Hband _ Hsel));
    (destruct (Qltb r 0.90) eqn:E90;
     [apply Qltb_lt in E90 | apply Qltb_ge in E90]);
    (destruct (is_empty (higher_range words d)) eqn:Eh;
     [apply is_empty_nil in Eh | apply is_empty_false in Eh]);
    cbn [andb negb] in Hsel |- *;
    try (exfalso; exact (Hband _ Hsel));
    (destruct (Qltb r 1.00) eqn:E100;
     [apply Qltb_lt in E100 | apply Qltb_ge in E100]);
    (destruct (is_empty (lower_range words d)) eqn:El;
     [apply is_empty_nil in El | apply is_empty_false in El]);
    cbn [andb negb] in Hsel |- *;
    try (exfalso; exact (Hband _ Hsel));
    (split; [reflexivity|]);
    repeat split; intros; try assumption; exfalso; lra.
Qed.

Lemma out_of_scale_item_only_by_fallback_witness :
  difficulty nivel7 = Some 7.0 /\ 5.0 < 7.0
  /\ ~ In nivel7 (current_range [nivel5; nivel7] 6.8)
  /\ higher_range [nivel7] 4.0 = [].
Proof.
  assert (Hout : 7.0 < 1.0 \/ 5.0 < 7.0) by (right; reflexivity).
  split; [reflexivity|]. split; [reflexivity|].
  destruct (out_of_scale_item_only_by_fallback [nivel5; nivel7] nivel7 7.0
              eq_refl Hout) as [Hno _].
  split; [apply Hno|].
  destruct (out_of_scale_item_only_by_fallback [nivel7] nivel7 7.0
              eq_refl Hout) as [_ Hsel].
  apply (Hsel 4.0 0.8 0%nat); reflexivity.
Defined.

(** X7. [select_word_by_difficulty_distribution] raises only on the empty
    list, and then [ValueError]: a band is used only when it is not empty,
    so [random.choice] never meets an empty sequence.  Every item it
    returns is one of the given words. *)
Theorem select_word_outcome (words : list Word) (d r : Q) (k : nat) :
  (select_word_by_difficulty_distribution words d r k = inl ValueError
   <-> words = [])
  /\ (forall e,
         select_word_by_difficulty_distribution words d r k = inl e ->
         e = ValueError)
  /\ (forall w,
         select_word_by_difficulty_distribution words d r k = inr w ->
         In w words)
  /\ (words <> [] ->
      exists w, select_word_by_difficulty_distribution words d r k = inr w).
Proof.
  destruct words as [|w0 ws].
  - repeat split; try reflexivity; try discriminate.
    + intros e [= <-]. reflexivity.
    + congruence.
  - destruct (select_word_total (w0 :: ws) d r k) as (w & E & Hin);
      [discriminate|].
    rewrite E.
    repeat split; try discriminate.
    + intros w' [= <-]. exact Hin.
    + eauto.
Qed.

Lemma select_word_outcome_witness :
  [nivel3; nivel5] <> []
  /\ exists w,
       select_word_by_difficulty_distribution [nivel3; nivel5] 1.0 0.95 4
       = inr w.
Proof.
  assert (Hne : [nivel3; nivel5] <> []) by discriminate.
  split; [exact Hne|].
  destruct (select_word_outcome [nivel3; nivel5] 1.0 0.95 4)
    as (_ & _ & _ & H).
  exact (H Hne).
Defined.

Lemma no_unused_words_iff (all_words : list Word) (used : list Z) :
  is_empty (get_unused_words all_words used) = true <->
  forall w, In w all_words -> In (id w) used.
Proof.
  rewrite is_empty_nil. split.
  - intros E w Hw.
    destruct (contains (id w) used) eqn:C; [apply contains_In; exact C|].
    assert (Hin : In w (get_unused_words all_words used)).
    { apply get_unused_words_In. split; [exact Hw|].
      apply contains_not_In. exact C. }
    rewrite E in Hin. destruct Hin.
  - intros H.
    destruct (get_unused_words all_words used) as [|w ws] eqn:E;
      [reflexivity|].
    assert (Hin : In w (get_unused_words all_words used))
      by (rewrite E; left; reflexivity).
    apply get_unused_words_In in Hin as [Hw Hn]. exfalso. auto.
Qed.

Lemma bool_true_iff (b : bool) (P : Prop) :
  (b = true <-> P) -> forall c, c = b -> (c = true <-> P).
Proof. intros H c ->. exact H. Qed.

(** X8. In a selection that succeeds on a history document, the reset flag
    of a catalog is set exactly when every item of the catalog has its ID
    in the used list.  After a reset the used list in the file is empty
    and the item comes from the whole catalog; without a reset the used
    list in the file is the one found at entry. *)
Theorem reset_exactly_when_exhausted
  (vf af : file WordFile) (dv da : Draw) (h : History) (disk' : Disk)
  (v a : Word) (vr ar : bool)
  (Hsel : select_daily_words vf af dv da (Doc h)
          = (inr (v, a, vr, ar), disk')) :
  exists (vs ajs : list Word) (h' : History),
    load_words vf = inr vs /\ load_words af = inr ajs /\ disk' = Doc h'
    /\ (vr = true <->
        forall w, In w vs -> In (id w) (get (used_verbs h) []))
    /\ (ar = true <->
        forall w, In w ajs -> In (id w) (get (used_adjectives h) []))
    /\ In v vs /\ In a ajs
    /\ (vr = true -> used_verbs h' = Some [])
    /\ (ar = true -> used_adjectives h' = Some [])
    /\ (vr = false -> used_verbs h' = used_verbs h)
    /\ (ar = false -> used_adjectives h' = used_adjectives h).
Proof.
  destruct (select_daily_words_inr _ _ _ _ _ _ _ _ _ _ Hsel)
    as (vs & ajs & Hv & Ha & Hvr & Har & Hinv & Hina & Hd').
  cbn [used_verb_ids used_adjective_ids] in *.
  exists vs, ajs, (after_resets vr ar h).
  split; [exact Hv|]. split; [exact Ha|]. split; [exact Hd'|].
  split; [exact (bool_true_iff _ _ (no_unused_words_iff _ _) _ Hvr)|].
  split; [exact (bool_true_iff _ _ (no_unused_words_iff _ _) _ Har)|].
  split.
  { destruct vr; [exact Hinv|].
    apply get_unused_words_In in Hinv. tauto. }
  split.
  { destruct ar; [exact Hina|].
    apply get_unused_words_In in Hina. tauto. }
  unfold after_resets.
  repeat split; intros E; destruct vr, ar; try discriminate E; reflexivity.
Qed.

Lemma reset_exactly_when_exhausted_witness :
  select_daily_words dos_verbos un_adjetivo sorteo sorteo (Doc dos_usados)
  = (inr (verbo 1 "hablar", alto, true, false),
     Doc (set_used_verbs [] dos_usados))
  /\ forall w,
       In w [verbo 1 "hablar"; verbo 2 "comer"] ->
       In (id w) (get (used_verbs dos_usados) []).
Proof.
  assert (E : select_daily_words dos_verbos un_adjetivo sorteo sorteo
                (Doc dos_usados)
              = (inr (verbo 1 "hablar", alto, true, false),
                 Doc (set_used_verbs [] dos_usados)))
    by reflexivity.
  split; [exact E|].
  destruct (reset_exactly_when_exhausted _ _ _ _ _ _ _ _ _ _ E)
    as (vs & ajs & h' & Hv & _ & _ & Hiff & _).
  injection Hv as <-. apply Hiff. reflexivity.
Defined.

(** X9. Resets are written before the words are drawn, so they remain in
    the file when the selection then raises.  With an empty adjective
    catalog the selection on a history document raises [ValueError], yet
    the file now holds an empty list of used adjectives, and an empty
    list of used verbs as well when every verb had been used. *)
Theorem reset_persists_when_selection_raises
  (vf af : file WordFile) (dv da : Draw) (h : History) (vs : list Word)
  (Hv : load_words vf = inr vs) (Ha : load_words af = inr []) :
  exists h',
    select_daily_words vf af dv da (Doc h) = (inl ValueError, Doc h')
    /\ used_adjectives h' = Some []
    /\ ((forall w, In w vs -> In (id w) (get (used_verbs h) [])) ->
        used_verbs h' = Some [])
    /\ sent_emails h' = sent_emails h
    /\ total_emails_sent h' = total_emails_sent h.
Proof.
  pose proof (select_daily_words_doc vf af dv da h vs [] Hv Ha) as Hrun.
  cbv zeta in Hrun.
  change (is_empty (get_unused_words [] (get (used_adjectives h) [])))
    with true in Hrun.
  set (vr := is_empty (get_unused_words vs (get (used_verbs h) []))) in *.
  exists (after_resets vr true h).
  split.
  { rewrite Hrun.
    destruct (select_word_by_difficulty_distribution
                (if vr then vs else _) _ _ _) as [e|v] eqn:E.
    - destruct vs as [|w0 ws]; [cbn in E; destruct vr; congruence|].
      exfalso.
      assert (Hne : (if vr then w0 :: ws
                     else get_unused_words (w0 :: ws)
                            (get (used_verbs h) [])) <> []).
      { subst vr.
        destruct (is_empty (get_unused_words (w0 :: ws) _)) eqn:Ee;
          [discriminate | apply is_empty_false; exact Ee]. }
      destruct (select_word_total _ (get (current_difficulty_level h) 2.0)
                  (rand dv) (pick dv) Hne) as (w & Ew & _).
      subst vr. rewrite Ew in E. discriminate E.
    - reflexivity. }
  unfold after_resets.
  split; [destruct vr; reflexivity|].
  split.
  { intros Hall. apply no_unused_words_iff in Hall.
    subst vr. rewrite Hall. reflexivity. }
  destruct vr; split; reflexivity.
Qed.

Lemma reset_persists_when_selection_raises_witness :
  load_words dos_verbos = inr [verbo 1 "hablar"; verbo 2 "comer"]
  /\ load_words sin_adjetivos = inr []
  /\ exists h',
       select_daily_words dos_verbos sin_adjetivos sorteo sorteo
         (Doc dos_usados) = (inl ValueError, Doc h')
       /\ used_verbs h' = Some [].
Proof.
  split; [reflexivity|]. split; [reflexivity|].
  destruct (reset_persists_when_selection_raises dos_verbos sin_adjetivos
              sorteo sorteo dos_usados _ eq_refl eq_refl)
    as (h' & Hrun & _ & Hall & _).
  exists h'. split; [exact Hrun|]. apply Hall.
  intros w [<- | [<- | []]]; cbn; auto.
Defined.

Lemma load_words_error (f : file WordFile) (e : exn) :
  load_words f = inl e ->
  (e = FileNotFoundError /\ f = Absent)
  \/ (e = JSONDecodeError /\ f = Corrupt)
  \/ (e = ValueError
      /\ exists d, f = Doc d /\ verbs d = None /\ adjectives d = None).
Proof.
  destruct f as [| |d]; unfold load_words; cbn [read_file].
  - intros [= <-]. auto.
  - intros [= <-]. auto.
  - destruct (verbs d) eqn:Ev; [discriminate|].
    destruct (adjectives d) eqn:Ea; [discriminate|].
    intros [= <-]. right. right. eauto.
Qed.

(** X10. When a catalog fails to load, [select_daily_words] raises the
    error of the load ([FileNotFoundError] for a missing file,
    [JSONDecodeError] for invalid JSON, [ValueError] for a document with
    neither a ["verbs"] nor an ["adjectives"] key) before it reads or
    resets the history, and [main] exits with status 1 with the history
    file untouched. *)
Theorem catalog_load_failure_touches_nothing
  (vf af : file WordFile) (dv da : Draw) (e : exn) (disk : Disk)
  (Hload : load_words vf = inl e
           \/ (exists vs, load_words vf = inr vs) /\ load_words af = inl e) :
  select_daily_words vf af dv da disk = (inl e, disk)
  /\ (forall (config_ok test dry_run : bool) (send : Main.Delivery)
             (clock : Clock),
         Main.main config_ok test dry_run vf af dv da send clock disk
         = (1%Z, disk))
  /\ ((e = FileNotFoundError /\ (vf = Absent \/ af = Absent))
      \/ (e = JSONDecodeError /\ (vf = Corrupt \/ af = Corrupt))
      \/ (e = ValueError
          /\ exists d, (vf = Doc d \/ af = Doc d)
                       /\ verbs d = None /\ adjectives d = None)).
Proof.
  assert (Hsel : select_daily_words vf af dv da disk = (inl e, disk)).
  { unfold select_daily_words, bind, lift.
    destruct Hload as [E | [[vs E] E']]; rewrite E; [reflexivity|].
    rewrite E'. reflexivity. }
  split; [exact Hsel|]. split.
  { intros config_ok test dry_run send clock.
    rewrite main_unfold, Hsel. destruct config_ok; reflexivity. }
  destruct Hload as [E | [_ E]];
    apply load_words_error in E
      as [[-> ->] | [[-> ->] | (-> & d & -> & Hv & Ha)]];
    try (left; split; [reflexivity | auto]; fail);
    try (right; left; split; [reflexivity | auto]; fail);
    right; right; split; [reflexivity | exists d; auto
                         | reflexivity | exists d; auto].
Qed.

Lemma catalog_load_failure_touches_nothing_witness :
  load_words sin_listas = inl ValueError
  /\ Main.main true false false dos_verbos sin_listas sorteo sorteo
       entrega reloj (Doc dos_usados)
     = (1%Z, Doc dos_usados).
Proof.
  split; [reflexivity|].
  destruct (catalog_load_failure_touches_nothing dos_verbos sin_listas
              sorteo sorteo ValueError (Doc dos_usados))
    as (_ & Hmain & _).
  - right. split; [eexists; reflexivity | reflexivity].
  - apply Hmain.
Defined.

(** ** Recording a successful send *)

Lemma contains_app (x y : Z) (l : list Z) :
  contains x (l ++ [y]) = contains x l || Z.eqb x y.
Proof.
  unfold contains. rewrite existsb_app. cbn [existsb].
  now rewrite orb_false_r.
Qed.

Lemma filter_length_le {A : Type} (p p' : A -> bool) (l : list A) :
  (forall x, p' x = true -> p x = true) ->
  (List.length (filter p' l) <= List.length (filter p l))%nat.
Proof.
  intros Himp. induction l as [|x l IH]; [reflexivity|]. cbn [filter].
  destruct (p' x) eqn:E'.
  - rewrite (Himp x E'). cbn [List.length]. lia.
  - destruct (p x); cbn [List.length]; lia.
Qed.

Lemma filter_length_lt {A : Type} (p p' : A -> bool) (l : list A) (w : A) :
  (forall x, p' x = true -> p x = true) ->
  In w l -> p w = true -> p' w = false ->
  (List.length (filter p' l) < List.length (filter p l))%nat.
Proof.
  intros Himp. induction l as [|x l IH]; [intros []|].
  intros [-> | Hin] Hp Hp'; cbn [filter].
  - rewrite Hp, Hp'. cbn [List.length].
    pose proof (filter_length_le p p' l Himp). lia.
  - specialize (IH Hin Hp Hp').
    destruct (p' x) eqn:E'.
    + rewrite (Himp x E'). cbn [List.length]. lia.
    + destruct (p x); cbn [List.length]; lia.
Qed.

(** Marking an unused item as used makes the list of unused items
    strictly shorter. *)
Lemma unused_shrinks (all_words : list Word) (used : list Z) (w : Word) :
  In w (get_unused_words all_words used) ->
  (List.length (get_unused_words all_words (used ++ [id w]))
   < List.length (get_unused_words all_words used))%nat.
Proof.
  intros Hin. apply get_unused_words_In in Hin as [Hw Hn].
  unfold get_unused_words. apply filter_length_lt with (w := w).
  - intros x. rewrite contains_app, negb_orb, andb_true_iff. tauto.
  - exact Hw.
  - apply negb_true_iff, contains_not_In. exact Hn.
  - rewrite contains_app, Z.eqb_refl, orb_true_r. reflexivity.
Qed.

(** X11. A send cycle whose delivery succeeds, run on a history document
    that carries the four keys of [update_history], exits with status 0
    and records the send: each selected ID is appended to its used list
    (to the emptied list after a reset), the count of sends grows by one,
    and the send log gets an entry with the level of the history.  Without
    a reset of the verbs, the verbs that remain unused for the next run
    are strictly fewer, and the selected verb is not among them. *)
Theorem successful_send_is_recorded
  (test : bool) (vf af : file WordFile) (dv da : Draw)
  (send : Main.Delivery) (clock : Clock) (h : History) (disk1 : Disk)
  (v a : Word) (vr ar : bool)
  (sent : list SentEmail) (uv ua : list Z) (total : Z) (vs : list Word)
  (Hsent : sent_emails h = Some sent)
  (Huv : used_verbs h = Some uv)
  (Hua : used_adjectives h = Some ua)
  (Htotal : total_emails_sent h = Some total)
  (Hvs : load_words vf = inr vs)
  (Hsel : select_daily_words vf af dv da (Doc h)
          = (inr (v, a, vr, ar), disk1))
  (Hsend : send v a (difficulty_of disk1)
                (get_difficulty_name (difficulty_of disk1))
                (Main.reset_message vr ar) test = true) :
  exists h2 : History,
    Main.main true test false vf af dv da send clock (Doc h) = (0%Z, Doc h2)
    /\ used_verbs h2 = Some ((if vr then [] else uv) ++ [id v])
    /\ used_adjectives h2 = Some ((if ar then [] else ua) ++ [id a])
    /\ total_emails_sent h2 = Some (total + 1)%Z
    /\ sent_emails h2
       = Some (sent ++ [ {| se_date := today clock;
                            se_verb_id := id v;
                            se_adjective_id := id a;
                            se_success := true;
                            se_difficulty_level :=
                              get (current_difficulty_level h) 2.0 |} ])
    /\ current_difficulty_level h2 = current_difficulty_level h
    /\ ~ In v (get_unused_words vs (used_verb_ids (Doc h2)))
    /\ (vr = false ->
        (List.length (get_unused_words vs (used_verb_ids (Doc h2)))
         < List.length (get_unused_words vs (used_verb_ids (Doc h))))%nat).
Proof.
  destruct (select_daily_words_inr _ _ _ _ _ _ _ _ _ _ Hsel)
    as (vs' & ajs & Hv & Ha & Hvr & Har & Hinv & Hina & Hd').
  rewrite Hvs in Hv. injection Hv as <-.
  cbn [used_verb_ids used_adjective_ids] in *.
  rewrite Huv in Hvr, Hinv. rewrite Hua in Har, Hina. cbn [get] in *.
  assert (Hfresh_v : ~ In (id v) (if vr then [] else uv)).
  { destruct vr; [intros []|].
    apply get_unused_words_In in Hinv. tauto. }
  assert (Hfresh_a : ~ In (id a) (if ar then [] else ua)).
  { destruct ar; [intros []|].
    apply get_unused_words_In in Hina. tauto. }
  assert (Hlevel : difficulty_of disk1 = get (current_difficulty_level h) 2.0).
  { rewrite Hd'. unfold after_resets. destruct vr, ar; reflexivity. }
  pose proof (update_history_success_run clock (id v) (id a)
                (get (current_difficulty_level h) 2.0) (after_resets vr ar h)
                sent (if vr then [] else uv) (if ar then [] else ua) total)
    as Hupd.
  rewrite (append_if_new_fresh _ _ Hfresh_v) in Hupd.
  rewrite (append_if_new_fresh _ _ Hfresh_a) in Hupd.
  eexists. split.
  { rewrite main_unfold, Hsel.
    rewrite (get_difficulty_level_run disk1)
      by (rewrite Hd'; discriminate).
    rewrite Hsend, Hlevel, Hd'.
    rewrite Hupd; [reflexivity | | | | ];
      unfold after_resets; destruct vr, ar; cbn; assumption || reflexivity. }
  cbn [used_verbs used_adjectives total_emails_sent sent_emails
       current_difficulty_level set_total_emails_sent set_used_adjectives
       set_used_verbs set_sent_emails used_verb_ids get].
  split; [reflexivity|]. split; [reflexivity|]. split; [reflexivity|].
  split; [reflexivity|].
  split; [unfold after_resets; destruct vr, ar; reflexivity|].
  split.
  { intros Hin. apply get_unused_words_In in Hin as [_ Hn].
    apply Hn. apply in_or_app. right. left. reflexivity. }
  intros ->. rewrite Huv. cbn [get]. apply unused_shrinks. exact Hinv.
Qed.

Lemma successful_send_is_recorded_witness :
  select_daily_words tres_verbos un_adjetivo sorteo sorteo (Doc dos_usados)
  = (inr (verbo 3 "vivir", alto, false, false), Doc dos_usados)
  /\ exists h2,
       Main.main true false false tres_verbos un_adjetivo sorteo sorteo
         entrega reloj (Doc dos_usados) = (0%Z, Doc h2)
       /\ used_verbs h2 = Some [1%Z; 2%Z; 3%Z]
       /\ total_emails_sent h2 = Some 1%Z.
Proof.
  assert (E : select_daily_words tres_verbos un_adjetivo sorteo sorteo
                (Doc dos_usados)
              = (inr (verbo 3 "vivir", alto, false, false), Doc dos_usados))
    by reflexivity.
  split; [exact E|].
  destruct (successful_send_is_recorded false tres_verbos un_adjetivo
              sorteo sorteo entrega reloj dos_usados _ _ _ _ _
              [] [1%Z; 2%Z] [] 0%Z _
              eq_refl eq_refl eq_refl eq_refl eq_refl E eq_refl)
    as (h2 & Hmain & Hv & _ & Ht & _).
  exists h2. split; [exact Hmain|]. split; [exact Hv | exact Ht].
Defined.



(** X13. A dry run whose selection succeeds exits with status 0 without
    consulting the delivery collaborator and records no send; yet the
    history file is the one that the selection left, so a reset of an
    exhausted catalog is written even in a dry run. *)
Theorem dry_run_keeps_resets
  (vf af : file WordFile) (dv da : Draw) (disk disk1 : Disk)
  (v a : Word) (vr ar : bool)
  (Hsel : select_daily_words vf af dv da disk
          = (inr (v, a, vr, ar), disk1)) :
  (forall (test : bool) (send : Main.Delivery) (clock : Clock),
      Main.main true test true vf af dv da send clock disk = (0%Z, disk1))
  /\ (vr = false -> ar = false -> disk1 = disk)
  /\ (forall h, disk = Doc h ->
        exists h1, disk1 = Doc h1
          /\ used_verbs h1 = (if vr then Some [] else used_verbs h)
          /\ used_adjectives h1
             = (if ar then Some [] else used_adjectives h)
          /\ sent_emails h1 = sent_emails h
          /\ total_emails_sent h1 = total_emails_sent h).
Proof.
  pose proof (select_daily_words_not_corrupt _ _ _ _ _ _ _ Hsel) as Hnc.
  destruct (select_daily_words_inr _ _ _ _ _ _ _ _ _ _ Hsel)
    as (vs & ajs & _ & _ & _ & _ & _ & _ & Hd').
  split.
  { intros test send clock.
    rewrite main_unfold, Hsel, (get_difficulty_level_run disk1 Hnc).
    reflexivity. }
  split.
  { intros -> ->. rewrite Hd'. destruct disk; reflexivity. }
  intros h ->. exists (after_resets vr ar h). split; [exact Hd'|].
  unfold after_resets. destruct vr, ar; cbn; repeat split; reflexivity.
Qed.

Lemma dry_run_keeps_resets_witness :
  select_daily_words dos_verbos un_adjetivo sorteo sorteo (Doc dos_usados)
  = (inr (verbo 1 "hablar", alto, true, false),
     Doc (set_used_verbs [] dos_usados))
  /\ Main.main true false true dos_verbos un_adjetivo sorteo sorteo
       sin_entrega reloj (Doc dos_usados)
     = (0%Z, Doc (set_used_verbs [] dos_usados)).
Proof.
  assert (E : select_daily_words dos_verbos un_adjetivo sorteo sorteo
                (Doc dos_usados)
              = (inr (verbo 1 "hablar", alto, true, false),
                 Doc (set_used_verbs [] dos_usados)))
    by reflexivity.
  split; [exact E|].
  apply (proj1 (dry_run_keeps_resets _ _ _ _ _ _ _ _ _ _ E)).
Defined.

Lemma update_history_missing_key
  (clock : Clock) (verb_id adjective_id : Z) (level : Q) (h : History) :
  sent_emails h = None \/ used_verbs h = None
  \/ used_adjectives h = None \/ total_emails_sent h = None ->
  update_history clock verb_id adjective_id true level (Doc h)
  = (inl KeyError, Doc h).
Proof.
  intros Hmiss.
  unfold update_history, bind, try_except, read_json. cbn [read_file].
  destruct (sent_emails h) as [sent|]; [|reflexivity]. cbn.
  destruct (used_verbs h) as [uv|]; [|reflexivity]. cbn.
  destruct (used_adjectives h) as [ua|]; [|reflexivity]. cbn.
  destruct (total_emails_sent h) as [total|]; [|reflexivity].
  exfalso. destruct Hmiss as [E | [E | [E | E]]]; discriminate E.
Qed.

(** X14. [update_history] reads its four keys with [history[key]].  When
    the history document lacks one of them (a used list only matters when
    it was not just reset), a send cycle whose delivery succeeded still
    exits with status 1 and records nothing: the file is the one that the
    selection left, so the items that were sent stay eligible. *)
Theorem sent_but_not_recorded
  (test : bool) (vf af : file WordFile) (dv da : Draw)
  (send : Main.Delivery) (clock : Clock) (h : History) (disk1 : Disk)
  (v a : Word) (vr ar : bool)
  (Hsel : select_daily_words vf af dv da (Doc h)
          = (inr (v, a, vr, ar), disk1))
  (Hsend : send v a (difficulty_of disk1)
                (get_difficulty_name (difficulty_of disk1))
                (Main.reset_message vr ar) test = true)
  (Hmiss : sent_emails h = None
           \/ (vr = false /\ used_verbs h = None)
           \/ (ar = false /\ used_adjectives h = None)
           \/ total_emails_sent h = None) :
  Main.main true test false vf af dv da send clock (Doc h) = (1%Z, disk1)
  /\ ~ In (id v) (used_verb_ids disk1)
  /\ ~ In (id a) (used_adjective_ids disk1).
Proof.
  destruct (select_daily_words_inr _ _ _ _ _ _ _ _ _ _ Hsel)
    as (vs & ajs & _ & _ & _ & _ & Hinv & Hina & Hd').
  split.
  { rewrite main_unfold, Hsel.
    rewrite (get_difficulty_level_run disk1) by (rewrite Hd'; discriminate).
    rewrite Hsend, Hd'.
    rewrite update_history_missing_key; [reflexivity|].
    unfold after_resets.
    destruct Hmiss as [E | [[Er E] | [[Er E] | E]]];
      destruct vr, ar; try discriminate Er; cbn; auto. }
  rewrite Hd'. cbn [used_verb_ids used_adjective_ids] in *.
  unfold after_resets.
  destruct vr, ar; cbn; split; try (intros []);
    try (apply get_unused_words_In in Hinv; tauto);
    try (apply get_unused_words_In in Hina; tauto).
Qed.

Lemma sent_but_not_recorded_witness :
  select_daily_words tres_verbos un_adjetivo sorteo sorteo (Doc sin_registro)
  = (inr (verbo 3 "vivir", alto, false, false), Doc sin_registro)
  /\ sent_emails sin_registro = None
  /\ Main.main true false false tres_verbos un_adjetivo sorteo sorteo
       entrega reloj (Doc sin_registro)
     = (1%Z, Doc sin_registro).
Proof.
  assert (E : select_daily_words tres_verbos un_adjetivo sorteo sorteo
                (Doc sin_registro)
              = (inr (verbo 3 "vivir", alto, false, false),
                 Doc sin_registro))
    by reflexivity.
  split; [exact E|]. split; [reflexivity|].
  apply (proj1 (sent_but_not_recorded false tres_verbos un_adjetivo
                  sorteo sorteo entrega reloj sin_registro _ _ _ _ _
                  E eq_refl (or_introl eq_refl))).
Defined.

(** ** Feedback *)

Lemma parse_feedback_is_keyword (t : text) (kw : string) :
  parse_feedback_from_text t = Some kw ->
  In kw (keys FEEDBACK_KEYWORDS) /\ re_search_word kw (lower t) = true.
Proof.
  unfold parse_feedback_from_text. cbv zeta. intros H.
  apply find_some in H. exact H.
Qed.

(** X15. A keyword returned by [parse_feedback_from_text] is a key of
    [FEEDBACK_KEYWORDS], so the lookup [FEEDBACK_KEYWORDS[feedback]] in
    [check_for_feedback] never raises [KeyError]; its adjustment is +0.5
    for the four "easy" keywords, -0.5 for the four "hard" keywords and
    0.0 for the three others. *)
Theorem parsed_keyword_has_adjustment (t : text) (kw : string)
  (Hparse : parse_feedback_from_text t = Some kw) :
  In kw (keys FEEDBACK_KEYWORDS)
  /\ exists a : Q,
       lookup kw FEEDBACK_KEYWORDS = inr a
       /\ ((In kw ["easy"; "too easy"; "easier"; "simple"]%string
            /\ a = 0.5)
           \/ (In kw ["hard"; "too hard"; "harder"; "difficult"]%string
               /\ a = -0.5)
           \/ (In kw ["perfect"; "good"; "just right"]%string /\ a = 0.0)).
Proof.
  apply parse_feedback_is_keyword in Hparse as [Hin _].
  split; [exact Hin|].
  cbn in Hin.
  repeat (destruct Hin as [<- | Hin];
          [eexists; split; [reflexivity|]; cbn; tauto|]).
  destruct Hin.
Qed.

Lemma parsed_keyword_has_adjustment_witness :
  parse_feedback_from_text demasiado_facil = Some "easy"%string
  /\ exists a, lookup "easy" FEEDBACK_KEYWORDS = inr a.
Proof.
  assert (E : parse_feedback_from_text demasiado_facil = Some "easy"%string)
    by reflexivity.
  split; [exact E|].
  destruct (parsed_keyword_has_adjustment _ _ E) as (_ & a & Ha & _).
  exists a. exact Ha.
Defined.

Lemma last_error_snoc (pre : text) (c : ascii) :
  last_error (pre ++ [c]) = Some c.
Proof.
  induction pre as [|x pre IH]; [reflexivity|].
  cbn [app]. destruct (pre ++ [c]) eqn:E.
  - destruct pre; discriminate E.
  - exact IH.
Qed.

(** A whole-word occurrence of a phrase that ends in a space and a word is
    a whole-word occurrence of that word. *)
Lemma phrase_occurrence_gives_word (first rest txt : text) :
  whole_word_occurrence (first ++ " "%char :: rest) txt ->
  whole_word_occurrence rest txt.
Proof.
  intros (pre & post & E & _ & Hpost).
  exists (pre ++ first ++ [" "%char]), post.
  split.
  { rewrite E, <- !app_assoc. reflexivity. }
  split; [|exact Hpost].
  rewrite app_assoc, last_error_snoc. reflexivity.
Qed.

(** X16. The keywords "too easy" and "too hard" are never returned: a
    text in which one of them occurs at word boundaries also holds "easy"
    or "hard" at word boundaries, and these come earlier in
    [FEEDBACK_KEYWORDS].  A text that holds the phrase "too easy" yields
    the keyword "easy". *)
Theorem phrases_shadowed_by_words (t : text) :
  parse_feedback_from_text t <> Some "too easy"%string
  /\ parse_feedback_from_text t <> Some "too hard"%string
  /\ (whole_word_occurrence (str "too easy") (lower t) ->
      parse_feedback_from_text t = Some "easy"%string).
Proof.
  assert (Heasy : whole_word_occurrence (str "too easy") (lower t) ->
                  re_search_word "easy" (lower t) = true).
  { intros H. apply re_search_word_spec; [cbn; tauto|].
    exact (phrase_occurrence_gives_word (str "too") (str "easy") _ H). }
  assert (Hhard : whole_word_occurrence (str "too hard") (lower t) ->
                  re_search_word "hard" (lower t) = true).
  { intros H. apply re_search_word_spec; [cbn; tauto|].
    exact (phrase_occurrence_gives_word (str "too") (str "hard") _ H). }
  split; [|split].
  - intros H. pose proof (parse_feedback_is_keyword _ _ H) as [Hin Hs].
    apply re_search_word_spec in Hs; [|exact Hin]. apply Heasy in Hs.
    unfold parse_feedback_from_text in H. cbv zeta in H.
    cbn [keys FEEDBACK_KEYWORDS map fst find] in H.
    rewrite Hs in H. discriminate H.
  - intros H. pose proof (parse_feedback_is_keyword _ _ H) as [Hin Hs].
    apply re_search_word_spec in Hs; [|exact Hin]. apply Hhard in Hs.
    unfold parse_feedback_from_text in H. cbv zeta in H.
    cbn [keys FEEDBACK_KEYWORDS map fst find] in H.
    destruct (re_search_word "easy" (lower t)); [discriminate H|].
    destruct (re_search_word "too easy" (lower t)); [discriminate H|].
    destruct (re_search_word "easier" (lower t)); [discriminate H|].
    destruct (re_search_word "simple" (lower t)); [discriminate H|].
    rewrite Hs in H. discriminate H.
  - intros H. apply Heasy in H.
    unfold parse_feedback_from_text. cbv zeta.
    cbn [keys FEEDBACK_KEYWORDS map fst find]. rewrite H. reflexivity.
Qed.

Lemma phrases_shadowed_by_words_witness :
  whole_word_occurrence (str "too easy") (lower demasiado_facil)
  /\ parse_feedback_from_text demasiado_facil = Some "easy"%string.
Proof.
  assert (H : whole_word_occurrence (str "too easy") (lower demasiado_facil)).
  { exists (str "that was "), (str ", thanks").
    split; [reflexivity|]. split; reflexivity. }
  split; [exact H|].
  exact (proj2 (proj2 (phrases_shadowed_by_words demasiado_facil)) H).
Defined.

Lemma startswith_spec (needle haystack : text) :
  startswith needle haystack = true <->
  exists post, haystack = needle ++ post.
Proof.
  revert haystack. induction needle as [|c needle IH]; intros haystack; cbn.
  - split; [intros _; exists haystack; reflexivity | reflexivity].
  - destruct haystack as [|x haystack].
    + split; [discriminate | intros [post E]; discriminate E].
    + rewrite andb_true_iff, IH. split.
      * intros [Ec [post ->]]. apply Ascii.eqb_eq in Ec as ->.
        exists post. reflexivity.
      * intros [post [= -> ->]]. split; [apply Ascii.eqb_refl|].
        exists post. reflexivity.
Qed.

(** [needle in haystack]: the needle is a contiguous part of the
    haystack. *)
Lemma str_in_spec (needle haystack : text) :
  str_in needle haystack = true <->
  exists pre post, haystack = pre ++ needle ++ post.
Proof.
  induction haystack as [|x haystack IH]; cbn [str_in];
    rewrite orb_true_iff, startswith_spec.
  - split.
    + intros [[post E] | H]; [|discriminate H]. exists [], post. exact E.
    + intros (pre & post & E). left. destruct pre; [|discriminate E].
      exists post. exact E.
  - rewrite IH. split.
    + intros [[post E] | (pre & post & ->)].
      * exists [], post. exact E.
      * exists (x :: pre), post. reflexivity.
    + intros (pre & post & E). destruct pre as [|y pre].
      * left. exists post. exact E.
      * injection E as <- ->. right. exists pre, post. reflexivity.
Qed.

(** X17. [check_for_feedback] changes the history file only when it reports
    that feedback was found.  When it does, the latest message has a
    subject that contains "daily spanish" or "re:" in any case, its body
    yields a keyword of [FEEDBACK_KEYWORDS], the reported level is the
    stored level plus the adjustment of the keyword clamped to
    [1.0, 5.0], and this level and one new log entry are what the file
    gains; the used lists are untouched. *)
Theorem feedback_changes_history_only_when_found
  (clock : Clock) (inbox : Inbox) (disk disk' : Disk)
  (found : bool) (kw : option string) (lvl : option Q)
  (Hrun : check_for_feedback clock inbox disk
          = (inr (found, kw, lvl), disk')) :
  (found = false -> disk' = disk /\ kw = None /\ lvl = None)
  /\ (found = true ->
      exists (subject body : text) (keyword : string) (a level : Q)
             (h h' : History) (log : list Adjustment),
        inbox = Latest subject body
        /\ ((exists pre post,
                lower subject = pre ++ str "daily spanish" ++ post)
            \/ (exists pre post, lower subject = pre ++ str "re:" ++ post))
        /\ parse_feedback_from_text body = Some keyword
        /\ lookup keyword FEEDBACK_KEYWORDS = inr a
        /\ kw = Some keyword /\ lvl = Some level
        /\ disk = Doc h /\ disk' = Doc h'
        /\ difficulty_adjustments h = Some log
        /\ level = max 1.0 (min 5.0 (get (current_difficulty_level h) 2.0 + a))
        /\ current_difficulty_level h' = Some level
        /\ difficulty_adjustments h'
           = Some (log ++ [ {| adj_date := today clock;
                               adj_feedback := keyword;
                               adj_old_level :=
                                 get (current_difficulty_level h) 2.0;
                               adj_new_level := level |} ])
        /\ used_verbs h' = used_verbs h
        /\ used_adjectives h' = used_adjectives h).
Proof.
  assert (Hnf : forall d : Disk,
             (@inr exn Feedback not_found, d) = (inr (found, kw, lvl), disk') ->
             (found = false -> disk' = d /\ kw = None /\ lvl = None)
             /\ (found = true -> False)).
  { intros d [= <- <- <- <-]. split; [auto | discriminate]. }
  assert (Hdone : forall (P : Prop) (d : Disk),
             (@inr exn Feedback not_found, d) = (inr (found, kw, lvl), disk') ->
             d = disk ->
             (found = false -> disk' = disk /\ kw = None /\ lvl = None)
             /\ (found = true -> P)).
  { intros P d E ->. destruct (Hnf _ E) as [H1 H2].
    split; [exact H1 | intros Ht; destruct (H2 Ht)]. }
  unfold check_for_feedback, try_except in Hrun.
  destruct inbox as [| | |subject body];
    try (apply (Hdone _ disk); [exact Hrun | reflexivity]).
  destruct (negb (str_in (str "daily spanish") (lower subject))
            && negb (str_in (str "re:") (lower subject))) eqn:Esub;
    [apply (Hdone _ disk); [exact Hrun | reflexivity]|].
  destruct (parse_feedback_from_text body) as [keyword|] eqn:Ep;
    [|apply (Hdone _ disk); [exact Hrun | reflexivity]].
  unfold bind, lift in Hrun.
  destruct (lookup keyword FEEDBACK_KEYWORDS) as [e|a] eqn:El;
    [apply (Hdone _ disk); [exact Hrun | reflexivity]|].
  destruct (update_difficulty_preference clock keyword a disk)
    as [[e|level] d1] eqn:Eu.
  { apply (Hdone _ d1); [exact Hrun|].
    assert (Ef : fst (update_difficulty_preference clock keyword a disk)
                 = inl e) by (rewrite Eu; reflexivity).
    apply update_difficulty_preference_error in Ef.
    rewrite Eu in Ef. now injection Ef. }
  cbn in Hrun. injection Hrun as <- <- <- <-.
  split; [discriminate|]. intros _.
  destruct disk as [| |h]; try discriminate Eu.
  destruct (difficulty_adjustments h) as [log|] eqn:Hlog.
  - rewrite (update_difficulty_preference_run clock keyword a h log Hlog)
      in Eu.
    injection Eu as <- <-.
    eexists subject, body, keyword, a, _, h, _, log.
    split; [reflexivity|].
    split.
    { apply andb_false_iff in Esub.
      destruct Esub as [E | E]; apply negb_false_iff, str_in_spec in E;
        [left | right]; exact E. }
    cbn. repeat split; reflexivity || assumption.
  - unfold update_difficulty_preference, bind, read_json in Eu.
    cbn [read_file] in Eu. rewrite Hlog in Eu. discriminate Eu.
Qed.

Lemma feedback_changes_history_only_when_found_witness :
  check_for_feedback reloj otro_asunto (Doc (history_at 3.0))
  = (inr (false, None, None), Doc (history_at 3.0))
  /\ exists level disk',
       check_for_feedback reloj respuesta (Doc (history_at 3.0))
       = (inr (true, Some "hard"%string, Some level), disk')
       /\ exists h', disk' = Doc h'
                     /\ current_difficulty_level h' = Some level.
Proof.
  split; [reflexivity|].
  pose proof (update_difficulty_preference_run reloj "hard" (-0.5)
                (history_at 3.0) [] eq_refl) as Hupd.
  cbv zeta in Hupd.
  assert (E : check_for_feedback reloj respuesta (Doc (history_at 3.0))
              = (inr (true, Some "hard"%string,
                      Some (max 1.0 (min 5.0 (3.0 + -0.5)))),
                 snd (update_difficulty_preference reloj "hard" (-0.5)
                        (Doc (history_at 3.0)))))
    by reflexivity.
  eexists. eexists. split; [exact E|].
  destruct (proj2 (feedback_changes_history_only_when_found _ _ _ _ _ _ _ E)
              eq_refl)
    as (subject & body & keyword & a & level & h & h' & log & _ & _ & _ & _
        & _ & Hl & _ & Hd' & _ & _ & Hcur & _).
  injection Hl as <-.
  exists h'. split; [exact Hd' | exact Hcur].
Defined.

(** X18. The keywords "perfect", "good" and "just right" carry the
    adjustment 0.0.  Such a feedback keeps a stored level that lies in
    [1.0, 5.0], and moves a stored level outside of it to the nearer end;
    in either case it appends an entry to the adjustment log and stamps
    the time of the feedback check. *)
Theorem neutral_feedback_keeps_level
  (clock : Clock) (kw : string) (h : History) (d : Q)
  (log : list Adjustment)
  (Hkw : In kw ["perfect"; "good"; "just right"]%string)
  (Hd : current_difficulty_level h = Some d)
  (Hlog : difficulty_adjustments h = Some log) :
  exists (a level : Q) (h' : History),
    lookup kw FEEDBACK_KEYWORDS = inr a
    /\ update_difficulty_preference clock kw a (Doc h) = (inr level, Doc h')
    /\ (1.0 <= d -> d <= 5.0 -> level == d)
    /\ (d < 1.0 -> level == 1.0)
    /\ (5.0 < d -> level == 5.0)
    /\ current_difficulty_level h' = Some level
    /\ difficulty_adjustments h'
       = Some (log ++ [ {| adj_date := today clock;
                           adj_feedback := kw;
                           adj_old_level := d;
                           adj_new_level := level |} ])
    /\ last_feedback_check h' = Some (Some (isoformat clock)).
Proof.
  assert (Ha : lookup kw FEEDBACK_KEYWORDS = inr 0.0).
  { destruct Hkw as [<- | [<- | [<- | []]]]; reflexivity. }
  pose proof (update_difficulty_preference_run clock kw 0.0 h log Hlog)
    as Hrun.
  cbv zeta in Hrun. rewrite Hd in Hrun. cbn [get] in Hrun.
  eexists. eexists. eexists.
  split; [exact Ha|]. split; [exact Hrun|].
  split; [intros; minmax|]. split; [intros; minmax|].
  split; [intros; minmax|].
  cbn. repeat split; reflexivity.
Qed.

Lemma neutral_feedback_keeps_level_witness :
  In "perfect"%string ["perfect"; "good"; "just right"]%string
  /\ current_difficulty_level nivel_nueve = Some 9.0
  /\ exists level h',
       update_difficulty_preference reloj "perfect" 0.0 (Doc nivel_nueve)
       = (inr level, Doc h')
       /\ level == 5.0.
Proof.
  assert (Hin : In "perfect"%string ["perfect"; "good"; "just right"]%string)
    by (left; reflexivity).
  split; [exact Hin|]. split; [reflexivity|].
  destruct (neutral_feedback_keeps_level reloj "perfect" nivel_nueve 9.0 []
              Hin eq_refl eq_refl)
    as (a & level & h' & Ha & Hrun & _ & _ & Hhi & _).
  injection Ha as <-.
  exists level, h'. split; [exact Hrun|]. apply Hhi. reflexivity.
Defined.

(** ** The SMTP connection *)

Lemma backoff_shift (delay : Z) (n : nat) :
  map (fun i => (delay * 2 * 2 ^ Z.of_nat i)%Z) (seq 0 n)
  = map (fun i => (delay * 2 ^ Z.of_nat i)%Z) (seq 1 n).
Proof.
  rewrite <- seq_shift, map_map. apply map_ext. intros i.
  rewrite Nat2Z.inj_succ, Z.pow_succ_r by lia. lia.
Qed.

Lemma connection_loop_inv {server : Type} (connect : nat -> attempt server)
  (retries : Z) (remaining : nat) :
  forall (attempt : nat) (delay : Z) r sleeps,
    (Z.of_nat attempt + Z.of_nat remaining = retries)%Z ->
    connection_loop connect retries remaining attempt delay = (r, sleeps) ->
    ((List.length sleeps < remaining)%nat
     \/ (remaining = 0%nat /\ sleeps = []))
    /\ (forall i, (i < List.length sleeps)%nat ->
          exists e, connect (attempt + i)%nat = Failed e /\ retried e = true)
    /\ sleeps = map (fun i => (delay * 2 ^ Z.of_nat i)%Z)
                    (seq 0 (List.length sleeps))
    /\ match r with
       | inr (Some s) =>
           connect (attempt + List.length sleeps)%nat = Connected s
       | inr None => remaining = 0%nat
       | inl e =>
           connect (attempt + List.length sleeps)%nat = Failed e
           /\ (retried e = true ->
               (Z.of_nat (attempt + List.length sleeps) = retries - 1)%Z)
       end.
Proof.
  induction remaining as [|remaining' IH]; intros attempt delay r sleeps Hinv;
    cbn [connection_loop].
  - intros [= <- <-]. repeat split; auto. intros i Hi. inversion Hi.
  - destruct (connect attempt) as [s|e] eqn:Ec.
    + intros [= <- <-]. cbn [List.length]. rewrite Nat.add_0_r.
      repeat split; auto; [left; lia | intros i Hi; inversion Hi].
    + destruct (retried e) eqn:Er.
      * destruct (Z.ltb_spec (Z.of_nat attempt) (retries - 1)) as [Hlt|Hge].
        -- destruct (connection_loop connect retries remaining' (S attempt)
                       (delay * 2)) as [r' sleeps'] eqn:Erec.
           intros [= <- <-].
           destruct (IH (S attempt) (delay * 2)%Z r' sleeps'
                        ltac:(lia) Erec) as (Hlen & Hfail & Hsl & Hr).
           cbn [List.length].
           split; [left; destruct Hlen as [Hlen | [-> _]]; lia|].
           split.
           { intros [|j] Hj.
             - rewrite Nat.add_0_r. eauto.
             - rewrite Nat.add_succ_r. apply (Hfail j). lia. }
           split.
           { cbn [seq map]. rewrite Z.pow_0_r, Z.mul_1_r. f_equal.
             rewrite Hsl at 1. apply backoff_shift. }
           rewrite Nat.add_succ_r.
           destruct r' as [e' | [s'|]]; [exact Hr | exact Hr | lia].
        -- intros [= <- <-]. cbn [List.length]. rewrite Nat.add_0_r.
           repeat split; auto; [left; lia | intros i Hi; inversion Hi | lia].
      * intros [= <- <-]. cbn [List.length]. rewrite Nat.add_0_r.
        repeat split; auto; [left; lia | intros i Hi; inversion Hi
                            | congruence].
Qed.

(** X19. [create_smtp_connection] makes at most [retries] attempts.  It
    returns the connection of the first attempt that succeeds, all earlier
    attempts having failed with [SMTPException] or [OSError]; it raises
    the error of an attempt at once when that error is of another kind,
    and the error of the last attempt when all [retries] attempts failed.
    With [retries <= 0] it makes no attempt and returns [None] instead of
    raising. *)
Theorem create_smtp_connection_outcome {server : Type}
  (connect : nat -> attempt server) (retries delay : Z)
  (r : smtp_exn + option server) (sleeps : list Z)
  (Hrun : create_smtp_connection connect retries delay = (r, sleeps)) :
  let n := List.length sleeps in
  (forall i, (i < n)%nat ->
      exists e, connect i = Failed e /\ retried e = true)
  /\ ((retries <= 0)%Z -> r = inr None /\ sleeps = [])
  /\ ((0 < retries)%Z ->
      (Z.of_nat n < retries)%Z
      /\ match r with
         | inr (Some s) => connect n = Connected s
         | inr None => False
         | inl e =>
             connect n = Failed e
             /\ (retried e = true -> (Z.of_nat n = retries - 1)%Z)
         end).
Proof.
  unfold create_smtp_connection in Hrun.
  destruct (Z.leb_spec retries 0) as [Hle | Hgt].
  - replace (Z.to_nat retries) with 0%nat in Hrun by lia.
    cbn in Hrun. injection Hrun as <- <-. cbn.
    split; [intros i Hi; inversion Hi|]. split; [auto|]. intros; lia.
  - destruct (connection_loop_inv connect retries (Z.to_nat retries)
                0%nat delay r sleeps ltac:(lia) Hrun)
      as (Hlen & Hfail & _ & Hr).
    cbn zeta. split; [exact Hfail|]. split; [lia|]. intros _.
    split; [destruct Hlen as [Hlen | [E _]]; lia|].
    destruct r as [e | [s|]]; cbn [Nat.add] in Hr; [exact Hr | exact Hr|].
    lia.
Qed.

Lemma create_smtp_connection_outcome_witness :
  create_smtp_connection a_la_tercera 3 5 = (inr (Some 2%nat), [5%Z; 10%Z])
  /\ a_la_tercera 2 = Connected 2%nat
  /\ create_smtp_connection sin_conexion 3 5
     = (inl SocketError, [5%Z; 10%Z]).
Proof.
  assert (E : create_smtp_connection a_la_tercera 3 5
              = (inr (Some 2%nat), [5%Z; 10%Z])) by reflexivity.
  split; [exact E|]. split; [|reflexivity].
  destruct (create_smtp_connection_outcome a_la_tercera 3 5 _ _ E)
    as (_ & _ & H).
  exact (proj2 (H eq_refl)).
Defined.

Lemma sum_snoc (l : list Z) (x : Z) :
  fold_right Z.add 0%Z (l ++ [x]) = (fold_right Z.add 0 l + x)%Z.
Proof. induction l as [|y l IH]; cbn; [lia | rewrite IH; lia]. Qed.

Lemma sum_backoff (delay : Z) (n : nat) :
  fold_right Z.add 0%Z
    (map (fun i => (delay * 2 ^ Z.of_nat i)%Z) (seq 0 n))
  = (delay * (2 ^ Z.of_nat n - 1))%Z.
Proof.
  induction n as [|n IH]; [cbn; lia|].
  rewrite seq_S, map_app. cbn [map Nat.add]. rewrite sum_snoc, IH.
  rewrite Nat2Z.inj_succ, Z.pow_succ_r by lia. lia.
Qed.

(** X20. Between attempts [create_smtp_connection] sleeps [delay],
    [2 * delay], [4 * delay], ... seconds: the [i]-th sleep lasts
    [delay * 2^i].  The time slept in total is [delay * (2^n - 1)] for [n]
    sleeps; with a non-negative delay it is at most
    [delay * (2^(retries-1) - 1)], which is 15 seconds for the defaults 3
    and 5. *)
Theorem create_smtp_connection_backoff {server : Type}
  (connect : nat -> attempt server) (retries delay : Z)
  (r : smtp_exn + option server) (sleeps : list Z)
  (Hrun : create_smtp_connection connect retries delay = (r, sleeps)) :
  sleeps = map (fun i => (delay * 2 ^ Z.of_nat i)%Z)
               (seq 0 (List.length sleeps))
  /\ fold_right Z.add 0%Z sleeps
     = (delay * (2 ^ Z.of_nat (List.length sleeps) - 1))%Z
  /\ ((0 <= delay)%Z -> (0 < retries)%Z ->
      (fold_right Z.add 0 sleeps <= delay * (2 ^ (retries - 1) - 1))%Z).
Proof.
  unfold create_smtp_connection in Hrun.
  destruct (Z.leb_spec retries 0) as [Hle | Hgt].
  - replace (Z.to_nat retries) with 0%nat in Hrun by lia.
    cbn in Hrun. injection Hrun as <- <-. cbn.
    split; [reflexivity|]. split; lia.
  - destruct (connection_loop_inv connect retries (Z.to_nat retries)
                0%nat delay r sleeps ltac:(lia) Hrun)
      as (Hlen & _ & Hsl & _).
    assert (Hsum : fold_right Z.add 0%Z sleeps
                   = (delay * (2 ^ Z.of_nat (List.length sleeps) - 1))%Z).
    { rewrite Hsl at 1. apply sum_backoff. }
    split; [exact Hsl|]. split; [exact Hsum|].
    intros Hdelay _. rewrite Hsum.
    apply Z.mul_le_mono_nonneg_l; [exact Hdelay|].
    assert (Hn : (Z.of_nat (List.length sleeps) <= retries - 1)%Z)
      by (destruct Hlen as [Hlen | [E _]]; lia).
    pose proof (Z.pow_le_mono_r 2 _ _ ltac:(lia) Hn). lia.
Qed.

Lemma create_smtp_connection_backoff_witness :
  create_smtp_connection sin_conexion 3 5 = (inl SocketError, [5%Z; 10%Z])
  /\ (fold_right Z.add 0 [5; 10] <= 5 * (2 ^ (3 - 1) - 1))%Z.
Proof.
  assert (E : create_smtp_connection sin_conexion 3 5
              = (inl SocketError, [5%Z; 10%Z])) by reflexivity.
  split; [exact E|].
  destruct (create_smtp_connection_backoff sin_conexion 3 5 _ _ E)
    as (_ & _ & H).
  apply H; lia.
Defined.

(** X21. [send_daily_email] reports success exactly when the template was
    rendered, one of the first three attempts to connect succeeded after
    earlier attempts that failed with [SMTPException] or [OSError] only,
    and neither sending the message nor closing the connection raised.
    It never sleeps more than 15 seconds in total. *)
Theorem send_daily_email_success {server : Type} (rendered : bool)
  (connect : nat -> attempt server)
  (send_message quit : server -> option smtp_exn) :
  (fst (send_daily_email rendered connect send_message quit) = true <->
   rendered = true
   /\ exists (n : nat) (s : server),
        (n < 3)%nat
        /\ connect n = Connected s
        /\ (forall i, (i < n)%nat ->
              exists e, connect i = Failed e /\ retried e = true)
        /\ send_message s = None
        /\ quit s = None)
  /\ (fold_right Z.add 0
        (snd (send_daily_email rendered connect send_message quit))
      <= 15)%Z.
Proof.
  split.
  2:{ unfold send_daily_email, create_smtp_connection.
      change (Z.to_nat 3) with 3%nat. cbn [connection_loop].
      destruct rendered; [|cbn; lia].
      repeat match goal with
      | |- context [match connect ?i with _ => _ end] =>
          destruct (connect i)
      | |- context [if retried ?e then _ else _] => destruct (retried e)
      | |- context [match send_message ?s with _ => _ end] =>
          destruct (send_message s)
      | |- context [match quit ?s with _ => _ end] => destruct (quit s)
      | _ => progress cbn
      end; lia. }
  unfold send_daily_email, create_smtp_connection.
  change (Z.to_nat 3) with 3%nat. cbn [connection_loop].
  destruct rendered;
    [|split; [discriminate | intros [E _]; discriminate E]].
  assert (Hlt0 : forall i, (i < 0)%nat -> exists e : smtp_exn,
                   connect i = Failed e /\ retried e = true)
    by (intros i Hi; inversion Hi).
  destruct (connect 0%nat) as [s0|e0] eqn:E0.
  { split.
    - destruct (send_message s0) eqn:Es; [discriminate|].
      destruct (quit s0) eqn:Eq; [discriminate|].
      intros _. split; [reflexivity|]. exists 0%nat, s0. auto.
    - intros (_ & n & s & Hn & Hc & Hf & Hs & Hq).
      destruct n as [|n].
      + rewrite E0 in Hc. injection Hc as <-. rewrite Hs, Hq. reflexivity.
      + destruct (Hf 0%nat ltac:(lia)) as (e & Ee & _). congruence. }
  assert (Hlt1 : retried e0 = true ->
                 forall i, (i < 1)%nat -> exists e : smtp_exn,
                   connect i = Failed e /\ retried e = true).
  { intros Hr i Hi. assert (i = 0%nat) as -> by lia. eauto. }
  destruct (retried e0) eqn:R0.
  2:{ split; [discriminate|].
      intros (_ & n & s & Hn & Hc & Hf & _).
      destruct n as [|n]; [congruence|].
      destruct (Hf 0%nat ltac:(lia)) as (e & Ee & Re). congruence. }
  change (Z.of_nat 0 <? 3 - 1)%Z with true. cbn iota.
  destruct (connect 1%nat) as [s1|e1] eqn:E1.
  { split.
    - destruct (send_message s1) eqn:Es; [discriminate|].
      destruct (quit s1) eqn:Eq; [discriminate|].
      intros _. split; [reflexivity|]. exists 1%nat, s1. auto 10.
    - intros (_ & n & s & Hn & Hc & Hf & Hs & Hq).
      destruct n as [|[|n]].
      + congruence.
      + rewrite E1 in Hc. injection Hc as <-. rewrite Hs, Hq. reflexivity.
      + destruct (Hf 1%nat ltac:(lia)) as (e & Ee & _). congruence. }
  destruct (retried e1) eqn:R1.
  2:{ split; [discriminate|].
      intros (_ & n & s & Hn & Hc & Hf & _).
      destruct n as [|[|n]]; [congruence | congruence |].
      destruct (Hf 1%nat ltac:(lia)) as (e & Ee & Re). congruence. }
  change (Z.of_nat 1 <? 3 - 1)%Z with true. cbn iota.
  destruct (connect 2%nat) as [s2|e2] eqn:E2.
  { split.
    - destruct (send_message s2) eqn:Es; [discriminate|].
      destruct (quit s2) eqn:Eq; [discriminate|].
      intros _. split; [reflexivity|]. exists 2%nat, s2.
      repeat split; auto.
      intros i Hi. destruct i as [|[|i]]; [eauto | eauto | lia].
    - intros (_ & n & s & Hn & Hc & Hf & Hs & Hq).
      destruct n as [|[|[|n]]]; try congruence; [|lia].
      rewrite E2 in Hc. injection Hc as <-. rewrite Hs, Hq. reflexivity. }
  assert (Hnone : forall n s, (n < 3)%nat -> connect n <> Connected s).
  { intros n s Hn. destruct n as [|[|[|n]]]; try congruence. lia. }
  destruct (retried e2);
    change (Z.of_nat 2 <? 3 - 1)%Z with false; cbn iota;
    (split; [discriminate|]);
    intros (_ & n & s & Hn & Hc & _); destruct (Hnone n s Hn Hc).
Qed.

Lemma send_daily_email_success_witness :
  send_daily_email true a_la_tercera sin_error sin_error
  = (true, [5%Z; 10%Z])
  /\ fst (send_daily_email true sin_conexion sin_error sin_error) = false.
Proof.
  split; [reflexivity|].
  destruct (send_daily_email_success true sin_conexion sin_error sin_error)
    as [Hiff _].
  destruct (fst (send_daily_email true sin_conexion sin_error sin_error))
    eqn:E; [|reflexivity].
  destruct (proj1 Hiff eq_refl) as (_ & n & s & _ & Hc & _).
  discriminate Hc.
Defined.

(** ** The body of a reply *)

Lemma first_plain_text_none (parts : list Message) (body : text) :
  (forall part, In part parts ->
     get_content_type part = "text/plain"%string ->
     get_payload part = None) ->
  first_plain_text parts body = body.
Proof.
  induction parts as [|p parts IH]; intros H; [reflexivity|].
  cbn [first_plain_text].
  destruct (String.eqb_spec (get_content_type p) "text/plain") as [E|_].
  - rewrite (H p (or_introl eq_refl) E). apply IH.
    intros q Hq. apply H. right. exact Hq.
  - apply IH. intros q Hq. apply H. right. exact Hq.
Qed.

Lemma first_plain_text_first
  (before after : list Message) (part : Message) (b body : text) :
  get_content_type part = "text/plain"%string ->
  get_payload part = Some b ->
  (forall p, In p before ->
     get_content_type p = "text/plain"%string -> get_payload p = None) ->
  first_plain_text (before ++ part :: after) body = b.
Proof.
  intros Hc Hp. induction before as [|p before IH]; intros H; cbn.
  - rewrite Hc. cbn. rewrite Hp. reflexivity.
  - destruct (String.eqb_spec (get_content_type p) "text/plain") as [E|_].
    + rewrite (H p (or_introl eq_refl) E). apply IH.
      intros q Hq. apply H. right. exact Hq.
    + apply IH. intros q Hq. apply H. right. exact Hq.
Qed.

(** X22. A multipart reply without a [text/plain] part that decodes has
    the empty body, whatever its other parts say, and so
    [check_for_feedback] reports nothing for it and leaves the history
    alone. *)
Theorem reply_without_plain_text_is_ignored
  (clock : Clock) (subject : text) (msg : Message) (disk : DataManager.Disk)
  (Hmulti : is_multipart msg = true)
  (Hnone : forall part, In part (walk msg) ->
             get_content_type part = "text/plain"%string ->
             get_payload part = None) :
  get_email_body msg = []
  /\ check_for_feedback clock (Latest subject (get_email_body msg)) disk
     = (inr not_found, disk).
Proof.
  assert (E : get_email_body msg = []).
  { unfold get_email_body. cbv zeta. rewrite Hmulti.
    apply first_plain_text_none. exact Hnone. }
  split; [exact E|]. rewrite E.
  unfold check_for_feedback, try_except.
  destruct (negb (str_in (str "daily spanish") (lower subject))
            && negb (str_in (str "re:") (lower subject))); reflexivity.
Qed.

Lemma reply_without_plain_text_is_ignored_witness :
  is_multipart solo_html = true
  /\ check_for_feedback reloj
       (Latest (str "Re: Daily Spanish") (get_email_body solo_html))
       (Doc (history_at 3.0))
     = (inr not_found, Doc (history_at 3.0)).
Proof.
  split; [reflexivity|].
  apply reply_without_plain_text_is_ignored; [reflexivity|].
  cbn. intros part [<- | [<- | []]]; cbn; [reflexivity | discriminate].
Defined.

(** X23. The body of a multipart message is the payload of its first
    [text/plain] part that decodes, in the order of [walk]; the parts
    after it, of whatever type, play no role.  The body of a message that
    is not multipart is its payload, whatever its content type, and empty
    when the payload does not decode. *)
Theorem body_is_first_plain_text :
  (forall (c : string) (parts before after : list Message)
          (part : Message) (b : text),
      walk (Multipart c parts) = before ++ part :: after ->
      get_content_type part = "text/plain"%string ->
      get_payload part = Some b ->
      (forall p, In p before ->
         get_content_type p = "text/plain"%string -> get_payload p = None) ->
      get_email_body (Multipart c parts) = b)
  /\ (forall (c : string) (b : text), get_email_body (Part c (Some b)) = b)
  /\ (forall c : string, get_email_body (Part c None) = []).
Proof.
  split; [|split; reflexivity].
  intros c parts before after part b Hwalk Hc Hp Hbefore.
  unfold get_email_body. cbv zeta. cbn [is_multipart].
  rewrite Hwalk. apply first_plain_text_first; assumption.
Qed.

Lemma body_is_first_plain_text_witness :
  walk html_y_texto
  = [html_y_texto; Part "text/html" (Some (str "<p>too easy</p>"))]
    ++ Part "text/plain" (Some (str "too hard"))
       :: [Part "text/plain" (Some (str "perfect"))]
  /\ get_email_body html_y_texto = str "too hard".
Proof.
  assert (E : walk html_y_texto
              = [html_y_texto; Part "text/html" (Some (str "<p>too easy</p>"))]
                ++ Part "text/plain" (Some (str "too hard"))
                   :: [Part "text/plain" (Some (str "perfect"))])
    by reflexivity.
  split; [exact E|].
  apply (proj1 body_is_first_plain_text _ _ _ _ _ _ E);
    [reflexivity | reflexivity |].
  intros p [<- | [<- | []]]; cbn; discriminate.
Defined.

(** ** Consecutive days *)

(** One day that ends with status 0 on a history document with the four
    keys of [update_history]: the selection succeeded, and the used lists
    of the new document extend the lists that the selection left. *)
Lemma day_with_status_0
  (test : bool) (vf af : file WordFile) (dv da : Draw)
  (send : Main.Delivery) (clock : Clock) (h : History) (disk' : Disk)
  (sent : list SentEmail) (uv ua : list Z) (total : Z) :
  sent_emails h = Some sent ->
  used_verbs h = Some uv ->
  used_adjectives h = Some ua ->
  total_emails_sent h = Some total ->
  Main.main true test false vf af dv da send clock (Doc h) = (0%Z, disk') ->
  exists (v a : Word) (vr ar : bool) (h' : History)
         (sent' : list SentEmail),
    fst (select_daily_words vf af dv da (Doc h)) = inr (v, a, vr, ar)
    /\ disk' = Doc h'
    /\ sent_emails h' = Some sent'
    /\ used_verbs h' = Some ((if vr then [] else uv) ++ [id v])
    /\ used_adjectives h' = Some ((if ar then [] else ua) ++ [id a])
    /\ total_emails_sent h' = Some (total + 1)%Z
    /\ ~ In (id v) (if vr then [] else uv)
    /\ ~ In (id a) (if ar then [] else ua)
    /\ (forall vs, load_words vf = inr vs -> In v vs)
    /\ (forall ajs, load_words af = inr ajs -> In a ajs).
Proof.
  intros Hsent Huv Hua Htotal Hmain.
  rewrite main_unfold in Hmain.
  destruct (select_daily_words vf af dv da (Doc h))
    as [[e|[[[v a] vr] ar]] d1] eqn:Hsel; [discriminate Hmain|].
  destruct (select_daily_words_inr _ _ _ _ _ _ _ _ _ _ Hsel)
    as (vs & ajs & Hv & Ha & Hvr & Har & Hinv & Hina & ->).
  cbn [used_verb_ids used_adjective_ids] in *.
  rewrite Huv in Hinv. rewrite Hua in Hina. cbn [get] in *.
  rewrite get_difficulty_level_run in Hmain by discriminate.
  destruct (send v a _ _ _ test); [|discriminate Hmain].
  assert (Hfresh_v : ~ In (id v) (if vr then [] else uv)).
  { destruct vr; [intros []|].
    apply get_unused_words_In in Hinv. tauto. }
  assert (Hfresh_a : ~ In (id a) (if ar then [] else ua)).
  { destruct ar; [intros []|].
    apply get_unused_words_In in Hina. tauto. }
  rewrite (update_history_success_run clock (id v) (id a) _
             (after_resets vr ar h) sent
             (if vr then [] else uv) (if ar then [] else ua) total)
    in Hmain;
    try (unfold after_resets; destruct vr, ar; cbn; assumption || reflexivity).
  rewrite (append_if_new_fresh _ _ Hfresh_v) in Hmain.
  rewrite (append_if_new_fresh _ _ Hfresh_a) in Hmain.
  injection Hmain as <-.
  exists v, a, vr, ar. eexists. eexists.
  split; [reflexivity|]. split; [reflexivity|].
  cbn. repeat split; try reflexivity; try assumption.
  - intros vs' E. rewrite Hv in E. injection E as <-.
    destruct vr; [exact Hinv|]. apply get_unused_words_In in Hinv. tauto.
  - intros ajs' E. rewrite Ha in E. injection E as <-.
    destruct ar; [exact Hina|]. apply get_unused_words_In in Hina. tauto.
Qed.

(** Days without a reset of the verbs: the verbs sent are pairwise
    distinct and none of them was in the used list at the start. *)
Lemma days_without_reset
  (test : bool) (vf af : file WordFile) (send : Main.Delivery)
  (clock : Clock) (vs : list Word) :
  load_words vf = inr vs ->
  forall (days : list (Draw * Draw)) (sels : list Selection)
         (h : History) (final : Disk)
         (sent : list SentEmail) (uv ua : list Z) (total : Z),
    sent_emails h = Some sent ->
    used_verbs h = Some uv ->
    used_adjectives h = Some ua ->
    total_emails_sent h = Some total ->
    daily_runs test vf af send clock days (Doc h)
    = (map (fun s => (inr s, 0%Z)) sels, final) ->
    (forall s, In s sels -> sel_verb_reset s = false) ->
    NoDup (map (fun s => id (sel_verb s)) sels)
    /\ (forall s, In s sels -> ~ In (id (sel_verb s)) uv)
    /\ (forall s, In s sels -> In (sel_verb s) vs).
Proof.
  intros Hvs days.
  induction days as [|[dv da] days IH];
    intros sels h final sent uv ua total Hsent Huv Hua Htotal Hruns Hnr.
  - cbn in Hruns. destruct sels; [|discriminate Hruns].
    split; [constructor|]. split; intros s [].
  - cbn [daily_runs] in Hruns.
    destruct (Main.main true test false vf af dv da send clock (Doc h))
      as [status d1] eqn:Hmain.
    destruct (daily_runs test vf af send clock days d1)
      as [log final'] eqn:Hrest.
    destruct sels as [|s sels]; [discriminate Hruns|].
    cbn [map] in Hruns. injection Hruns as Hs Hst Hlog Hfin.
    subst status log final'.
    destruct (day_with_status_0 _ _ _ _ _ _ _ _ _ _ _ _ _
                Hsent Huv Hua Htotal Hmain)
      as (v & a & vr & ar & h' & sent' & Hsel & -> & Hsent' & Huv' & Hua'
          & Htotal' & Hfv & _ & Hinv & _).
    rewrite Hsel in Hs. injection Hs as <-.
    assert (Hvr : vr = false) by (apply (Hnr _ (or_introl eq_refl))).
    subst vr.
    destruct (IH sels h' _ sent' _ _ _ Hsent' Huv' Hua' Htotal' Hrest)
      as (Hnd & Hfresh & Hin).
    { intros s Hs. apply Hnr. right. exact Hs. }
    cbn [map sel_verb].
    split.
    { constructor; [|exact Hnd].
      intros Hdup. apply in_map_iff in Hdup as (s & Eid & Hs).
      apply (Hfresh s Hs). rewrite Eid. apply in_or_app. right. left.
      reflexivity. }
    split.
    { intros s [<- | Hs]; [exact Hfv|].
      intros Hu. apply (Hfresh s Hs). apply in_or_app. left. exact Hu. }
    intros s [<- | Hs]; [exact (Hinv vs Hvs) | exact (Hin s Hs)].
Qed.

(** X24. Over consecutive days that all end with status 0, starting from a
    history document with the four keys of [update_history], the verbs
    sent are pairwise distinct as long as no reset of the verbs occurs
    after the first day; such a stretch is therefore never longer than the
    catalog of verbs. *)
Theorem no_repeat_within_cycle
  (test : bool) (vf af : file WordFile) (send : Main.Delivery)
  (clock : Clock) (vs : list Word)
  (days : list (Draw * Draw)) (sels : list Selection)
  (h : History) (final : Disk)
  (sent : list SentEmail) (uv ua : list Z) (total : Z)
  (Hvs : load_words vf = inr vs)
  (Hsent : sent_emails h = Some sent)
  (Huv : used_verbs h = Some uv)
  (Hua : used_adjectives h = Some ua)
  (Htotal : total_emails_sent h = Some total)
  (Hruns : daily_runs test vf af send clock days (Doc h)
           = (map (fun s => (inr s, 0%Z)) sels, final))
  (Hnr : forall s, In s (tl sels) -> sel_verb_reset s = false) :
  NoDup (map (fun s => id (sel_verb s)) sels)
  /\ (List.length sels <= List.length vs)%nat.
Proof.
  assert (Hnd : NoDup (map (fun s => id (sel_verb s)) sels)
                /\ (forall s, In s sels -> In (sel_verb s) vs)).
  { destruct days as [|[dv da] days].
    - cbn in Hruns. destruct sels; [|discriminate Hruns].
      split; [constructor | intros s []].
    - cbn [daily_runs] in Hruns.
      destruct (Main.main true test false vf af dv da send clock (Doc h))
        as [status d1] eqn:Hmain.
      destruct (daily_runs test vf af send clock days d1)
        as [log final'] eqn:Hrest.
      destruct sels as [|s sels]; [discriminate Hruns|].
      cbn [map] in Hruns. injection Hruns as Hs Hst Hlog Hfin.
    subst status log final'.
      destruct (day_with_status_0 _ _ _ _ _ _ _ _ _ _ _ _ _
                  Hsent Huv Hua Htotal Hmain)
        as (v & a & vr & ar & h' & sent' & Hsel & -> & Hsent' & Huv' & Hua'
            & Htotal' & _ & _ & Hinv & _).
      rewrite Hsel in Hs. injection Hs as <-.
      destruct (days_without_reset test vf af send clock vs Hvs days sels
                  h' _ sent' _ _ _ Hsent' Huv' Hua' Htotal' Hrest Hnr)
        as (Hnd & Hfresh & Hin).
      cbn [map sel_verb]. split.
      + constructor; [|exact Hnd].
        intros Hdup. apply in_map_iff in Hdup as (s & Eid & Hs).
        apply (Hfresh s Hs). rewrite Eid. apply in_or_app. right. left.
        reflexivity.
      + intros s [<- | Hs]; [exact (Hinv vs Hvs) | exact (Hin s Hs)]. }
  destruct Hnd as [Hnd Hin]. split; [exact Hnd|].
  rewrite <- (length_map (fun s => id (sel_verb s)) sels).
  rewrite <- (length_map id vs).
  apply NoDup_incl_length; [exact Hnd|].
  intros x Hx. apply in_map_iff in Hx as (s & <- & Hs).
  apply in_map. apply Hin. exact Hs.
Qed.

Lemma no_repeat_within_cycle_witness :
  fst (daily_runs false tres_verbos un_adjetivo entrega reloj tres_dias
         (Doc empty_history))
  = map (fun s => (inr s, 0%Z)) tres_selecciones
  /\ NoDup (map (fun s => id (sel_verb s)) tres_selecciones)
  /\ (List.length tres_selecciones <= 3)%nat.
Proof.
  assert (E : daily_runs false tres_verbos un_adjetivo entrega reloj
                tres_dias (Doc empty_history)
              = (map (fun s => (inr s, 0%Z)) tres_selecciones,
                 snd (daily_runs false tres_verbos un_adjetivo entrega reloj
                        tres_dias (Doc empty_history))))
    by (vm_compute; reflexivity).
  split; [rewrite E; reflexivity|].
  apply (no_repeat_within_cycle false tres_verbos un_adjetivo entrega reloj
           _ tres_dias tres_selecciones empty_history _ [] [] [] 0%Z
           eq_refl eq_refl eq_refl eq_refl eq_refl E).
  intros s [<- | [<- | []]]; reflexivity.
Defined.

(** ** Invariants of the history file *)

Section Preservation.

(** A property of the history file that the three writers keep is kept by
    the two entry points, whatever their inputs and outcome. *)
Variable P : Disk -> Prop.
Hypothesis P_resets :
  forall (h : History) (vr ar : bool),
    P (Doc h) -> P (Doc (after_resets vr ar h)).
Hypothesis P_update_history :
  forall clock v a success level disk,
    P disk -> P (snd (update_history clock v a success level disk)).
Hypothesis P_update_difficulty :
  forall clock kw a disk,
    P disk -> P (snd (update_difficulty_preference clock kw a disk)).

Lemma select_daily_words_preserves
  (vf af : file WordFile) (dv da : Draw) (disk : Disk) :
  P disk -> P (snd (select_daily_words vf af dv da disk)).
Proof.
  intros HP.
  destruct (load_words vf) as [e|vs] eqn:Hv.
  { unfold select_daily_words, bind, lift. rewrite Hv. exact HP. }
  destruct (load_words af) as [e|ajs] eqn:Ha.
  { unfold select_daily_words, bind, lift. rewrite Hv, Ha. exact HP. }
  destruct disk as [| |h].
  - rewrite (select_daily_words_absent vf af dv da vs ajs Hv Ha).
    repeat match goal with
    | |- context [if ?b then _ else _] => destruct b
    | |- context [match ?x with inl _ => _ | inr _ => _ end] => destruct x
    end; exact HP.
  - rewrite (select_daily_words_corrupt vf af dv da vs ajs Hv Ha). exact HP.
  - rewrite (select_daily_words_doc vf af dv da h vs ajs Hv Ha). cbv zeta.
    repeat match goal with
    | |- context [match ?x with inl _ => _ | inr _ => _ end] => destruct x
    end; cbn [snd]; apply P_resets; exact HP.
Qed.

Lemma main_preserves
  (config_ok test dry_run : bool) (vf af : file WordFile) (dv da : Draw)
  (send : Main.Delivery) (clock : Clock) (disk : Disk) :
  P disk ->
  P (snd (Main.main config_ok test dry_run vf af dv da send clock disk)).
Proof.
  intros HP. rewrite main_unfold. destruct config_ok; [|exact HP].
  pose proof (select_daily_words_preserves vf af dv da disk HP) as H1.
  destruct (select_daily_words vf af dv da disk)
    as [[e|[[[v a] vr] ar]] d1]; cbn [snd] in H1; [exact H1|].
  assert (H2 : snd (get_difficulty_level d1) = d1).
  { destruct d1; reflexivity. }
  destruct (get_difficulty_level d1) as [[e|level] d2]; cbn [snd] in H2;
    subst d2; [exact H1|].
  destruct dry_run; [exact H1|].
  destruct (send v a level _ _ test); [|exact H1].
  pose proof (P_update_history clock (id v) (id a) true level d1 H1) as H3.
  destruct (update_history clock (id v) (id a) true level d1)
    as [[e|u] d3]; exact H3.
Qed.

Lemma check_for_feedback_preserves
  (clock : Clock) (inbox : Inbox) (disk : Disk) :
  P disk -> P (snd (check_for_feedback clock inbox disk)).
Proof.
  intros HP. unfold check_for_feedback, try_except.
  destruct inbox as [| | |subject body]; try exact HP.
  destruct (negb _ && negb _); [exact HP|].
  destruct (parse_feedback_from_text body) as [kw|]; [|exact HP].
  unfold bind, lift.
  destruct (lookup kw FEEDBACK_KEYWORDS) as [e|a]; [exact HP|].
  pose proof (P_update_difficulty clock kw a disk HP) as H1.
  destruct (update_difficulty_preference clock kw a disk) as [[e|level] d1];
    exact H1.
Qed.

End Preservation.

Lemma update_history_level
  (clock : Clock) (v a : Z) (success : bool) (level : Q) (disk : Disk) :
  level_in_range disk ->
  level_in_range (snd (update_history clock v a success level disk)).
Proof.
  intros H. unfold update_history, bind, try_except, read_json.
  destruct disk as [| |h]; cbn [read_file is_FileNotFoundError].
  - destruct success; cbn; split; discriminate.
  - exact H.
  - destruct (sent_emails h); cbn; [|exact H].
    destruct success; cbn; [|exact H].
    destruct (used_verbs h); cbn; [|exact H].
    destruct (used_adjectives h); cbn; [|exact H].
    destruct (total_emails_sent h); cbn; exact H.
Qed.

Lemma update_difficulty_level
  (clock : Clock) (kw : string) (a : Q) (disk : Disk) :
  level_in_range disk ->
  level_in_range (snd (update_difficulty_preference clock kw a disk)).
Proof.
  intros H. destruct disk as [| |h]; try exact I.
  destruct (difficulty_adjustments h) as [log|] eqn:Hlog.
  - rewrite (update_difficulty_preference_run clock kw a h log Hlog).
    cbn. split; minmax.
  - unfold update_difficulty_preference, bind, read_json.
    cbn [read_file]. rewrite Hlog. exact H.
Qed.

(** X25. Once the level stored in the history file lies in [1.0, 5.0], it
    stays there: neither a send cycle nor a feedback check, whatever their
    inputs and however they end, leaves a file whose level is outside the
    range; a file created by the first send holds the level 2.0. *)
Theorem stored_level_stays_in_range (disk : Disk)
  (Hrange : level_in_range disk) :
  (forall (config_ok test dry_run : bool) (vf af : file WordFile)
          (dv da : Draw) (send : Main.Delivery) (clock : Clock),
      level_in_range
        (snd (Main.main config_ok test dry_run vf af dv da send clock disk)))
  /\ (forall (clock : Clock) (inbox : Inbox),
         level_in_range (snd (check_for_feedback clock inbox disk)))
  /\ (forall (config_ok : bool) (clock : Clock) (inbox : Inbox),
         level_in_range (snd (CheckFeedback.main config_ok clock inbox disk))).
Proof.
  assert (Hresets : forall (h : History) (vr ar : bool),
             level_in_range (Doc h) ->
             level_in_range (Doc (after_resets vr ar h))).
  { intros h vr ar H. unfold after_resets. destruct vr, ar; exact H. }
  split; [|split].
  - intros. apply (main_preserves level_in_range); auto.
    intros. apply update_history_level. assumption.
  - intros. apply (check_for_feedback_preserves level_in_range); auto.
    intros. apply update_difficulty_level. assumption.
  - intros config_ok clock inbox.
    unfold CheckFeedback.main, Settings.validate, bind.
    destruct config_ok; cbn [ret raise]; [|exact Hrange].
    pose proof (check_for_feedback_preserves level_in_range
                  update_difficulty_level clock inbox disk Hrange) as H.
    destruct (check_for_feedback clock inbox disk) as [[e|[[f k] l]] d1];
      exact H.
Qed.

Lemma stored_level_stays_in_range_witness :
  level_in_range (Doc (history_at 5.0))
  /\ level_in_range
       (snd (check_for_feedback reloj
               (Latest (str "Re: Daily Spanish") (str "too easy"))
               (Doc (history_at 5.0)))).
Proof.
  assert (H : level_in_range (Doc (history_at 5.0)))
    by (cbn; split; discriminate).
  split; [exact H|].
  apply (proj1 (proj2 (stored_level_stays_in_range _ H))).
Defined.

Lemma update_history_unique
  (clock : Clock) (v a : Z) (success : bool) (level : Q) (disk : Disk) :
  used_ids_unique disk ->
  used_ids_unique (snd (update_history clock v a success level disk)).
Proof.
  intros H. unfold update_history, bind, try_except, read_json.
  destruct disk as [| |h]; cbn [read_file is_FileNotFoundError].
  - destruct success; cbn; split; repeat constructor; intros [].
  - exact H.
  - destruct (sent_emails h); cbn; [|exact H].
    destruct success; cbn; [|exact H].
    destruct (used_verbs h) as [uv|] eqn:Ev; cbn; [|exact H].
    destruct (used_adjectives h) as [ua|] eqn:Ea; cbn; [|exact H].
    destruct (total_emails_sent h); cbn; [|exact H].
    cbn in H. rewrite Ev, Ea in H. destruct H as [Hv Ha].
    split; apply append_if_new_NoDup; assumption.
Qed.

Lemma update_difficulty_unique
  (clock : Clock) (kw : string) (a : Q) (disk : Disk) :
  used_ids_unique disk ->
  used_ids_unique (snd (update_difficulty_preference clock kw a disk)).
Proof.
  intros H. destruct disk as [| |h]; try exact I.
  destruct (difficulty_adjustments h) as [log|] eqn:Hlog.
  - rewrite (update_difficulty_preference_run clock kw a h log Hlog).
    exact H.
  - unfold update_difficulty_preference, bind, read_json.
    cbn [read_file]. rewrite Hlog. exact H.
Qed.

(** X26. A history file whose used lists hold each ID at most once keeps
    this property through every send cycle and every feedback check,
    whatever their inputs and however they end. *)
Theorem used_ids_stay_unique (disk : Disk)
  (Hunique : used_ids_unique disk) :
  (forall (config_ok test dry_run : bool) (vf af : file WordFile)
          (dv da : Draw) (send : Main.Delivery) (clock : Clock),
      used_ids_unique
        (snd (Main.main config_ok test dry_run vf af dv da send clock disk)))
  /\ (forall (clock : Clock) (inbox : Inbox),
         used_ids_unique (snd (check_for_feedback clock inbox disk))).
Proof.
  assert (Hresets : forall (h : History) (vr ar : bool),
             used_ids_unique (Doc h) ->
             used_ids_unique (Doc (after_resets vr ar h))).
  { intros h vr ar [Hv Ha]. unfold after_resets.
    destruct vr, ar; cbn; split; assumption || constructor. }
  split.
  - intros. apply (main_preserves used_ids_unique); auto.
    intros. apply update_history_unique. assumption.
  - intros. apply (check_for_feedback_preserves used_ids_unique); auto.
    intros. apply update_difficulty_unique. assumption.
Qed.

Lemma used_ids_stay_unique_witness :
  used_ids_unique (Doc dos_usados)
  /\ used_ids_unique
       (snd (Main.main true false false tres_verbos un_adjetivo sorteo sorteo
               entrega reloj (Doc dos_usados))).
Proof.
  assert (H : used_ids_unique (Doc dos_usados)).
  { cbn. split; repeat constructor; cbn; intuition discriminate. }
  split; [exact H|].
  apply (proj1 (used_ids_stay_unique _ H)).
Defined.

(** ** What the delivery collaborator is given *)

(** X27. A send cycle consults the delivery collaborator at most once: with
    the two selected words, the level of the history that the selection
    itself used (a reset does not change it) and its name, the reset
    message, and the test flag.  Two collaborators that agree on this one
    call give the same run; the reset message is absent exactly when no
    catalog was reset. *)
Theorem delivery_gets_selection_and_level
  (config_ok test dry_run : bool) (vf af : file WordFile) (dv da : Draw)
  (send1 send2 : Main.Delivery) (clock : Clock) (disk disk1 : Disk)
  (v a : Word) (vr ar : bool)
  (Hsel : select_daily_words vf af dv da disk = (inr (v, a, vr, ar), disk1))
  (Hagree : send1 v a (difficulty_of disk)
                  (get_difficulty_name (difficulty_of disk))
                  (Main.reset_message vr ar) test
            = send2 v a (difficulty_of disk)
                    (get_difficulty_name (difficulty_of disk))
                    (Main.reset_message vr ar) test) :
  Main.main config_ok test dry_run vf af dv da send1 clock disk
  = Main.main config_ok test dry_run vf af dv da send2 clock disk
  /\ difficulty_of disk1 = difficulty_of disk
  /\ (Main.reset_message vr ar = None <-> vr = false /\ ar = false).
Proof.
  pose proof (select_daily_words_not_corrupt _ _ _ _ _ _ _ Hsel) as Hnc.
  destruct (select_daily_words_inr _ _ _ _ _ _ _ _ _ _ Hsel)
    as (vs & ajs & _ & _ & _ & _ & _ & _ & Hd').
  assert (Hlevel : difficulty_of disk1 = difficulty_of disk).
  { rewrite Hd'. destruct disk as [| |h]; try reflexivity.
    unfold after_resets. destruct vr, ar; reflexivity. }
  split.
  { rewrite !main_unfold, Hsel, (get_difficulty_level_run disk1 Hnc), Hlevel,
      Hagree.
    reflexivity. }
  split; [exact Hlevel|].
  unfold Main.reset_message.
  destruct vr, ar; cbn; split; try discriminate; try tauto;
    intros [E1 E2]; discriminate.
Qed.

Lemma delivery_gets_selection_and_level_witness :
  select_daily_words tres_verbos un_adjetivo sorteo sorteo (Doc dos_usados)
  = (inr (verbo 3 "vivir", alto, false, false), Doc dos_usados)
  /\ Main.main true false false tres_verbos un_adjetivo sorteo sorteo
       solo_alto reloj (Doc dos_usados)
     = Main.main true false false tres_verbos un_adjetivo sorteo sorteo
         entrega reloj (Doc dos_usados).
Proof.
  assert (E : select_daily_words tres_verbos un_adjetivo sorteo sorteo
                (Doc dos_usados)
              = (inr (verbo 3 "vivir", alto, false, false), Doc dos_usados))
    by reflexivity.
  split; [exact E|].
  apply (proj1 (delivery_gets_selection_and_level true false false
                  tres_verbos un_adjetivo sorteo sorteo solo_alto entrega
                  reloj _ _ _ _ _ _ E eq_refl)).
Defined.
